(** * bestdori-live2d-downloader: the download-and-assemble pipeline

    A shallow embedding of [pkg/downloader/downloader.go] and of the data
    types of [pkg/model/types.go], with the properties of the specification
    that concern them; the callers of [Construct] in
    [cmd/bestdori-live2d-downloader/main.go] and the download list of
    [pkg/tui/model.go] follow.

    Conventions.
    - Go strings are byte strings: [string].
    - A nil-or-empty Go slice is a [list]; every slice of this program is
      built by [append] from nil, so an empty list stands for the nil slice.
    - The Go map [Motions] is a [gmap string (list MotionFile)].
    - The operating system, the HTTP server and the [path/filepath] library
      are outside the repository.  What the code observes of them is
      gathered in the record [Env]; the files on disk are a finite map
      from paths to contents.  Directories are not tracked: [os.MkdirAll]
      leaves an event in the trace and fails when [Env] says so. *)

From Stdlib Require Import ZArith Ascii String List Bool Lia Permutation.
From Stdlib Require Import DecimalString.
From stdpp Require Import base option list gmap strings sorting.

Import ListNotations.
#[local] Open Scope Z_scope.
#[local] Open Scope nat_scope.

(* ===================================================================== *)
(** * Go's [strings] and [path/filepath] functions used by the code       *)
(* ===================================================================== *)

Module GoStrings.

(** [strings.HasPrefix(s, prefix)]. *)
Definition HasPrefix (s pre : string) : bool := String.prefix pre s.

(** [strings.HasSuffix(s, suffix)]:
    [len(s) >= len(suffix) && s[len(s)-len(suffix):] == suffix]. *)
Definition HasSuffix (s suf : string) : bool :=
  (String.length suf <=? String.length s) &&
  String.eqb
    (String.substring (String.length s - String.length suf)
                      (String.length suf) s)
    suf.

(** [strings.Contains(s, substr)]: [substr] occurs at some offset. *)
Fixpoint Contains (s substr : string) : bool :=
  String.prefix substr s ||
  match s with
  | EmptyString => false
  | String _ s' => Contains s' substr
  end.

(** [strings.Split(s, sep)] for a one-byte separator [sep]: the pieces
    between the occurrences of [sep]; never the empty slice. *)
Fixpoint Split (s : string) (sep : ascii) : list string :=
  match s with
  | EmptyString => [EmptyString]
  | String c s' =>
      if Ascii.eqb c sep then EmptyString :: Split s' sep
      else match Split s' sep with
           | piece :: rest => String c piece :: rest
           | [] => [String c EmptyString]
           end
  end.

(** [strings.TrimSuffix(s, suffix)]. *)
Definition TrimSuffix (s suf : string) : string :=
  if HasSuffix s suf
  then String.substring 0 (String.length s - String.length suf) s
  else s.

End GoStrings.

Module GoFilepath.

Definition sep : ascii := "/"%char.
Definition dot : ascii := "."%char.

Definition isSep (c : ascii) : bool := Ascii.eqb c sep.

Fixpoint dropWhile {A} (f : A -> bool) (l : list A) : list A :=
  match l with
  | [] => []
  | x :: l' => if f x then dropWhile f l' else l
  end.

Fixpoint takeWhile {A} (f : A -> bool) (l : list A) : list A :=
  match l with
  | [] => []
  | x :: l' => if f x then x :: takeWhile f l' else []
  end.

(** [filepath.Base(path)] on a system whose separator is the slash:
    the empty path gives ".", trailing separators are stripped, the
    last element is kept, and a path of separators only gives "/". *)
Definition Base (path : string) : string :=
  match path with
  | EmptyString => "."
  | _ =>
      let r := rev (list_ascii_of_string path) in
      let r := dropWhile isSep r in
      let last := rev (takeWhile (fun c => negb (isSep c)) r) in
      match last with
      | [] => "/"
      | _ => string_of_list_ascii last
      end
  end.

(** [filepath.Ext(path)]: the suffix beginning at the final dot of the
    final element of [path]; empty if there is no dot. *)
Definition Ext (path : string) : string :=
  let r := rev (list_ascii_of_string path) in
  let tail := takeWhile (fun c => negb (isSep c) && negb (Ascii.eqb c dot)) r in
  match dropWhile (fun c => negb (isSep c) && negb (Ascii.eqb c dot)) r with
  | c :: _ => if Ascii.eqb c dot
              then string_of_list_ascii (rev (tail ++ [c]))
              else EmptyString
  | [] => EmptyString
  end.

End GoFilepath.

Import GoStrings.

(* ===================================================================== *)
(** * pkg/model/types.go                                                  *)
(* ===================================================================== *)

Record BundleFile := mkBundleFile {
  BundleName : string;
  FileName   : string
}.

Record BuildData := mkBuildData {
  bdModel       : BundleFile;
  bdPhysics     : BundleFile;
  bdTextures    : list BundleFile;
  bdTransition  : BundleFile;
  bdMotions     : list BundleFile;
  bdExpressions : list BundleFile
}.

Record MotionFile := mkMotionFile { mfFile : string }.

Record ExpressionFile := mkExpressionFile {
  efName : string;
  efFile : string
}.

(** [Live2dModel]: the accumulator a builder fills while it runs. *)
Record Live2dModel := mkLive2dModel {
  Model       : string;
  Physics     : string;
  Textures    : list string;
  Motions     : gmap string (list MotionFile);
  Expressions : list ExpressionFile
}.

(** The accumulator [NewLive2dBuilder] starts from:
    [&model.Live2dModel{Motions: make(map[string][]model.MotionFile)}]. *)
Definition emptyModel : Live2dModel :=
  {| Model := ""; Physics := ""; Textures := []; Motions := ∅;
     Expressions := [] |}.

(* ===================================================================== *)
(** * File classification and the accumulator update                      *)
(* ===================================================================== *)

Inductive FileType :=
  | FtModel | FtPhysics | FtTexture | FtMotion | FtExpression | FtUnknown.

(** [getFileType]: the first matching case of the switch wins. *)
Definition getFileType (filePath : string) : FileType :=
  if HasSuffix filePath "model.moc" then FtModel
  else if HasSuffix filePath "physics.json" then FtPhysics
  else if Contains filePath "textures" then FtTexture
  else if Contains filePath "motions" then FtMotion
  else if Contains filePath "expressions" then FtExpression
  else FtUnknown.

(** [strings.Split(filepath.Base(filePath), ".")[0]]. *)
Definition nameOf (filePath : string) : string :=
  hd EmptyString (Split (GoFilepath.Base filePath) GoFilepath.dot).

(** [updateModelData]. *)
Definition updateModelData (m : Live2dModel) (filePath relPath : string)
  : Live2dModel :=
  match getFileType filePath with
  | FtModel =>
      {| Model := relPath; Physics := Physics m; Textures := Textures m;
         Motions := Motions m; Expressions := Expressions m |}
  | FtPhysics =>
      {| Model := Model m; Physics := relPath; Textures := Textures m;
         Motions := Motions m; Expressions := Expressions m |}
  | FtTexture =>
      {| Model := Model m; Physics := Physics m;
         Textures := Textures m ++ [relPath];
         Motions := Motions m; Expressions := Expressions m |}
  | FtMotion =>
      let motionName := nameOf filePath in
      {| Model := Model m; Physics := Physics m; Textures := Textures m;
         Motions := <[motionName := [mkMotionFile relPath]]> (Motions m);
         Expressions := Expressions m |}
  | FtExpression =>
      let expressionName := nameOf filePath in
      {| Model := Model m; Physics := Physics m; Textures := Textures m;
         Motions := Motions m;
         Expressions := Expressions m ++ [mkExpressionFile expressionName relPath] |}
  | FtUnknown => m
  end.

(* ===================================================================== *)
(** * Errors, events and the world a builder runs in                      *)
(* ===================================================================== *)

(** The errors the package constructs, one constructor per message.
    [ErrDownloadFailed e] is [fmt.Errorf("下载文件失败: %w", e)]. *)
Inductive error :=
  | ErrCancelled                      (* errors.New("下载已取消") *)
  | ErrCreateRequest                  (* "创建请求失败: ..." *)
  | ErrTransport                      (* "下载文件失败: ..." around the error of Do *)
  | ErrHTTPStatus (code : Z)          (* "下载文件HTTP错误: %d" *)
  | ErrContentMismatch                (* "文件不存在或无法访问" *)
  | ErrMkdir                          (* "创建目录失败: ..." *)
  | ErrCreateFile                     (* "创建文件失败: ..." *)
  | ErrCopyCancelled                  (* "下载超时或被取消: ..." *)
  | ErrCopy                           (* "写入文件失败: ..." *)
  | ErrRel                            (* "获取相对路径失败: ..." *)
  | ErrWriteManifest                  (* "写入模型数据失败: ..." *)
  | ErrDownloadFailed (cause : error).

(** How [io.Copy] of a response body ends when it does not end well. *)
Inductive CopyErr := CopyCtxErr | CopyOtherErr.

(** What the code reads of an [*http.Response]. [Body] is what [io.Copy]
    transfers, [BodyErr] the error it ends with, if any. *)
Record Response := mkResponse {
  StatusCode  : Z;
  ContentType : string;               (* resp.Header.Get("Content-Type") *)
  Body        : string;
  BodyErr     : option CopyErr
}.

Definition StatusOK : Z := 200%Z.
Definition StatusNotFound : Z := 404%Z.

(** The collaborators outside the repository, as the code observes them:
    [path/filepath], the configuration, [net/http] and the failures of
    the file-system calls. *)
Record Env := mkEnv {
  Join : string -> string -> string;            (* filepath.Join *)
  Dir : string -> string;                       (* filepath.Dir *)
  Rel : string -> string -> option string;      (* filepath.Rel, None: error *)
  ToSlash : string -> string;                   (* filepath.ToSlash *)
  BaseAssetsURL : string;                       (* config *)
  MaxConcurrentDownloads : nat;
  MaxConcurrentModels : nat;
  newRequestErr : string -> bool;               (* http.NewRequestWithContext fails *)
  httpDo : string -> option Response;           (* httpClient.Do, None: error *)
  statErr : string -> bool;                     (* os.Stat fails, not with ENOENT *)
  mkdirErr : string -> bool;                    (* os.MkdirAll fails *)
  createErr : string -> bool;                   (* os.Create fails *)
  writeFileErr : string -> bool;                (* os.WriteFile fails *)
  writeFilePartial : string -> option nat       (* a failing os.WriteFile: None,
                                                   the file could not be opened;
                                                   Some n, it was opened, and so
                                                   truncated, and n bytes of the
                                                   data were written *)
}.

(** What happens, in order.  File-system and network events are recorded
    when the call is made, whether or not it succeeds; [EvWriteFile] tells
    whether the file was written. *)
Inductive Event :=
  | EvAcquire                                   (* modelSem <- struct{}{} *)
  | EvRelease                                   (* <-modelSem *)
  | EvMkdirAll (dir : string)
  | EvStat (path : string)
  | EvGet (url : string)
  | EvCreate (path : string)
  | EvCopy (path : string)
  | EvWriteFile (path : string) (done : bool)
  | EvAddDownloadItem (name : string) (total : nat)
  | EvUpdateProgress (name : string) (completed : nat)
  | EvSetError (name : string)
  | EvSendError (name : string) (e : error).

(** The shared state: regular files by path, whether the cancellation
    signal has fired, the number of tokens in the [modelSem] channel, and
    the events so far (oldest first). *)
Record World := mkWorld {
  fs : gmap string string;
  ctxDone : bool;
  modelSem : nat;
  trace : list Event
}.

Definition setFs (f : gmap string string) (w : World) : World :=
  {| fs := f; ctxDone := ctxDone w; modelSem := modelSem w; trace := trace w |}.
Definition setSem (n : nat) (w : World) : World :=
  {| fs := fs w; ctxDone := ctxDone w; modelSem := n; trace := trace w |}.
Definition setDone (w : World) : World :=
  {| fs := fs w; ctxDone := true; modelSem := modelSem w; trace := trace w |}.
Definition emit (e : Event) (w : World) : World :=
  {| fs := fs w; ctxDone := ctxDone w; modelSem := modelSem w;
     trace := trace w ++ [e] |}.

(** A call returns a value, returns an error, or is still waiting. *)
Inductive outcome (A : Type) :=
  | Ok (a : A)
  | Fail (e : error)
  | Blocked.
Arguments Ok {A} a.
Arguments Fail {A} e.
Arguments Blocked {A}.

(** State-and-error monad over [World]. *)
Definition M (A : Type) : Type := World -> outcome A * World.

Definition ret {A} (a : A) : M A := fun w => (Ok a, w).
Definition fail {A} (e : error) : M A := fun w => (Fail e, w).
Definition bind {A B} (c : M A) (k : A -> M B) : M B :=
  fun w =>
    match c w with
    | (Ok a, w') => k a w'
    | (Fail e, w') => (Fail e, w')
    | (Blocked, w') => (Blocked, w')
    end.
Definition tell (e : Event) : M unit := fun w => (Ok tt, emit e w).
Definition get : M World := fun w => (Ok w, w).
Definition modify (f : World -> World) : M unit := fun w => (Ok tt, f w).

Notation "'let*' x ':=' c 'in' k" := (bind c (fun x => k))
  (at level 10, x name, c at level 100, k at level 200).
Notation "c ;; k" := (bind c (fun _ => k))
  (at level 100, k at level 200, right associativity).

(** The context a builder runs under: [context.Background()], which never
    fires, or the context of the TUI model. *)
Inductive Context := Background | TuiCtx.

Definition isDone (ctx : Context) (w : World) : bool :=
  match ctx with
  | Background => false
  | TuiCtx => ctxDone w
  end.

(** ** The file-system calls *)

(** [os.Stat(path)] followed by [os.IsNotExist(err)]. *)
Definition statIsNotExist (env : Env) (path : string) : M bool :=
  tell (EvStat path) ;;
  let* w := get in
  match fs w !! path with
  | Some _ => ret false
  | None => ret (negb (statErr env path))
  end.

Definition osMkdirAll (env : Env) (dir : string) : M bool :=
  tell (EvMkdirAll dir) ;;
  ret (negb (mkdirErr env dir)).

(** [os.Create]: creates or truncates. *)
Definition osCreate (env : Env) (path : string) : M bool :=
  tell (EvCreate path) ;;
  if createErr env path then ret false
  else modify (fun w => setFs (<[path := EmptyString]> (fs w)) w) ;; ret true.

(** [io.Copy(file, resp.Body)]. *)
Definition ioCopy (path : string) (resp : Response) : M (option CopyErr) :=
  tell (EvCopy path) ;;
  modify (fun w => setFs (<[path := Body resp]> (fs w)) w) ;;
  ret (BodyErr resp).

(** [os.WriteFile]: opens the file with [O_WRONLY|O_CREATE|O_TRUNC],
    writes the data and closes the file.  When it fails before the file
    is open the file is as it was; when it fails later the file is left
    with the part of the data that was written. *)
Definition osWriteFile (env : Env) (path data : string) : M bool :=
  if writeFileErr env path then
    tell (EvWriteFile path false) ;;
    match writeFilePartial env path with
    | None => ret false
    | Some n =>
        modify (fun w => setFs (<[path := String.substring 0 n data]> (fs w)) w) ;;
        ret false
    end
  else
    tell (EvWriteFile path true) ;;
    modify (fun w => setFs (<[path := data]> (fs w)) w) ;; ret true.

(* ===================================================================== *)
(** * The asset fetcher                                                   *)
(* ===================================================================== *)

(** The URL of [createDownloadRequest]:
    [fmt.Sprintf("%s/%s_rip/%s", BaseAssetsURL, BundleName, FileName)]. *)
Definition downloadURL (env : Env) (bf : BundleFile) : string :=
  BaseAssetsURL env +:+ "/" +:+ BundleName bf +:+ "_rip/" +:+ FileName bf.

Definition createDownloadRequest (env : Env) (bf : BundleFile) : M string :=
  let url := downloadURL env bf in
  if newRequestErr env url then fail ErrCreateRequest else ret url.

(** [validateResponse]: [None] is the nil error. *)
Definition validateResponse (resp : Response) (allowNotFound : bool)
  : option error :=
  if negb (StatusCode resp =? StatusOK)%Z then
    if allowNotFound && (StatusCode resp =? StatusNotFound)%Z then None
    else Some (ErrHTTPStatus (StatusCode resp))
  else if HasPrefix (ContentType resp) "text/html" then Some ErrContentMismatch
  else None.

Definition createFileAndDirectory (env : Env) (filePath : string) : M unit :=
  let* ok := osMkdirAll env (Dir env filePath) in
  if negb ok then fail ErrMkdir else
  let* ok := osCreate env filePath in
  if negb ok then fail ErrCreateFile else ret tt.

Definition writeFileContent (resp : Response) (filePath : string) : M unit :=
  let* r := ioCopy filePath resp in
  match r with
  | Some CopyCtxErr => fail ErrCopyCancelled
  | Some CopyOtherErr => fail ErrCopy
  | None => ret tt
  end.

(** [DownloadBundleFile]. *)
Definition DownloadBundleFile (env : Env) (ctx : Context) (bf : BundleFile)
    (filePath : string) (allowNotFound : bool) : M unit :=
  let* w := get in
  if isDone ctx w then fail ErrCancelled else
  let* url := createDownloadRequest env bf in
  tell (EvGet url) ;;
  match httpDo env url with
  | None => fail ErrTransport
  | Some resp =>
      match validateResponse resp allowNotFound with
      | Some validateErr => fail validateErr
      | None =>
          if allowNotFound && (StatusCode resp =? StatusNotFound)%Z then ret tt
          else
            createFileAndDirectory env filePath ;;
            writeFileContent resp filePath
      end
  end.

(* ===================================================================== *)
(** * The model builder                                                   *)
(* ===================================================================== *)

(** [downloadTask]; [result] names the task's private result channel
    (of capacity 1), allocated by [make] when the task is created. *)
Record downloadTask := mkTask {
  bundleFile    : BundleFile;
  filePath      : string;
  allowNotFound : bool;
  result        : nat
}.

Record downloadResult := mkResult {
  relPath : string;
  err     : option error
}.

(** [Downloader], as far as the builder reads it: whether [TuiModel] is
    non-nil, and whether its [Ctx] is. *)
Record Downloader := mkDownloader {
  hasTui : bool;
  hasTuiCtx : bool
}.

(** [Live2dBuilder].  The accumulator [model] is threaded separately. *)
Record Live2dBuilder := mkBuilder {
  path       : string;
  data       : BuildData;
  dataPath   : string;
  downloader : Downloader;
  ModelName  : string
}.

Definition NewLive2dBuilder (env : Env) (path : string) (buildData : BuildData)
    (d : Downloader) (modelName : string) : Live2dBuilder :=
  {| path := path; data := buildData; dataPath := Join env path "data";
     downloader := d; ModelName := modelName |}.

(** A call on [TuiModel], skipped when it is nil. *)
Definition tui (b : Live2dBuilder) (e : Event) : M unit :=
  if hasTui (downloader b) then tell e else ret tt.

(** [ProcessFile]: one file, outside the worker pool.  The file is
    downloaded if the existence check reports it missing; the relative
    path is computed in either case. *)
Definition ProcessFile (env : Env) (b : Live2dBuilder) (ctx : Context)
    (bf : BundleFile) (filePath : string) (allowNotFound : bool) : M string :=
  let* missing := statIsNotExist env filePath in
  (if missing then
     fun w =>
       match DownloadBundleFile env ctx bf filePath allowNotFound w with
       | (Fail downloadErr, w') => (Fail (ErrDownloadFailed downloadErr), w')
       | r => r
       end
   else ret tt) ;;
  match Rel env (path b) filePath with
  | None => fail ErrRel
  | Some relPath => ret (ToSlash env relPath)
  end.

(** One "stat, then task or existing file" step of [prepareDownloadTasks]. *)
Definition prepareOne (env : Env) (bf : BundleFile) (file : string)
    (allow : bool) (acc : list downloadTask * list string)
  : M (list downloadTask * list string) :=
  let '(tasks, existingFiles) := acc in
  let* missing := statIsNotExist env file in
  if missing
  then ret (tasks ++ [mkTask bf file allow (length tasks)], existingFiles)
  else ret (tasks, existingFiles ++ [file]).

(** The loops of [prepareDownloadTasks] over one category. *)
Fixpoint prepareAll (env : Env) (dir : string) (files : list BundleFile)
    (acc : list downloadTask * list string)
  : M (list downloadTask * list string) :=
  match files with
  | [] => ret acc
  | bf :: rest =>
      let* acc' := prepareOne env bf (Join env dir (FileName bf)) false acc in
      prepareAll env dir rest acc'
  end.

(** [prepareDownloadTasks]. *)
Definition prepareDownloadTasks (env : Env) (b : Live2dBuilder)
  : M (list downloadTask * list string) :=
  let modelFile := Join env (dataPath b) "model.moc" in
  let* acc := prepareOne env (bdModel (data b)) modelFile false ([], []) in
  let physicsFile := Join env (dataPath b) "physics.json" in
  let* acc := prepareOne env (bdPhysics (data b)) physicsFile true acc in
  let texturePath := Join env (dataPath b) "textures" in
  let* acc := prepareAll env texturePath (bdTextures (data b)) acc in
  let motionPath := Join env (dataPath b) "motions" in
  let* acc := prepareAll env motionPath (bdMotions (data b)) acc in
  let expressionPath := Join env (dataPath b) "expressions" in
  prepareAll env expressionPath (bdExpressions (data b)) acc.

(** [processExistingFiles]: the accumulator and the count of completed
    files are returned together. *)
Fixpoint processExistingFiles (env : Env) (b : Live2dBuilder)
    (existingFiles : list string) (m : Live2dModel) (completedFiles : nat)
  : M (Live2dModel * nat) :=
  match existingFiles with
  | [] => ret (m, completedFiles)
  | file :: rest =>
      match Rel env (path b) file with
      | None => fail ErrRel
      | Some rel =>
          let relPath := ToSlash env rel in
          let completedFiles := S completedFiles in
          tui b (EvUpdateProgress (ModelName b) completedFiles) ;;
          processExistingFiles env b rest (updateModelData m file relPath)
                               completedFiles
      end
  end.

(* ===================================================================== *)
(** * The output manifest and its serialization                           *)
(* ===================================================================== *)

(** A [float64] constant of the source, kept as the decimal numeral it is
    written with: [mantissa * 10^-scale], without trailing zeros. *)
Record Dec := mkDec { mantissa : Z; scale : nat }.

(** [model.Data]. *)
Record Data := mkData {
  Version        : string;
  Layout         : gmap string Dec;
  HitAreasCustom : gmap string (list Dec);
  dModel         : string;
  dPhysics       : string;
  dTextures      : list string;
  dMotions       : gmap string (list MotionFile);
  dExpressions   : list ExpressionFile
}.

Module GoJSON.

#[local] Set Warnings "-register-all".

Inductive JSON :=
  | JNull
  | JStr (s : string)
  | JNum (d : Dec)
  | JArr (items : list JSON)
  | JObj (fields : list (string * JSON)).

Definition newline : string := String (ascii_of_nat 10) EmptyString.

Definition natToString (n : nat) : string :=
  NilZero.string_of_uint (Nat.to_uint n).

Fixpoint zeros (n : nat) : string :=
  match n with
  | O => EmptyString
  | S n' => String "0" (zeros n')
  end.

(** The text of a number: Go prints a [float64] in this range with the
    shortest decimal numeral that reads back to it. *)
Definition formatFloat (d : Dec) : string :=
  let a := Z.abs_nat (mantissa d) in
  let p := 10 ^ scale d in
  let ip := natToString (a / p) in
  let fp := natToString (a mod p) in
  (if (mantissa d <? 0)%Z then "-" else "") +:+ ip +:+
  (match scale d with
   | O => ""
   | _ => "." +:+ zeros (scale d - String.length fp) +:+ fp
   end).

Definition hexDigit (n : nat) : ascii :=
  nth n (list_ascii_of_string "0123456789abcdef") "0"%char.

(** One byte below 0x80 of a string literal, as [encoding/json] writes
    it with HTML escaping on (the default). *)
Definition escapeByte (c : ascii) : string :=
  let n := nat_of_ascii c in
  if (n =? 34) || (n =? 92) then String "\" (String c EmptyString)
  else if n =? 8 then "\b"
  else if n =? 12 then "\f"
  else if n =? 10 then "\n"
  else if n =? 13 then "\r"
  else if n =? 9 then "\t"
  else if (n <? 32) || (n =? 60) || (n =? 62) || (n =? 38) then
    "\u00" +:+ String (hexDigit (n / 16)) (String (hexDigit (n mod 16)) EmptyString)
  else String c EmptyString.

Definition between (lo hi n : nat) : bool := (lo <=? n) && (n <=? hi).

(** The byte at position [i] of [s], [256] past the end. *)
Definition byteAt (i : nat) (s : string) : nat :=
  match String.get i s with
  | Some c => nat_of_ascii c
  | None => 256
  end.

(** [utf8.DecodeRuneInString] on a first byte [n] from 0x80 on and the
    bytes [rest] after it: the size of the encoding of a rune, or [None]
    for [RuneError] of width 1.  The second byte is in the range that
    excludes overlong forms, surrogates and runes above U+10FFFF; the
    others are continuation bytes. *)
Definition runeSize (n : nat) (rest : string) : option nat :=
  let cont := between 128 191 in
  let size2 lo hi := if between lo hi (byteAt 0 rest) then Some 2 else None in
  let size3 lo hi :=
    if between lo hi (byteAt 0 rest) && cont (byteAt 1 rest) then Some 3 else None in
  let size4 lo hi :=
    if between lo hi (byteAt 0 rest) && cont (byteAt 1 rest) && cont (byteAt 2 rest)
    then Some 4 else None in
  if between 194 223 n then size2 128 191
  else if n =? 224 then size3 160 191
  else if between 225 236 n || between 238 239 n then size3 128 191
  else if n =? 237 then size3 128 159
  else if n =? 240 then size4 144 191
  else if between 241 243 n then size4 128 191
  else if n =? 244 then size4 128 143
  else None.

(** U+2028 and U+2029, by their encoding E2 80 A8 and E2 80 A9: the last
    hexadecimal digit of the rune. *)
Definition lineSeparator (n : nat) (rest : string) : option string :=
  if (n =? 226) && (byteAt 0 rest =? 128) then
    if byteAt 1 rest =? 168 then Some "8"
    else if byteAt 1 rest =? 169 then Some "9"
    else None
  else None.

(** The bytes of a string literal.  A byte from 0x80 on that starts no
    valid encoding of a rune is written as the escape of U+FFFD, U+2028 and U+2029
    are written as escapes, and any other rune is copied.  [skip] counts
    the bytes still to pass of a rune already read, which are copied if
    [copy] is set. *)
Fixpoint escapeFrom (skip : nat) (copy : bool) (s : string) : string :=
  match s with
  | EmptyString => EmptyString
  | String c s' =>
      match skip with
      | S k =>
          if copy then String c (escapeFrom k copy s') else escapeFrom k copy s'
      | O =>
          let n := nat_of_ascii c in
          if n <? 128 then escapeByte c +:+ escapeFrom 0 true s'
          else
            match runeSize n s' with
            | None => "\ufffd" +:+ escapeFrom 0 true s'
            | Some size =>
                match lineSeparator n s' with
                | Some digit => "\u202" +:+ digit +:+ escapeFrom (size - 1) false s'
                | None => String c (escapeFrom (size - 1) true s')
                end
            end
      end
  end.

Definition escape (s : string) : string := escapeFrom 0 true s.

Definition dquote : ascii := ascii_of_nat 34.

Definition quote (s : string) : string :=
  String dquote (escape s) +:+ String dquote EmptyString.

Fixpoint spaces (depth : nat) : string :=
  match depth with
  | O => EmptyString
  | S d => "  " +:+ spaces d
  end.

(** A line break of [json.Indent] with prefix "" and indent "  ". *)
Definition nl (depth : nat) : string := newline +:+ spaces depth.

(** The indented text of a value at nesting depth [depth]. *)
Fixpoint render (depth : nat) (v : JSON) : string :=
  match v with
  | JNull => "null"
  | JStr s => quote s
  | JNum d => formatFloat d
  | JArr [] => "[]"
  | JArr (x :: xs) =>
      "[" +:+ nl (S depth) +:+ render (S depth) x +:+
      (fix items (l : list JSON) : string :=
         match l with
         | [] => EmptyString
         | y :: l' => "," +:+ nl (S depth) +:+ render (S depth) y +:+ items l'
         end) xs +:+
      nl depth +:+ "]"
  | JObj [] => "{}"
  | JObj ((k, x) :: kvs) =>
      "{" +:+ nl (S depth) +:+ quote k +:+ ": " +:+ render (S depth) x +:+
      (fix fields (l : list (string * JSON)) : string :=
         match l with
         | [] => EmptyString
         | (k', y) :: l' =>
             "," +:+ nl (S depth) +:+ quote k' +:+ ": " +:+
             render (S depth) y +:+ fields l'
         end) kvs +:+
      nl depth +:+ "}"
  end.

(** Map keys are written in increasing byte order. *)
Definition keyLe {V} (a b : string * V) : Prop :=
  String.le (fst a) (fst b).

#[global] Instance keyLe_dec {V} (a b : string * V) : Decision (keyLe a b).
Proof. unfold keyLe. apply _. Defined.

Definition sortKeys {V} (kvs : list (string * V)) : list (string * V) :=
  merge_sort keyLe kvs.

(** A Go map, whatever order the runtime enumerates it in. *)
Definition encMapFrom {V} (enc : V -> JSON) (enumeration : list (string * V))
  : JSON :=
  JObj (map (fun kv => (fst kv, enc (snd kv))) (sortKeys enumeration)).

Definition encMap {V} (enc : V -> JSON) (m : gmap string V) : JSON :=
  encMapFrom enc (map_to_list m).

(** A slice: the nil slice is written [null]. *)
Definition encSlice {V} (enc : V -> JSON) (l : list V) : JSON :=
  match l with
  | [] => JNull
  | _ => JArr (map enc l)
  end.

Definition encMotionFile (f : MotionFile) : JSON :=
  JObj [("file", JStr (mfFile f))].

Definition encExpressionFile (f : ExpressionFile) : JSON :=
  JObj [("name", JStr (efName f)); ("file", JStr (efFile f))].

(** The fields of [model.Data] in declaration order, under their tags. *)
Definition encData (d : Data) : JSON :=
  JObj [ ("version", JStr (Version d));
         ("layout", encMap JNum (Layout d));
         ("hit_areas_custom", encMap (encSlice JNum) (HitAreasCustom d));
         ("model", JStr (dModel d));
         ("physics", JStr (dPhysics d));
         ("textures", encSlice JStr (dTextures d));
         ("motions", encMap (encSlice encMotionFile) (dMotions d));
         ("expressions", encSlice encExpressionFile (dExpressions d)) ].

(** [json.MarshalIndent(v, "", "  ")]; it cannot fail on a [Data]. *)
Definition MarshalIndent (d : Data) : string := render 0 (encData d).

End GoJSON.

Definition layoutBlock : gmap string Dec :=
  <["center_x" := mkDec 0 0]>
  (<["center_y" := mkDec 0 0]>
  (<["width" := mkDec 2 0]> ∅)).

Definition hitAreasBlock : gmap string (list Dec) :=
  <["head_x" := [mkDec (-25) 2; mkDec 1 0]]>
  (<["head_y" := [mkDec 25 2; mkDec 2 1]]>
  (<["body_x" := [mkDec (-3) 1; mkDec 2 1]]>
  (<["body_y" := [mkDec 3 1; mkDec (-19) 1]]> ∅))).

(** The [model.Data] value [createModelData] builds from the accumulator. *)
Definition modelDataOf (m : Live2dModel) : Data :=
  {| Version := "Sample 1.0.0";
     Layout := layoutBlock;
     HitAreasCustom := hitAreasBlock;
     dModel := Model m;
     dPhysics := Physics m;
     dTextures := Textures m;
     dMotions := Motions m;
     dExpressions := Expressions m |}.

(** [createModelData]. *)
Definition createModelData (env : Env) (b : Live2dBuilder) (m : Live2dModel)
  : M unit :=
  let finalJSON := GoJSON.MarshalIndent (modelDataOf m) in
  let modelJSONPath := Join env (path b) "model.json" in
  let* ok := osWriteFile env modelJSONPath finalJSON in
  if negb ok then fail ErrWriteManifest else ret tt.

(* ===================================================================== *)
(** * The worker pool and the wait for its outcomes                       *)
(* ===================================================================== *)

(** A [select] between [<-ctx.Done()] and one other case.  [Some true]:
    the [Done] case runs; [Some false]: the other case runs; [None]:
    neither is ready and the goroutine waits.  When both are ready the
    runtime chooses, here by [coin]. *)
Definition select2 (doneReady otherReady coin : bool) : option bool :=
  match doneReady, otherReady with
  | true, true => Some coin
  | true, false => Some true
  | false, true => Some false
  | false, false => None
  end.

(** A worker goroutine: in its loop, waiting to deliver a result on a full
    result channel, returned, or waiting for ever to send on [errorChan]. *)
Inductive WorkerState :=
  | WLoop
  | WSending (ch : nat) (r : downloadResult)
  | WReturned
  | WStuck.

(** The channels of one [handleDownloadTasks] call and its workers. *)
Record Pool := mkPool {
  taskChan : list downloadTask;                (* capacity len(tasks) *)
  taskChanClosed : bool;
  resultChans : list (option downloadResult);  (* task.result, capacity 1 each *)
  errorChan : option error;                    (* capacity 1 *)
  workers : list WorkerState
}.

Definition setTaskChan (q : list downloadTask) (p : Pool) : Pool :=
  {| taskChan := q; taskChanClosed := taskChanClosed p;
     resultChans := resultChans p; errorChan := errorChan p;
     workers := workers p |}.
Definition closeTaskChan (p : Pool) : Pool :=
  {| taskChan := taskChan p; taskChanClosed := true;
     resultChans := resultChans p; errorChan := errorChan p;
     workers := workers p |}.
Definition setResultChan (ch : nat) (v : option downloadResult) (p : Pool) : Pool :=
  {| taskChan := taskChan p; taskChanClosed := taskChanClosed p;
     resultChans := <[ch := v]> (resultChans p); errorChan := errorChan p;
     workers := workers p |}.
Definition setErrorChan (e : option error) (p : Pool) : Pool :=
  {| taskChan := taskChan p; taskChanClosed := taskChanClosed p;
     resultChans := resultChans p; errorChan := e;
     workers := workers p |}.
Definition setWorker (k : nat) (s : WorkerState) (p : Pool) : Pool :=
  {| taskChan := taskChan p; taskChanClosed := taskChanClosed p;
     resultChans := resultChans p; errorChan := errorChan p;
     workers := <[k := s]> (workers p) |}.

(** Is there a value to receive on result channel [ch]? *)
Definition resultReady (p : Pool) (ch : nat) : option downloadResult :=
  match resultChans p !! ch with
  | Some (Some r) => Some r
  | _ => None
  end.

(** [task.result <- r]: succeeds at once if the buffer is empty. *)
Definition sendResult (k : nat) (ch : nat) (r : downloadResult) (p : Pool)
  : Pool :=
  match resultChans p !! ch with
  | Some None => setWorker k WLoop (setResultChan ch (Some r) p)
  | _ => setWorker k (WSending ch r) p
  end.

(** The result a worker computes for a task it took, in the [default]
    branch of its [select]. *)
Definition workerResult (env : Env) (b : Live2dBuilder) (ctx : Context)
    (task : downloadTask) : World -> downloadResult * World :=
  fun w =>
    match DownloadBundleFile env ctx (bundleFile task) (filePath task)
                             (allowNotFound task) w with
    | (Fail downloadErr, w') =>
        (mkResult EmptyString (Some (ErrDownloadFailed downloadErr)), w')
    | (_, w') =>
        match Rel env (path b) (filePath task) with
        | None => (mkResult EmptyString (Some ErrRel), w')
        | Some rel => (mkResult (ToSlash env rel) None, w')
        end
    end.

(** One turn of worker [k] of [startWorkerPool]: a retry of a pending
    send, or one pass of [for task := range taskChan]. *)
Definition workerStep (env : Env) (b : Live2dBuilder) (ctx : Context)
    (k : nat) (p : Pool) (w : World) : Pool * World :=
  match workers p !! k with
  | Some (WSending ch r) => (sendResult k ch r p, w)
  | Some WLoop =>
      match taskChan p with
      | [] =>
          if taskChanClosed p then (setWorker k WReturned p, w) else (p, w)
      | task :: q =>
          let p := setTaskChan q p in
          if isDone ctx w then
            match errorChan p with
            | None => (setWorker k WReturned (setErrorChan (Some ErrCancelled) p), w)
            | Some _ => (setWorker k WStuck p, w)
            end
          else
            let '(r, w') := workerResult env b ctx task w in
            (sendResult k (result task) r p, w')
      end
  | _ => (p, w)
  end.

(** Where the builder is inside [handleDownloadTasks]: in the loop that
    sends the tasks, in the loop of [processDownloadResults], or back. *)
Inductive BuilderPhase :=
  | Sending (rest : list downloadTask)
  | Receiving (rest : list downloadTask)
  | Returned (e : option error).

(** The builder's side: its phase, the accumulator, [completedFiles], and
    the outcomes it has received so far, oldest first. *)
Record BuilderState := mkBuilderState {
  phase : BuilderPhase;
  acc : Live2dModel;
  completedFiles : nat;
  received : list downloadResult
}.

Definition setPhase (ph : BuilderPhase) (s : BuilderState) : BuilderState :=
  {| phase := ph; acc := acc s; completedFiles := completedFiles s;
     received := received s |}.

Definition tuiEmit (b : Live2dBuilder) (e : Event) (w : World) : World :=
  if hasTui (downloader b) then emit e w else w.

(** [processDownloadResults] returns [e]; [handleDownloadTasks] reports
    it to the TUI model and returns it. *)
Definition returnError (b : Live2dBuilder) (e : error) (s : BuilderState)
    (w : World) : BuilderState * World :=
  (setPhase (Returned (Some e)) s, tuiEmit b (EvSendError (ModelName b) e) w).

(** One turn of the builder inside [handleDownloadTasks]: one pass of the
    loop that sends the tasks, the [close(taskChan)] after it, or one pass
    of the loop of [processDownloadResults]. *)
Definition builderStep (b : Live2dBuilder) (ctx : Context)
    (tasks : list downloadTask) (coin : bool)
    (s : BuilderState) (p : Pool) (w : World)
  : BuilderState * Pool * World :=
  match phase s with
  | Sending (task :: rest) =>
      match select2 (isDone ctx w) true coin with
      | Some true => (setPhase (Returned (Some ErrCancelled)) s, p, w)
      | _ => (setPhase (Sending rest) s, setTaskChan (taskChan p ++ [task]) p, w)
      end
  | Sending [] => (setPhase (Receiving tasks) s, closeTaskChan p, w)
  | Receiving (task :: rest) =>
      match select2 (isDone ctx w)
                    (bool_decide (is_Some (resultReady p (result task)))) coin,
            resultReady p (result task) with
      | Some true, _ =>
          let '(s', w') := returnError b ErrCancelled s w in (s', p, w')
      | Some false, Some r =>
          let p := setResultChan (result task) None p in
          let s := {| phase := phase s; acc := acc s;
                      completedFiles := completedFiles s;
                      received := received s ++ [r] |} in
          match err r with
          | Some e =>
              let '(s', w') := returnError b e s w in (s', p, w')
          | None =>
              let completed := S (completedFiles s) in
              ({| phase := Receiving rest;
                  acc := updateModelData (acc s) (filePath task) (relPath r);
                  completedFiles := completed;
                  received := received s |}, p,
               tuiEmit b (EvUpdateProgress (ModelName b) completed) w)
          end
      | _, _ => (s, p, w)
      end
  | Receiving [] => (setPhase (Returned None) s, p, w)
  | Returned _ => (s, p, w)
  end.

(** What the scheduler lets happen next: the cancellation signal fires,
    worker [k] takes a turn, or the builder does.  A turn is one pass of
    a loop, and for a worker the download of a task is part of it: the
    signal fires, and the builder moves, between two turns.  A download
    that is in flight when the signal fires is the turn after which it
    fires here, so what is stated of the time after the signal is stated
    for a phase that starts under a cancelled context only. *)
Inductive Tick :=
  | TCancel
  | TWorker (k : nat)
  | TBuilder (coin : bool).

Definition tick (env : Env) (b : Live2dBuilder) (ctx : Context)
    (tasks : list downloadTask) (t : Tick)
    (s : BuilderState) (p : Pool) (w : World)
  : BuilderState * Pool * World :=
  match t with
  | TCancel => (s, p, setDone w)
  | TWorker k => let '(p', w') := workerStep env b ctx k p w in (s, p', w')
  | TBuilder coin => builderStep b ctx tasks coin s p w
  end.

(** The interleaving [sched], up to the return of the builder. *)
Fixpoint runPool (env : Env) (b : Live2dBuilder) (ctx : Context)
    (tasks : list downloadTask) (sched : list Tick)
    (s : BuilderState) (p : Pool) (w : World)
  : BuilderState * Pool * World :=
  match phase s, sched with
  | Returned _, _ => (s, p, w)
  | _, [] => (s, p, w)
  | _, t :: sched' =>
      let '(s', p', w') := tick env b ctx tasks t s p w in
      runPool env b ctx tasks sched' s' p' w'
  end.

(** [startWorkerPool] on fresh channels: [MaxConcurrentDownloads] workers,
    an empty task channel, an empty error channel, and the empty result
    channel of every task. *)
Definition startWorkerPool (env : Env) (tasks : list downloadTask) : Pool :=
  {| taskChan := []; taskChanClosed := false;
     resultChans := replicate (length tasks) None;
     errorChan := None;
     workers := replicate (MaxConcurrentDownloads env) WLoop |}.

Definition startBuilder (tasks : list downloadTask) (m : Live2dModel)
    (completedFiles : nat) : BuilderState :=
  {| phase := Sending tasks; acc := m; completedFiles := completedFiles;
     received := [] |}.

(** [handleDownloadTasks] under the interleaving [sched]: [Blocked] when
    the builder has not returned by the end of [sched]. *)
Definition handleDownloadTasks (env : Env) (b : Live2dBuilder) (ctx : Context)
    (sched : list Tick) (tasks : list downloadTask) (m : Live2dModel)
    (completedFiles : nat) : M Live2dModel :=
  match tasks with
  | [] => ret m
  | _ =>
      fun w =>
        let '(s, _, w') :=
          runPool env b ctx tasks sched (startBuilder tasks m completedFiles)
                  (startWorkerPool env tasks) w in
        match phase s with
        | Returned None => (Ok (acc s), w')
        | Returned (Some e) => (Fail e, w')
        | _ => (Blocked, w')
        end
  end.

(* ===================================================================== *)
(** * The concurrency gate and [Construct]                                *)
(* ===================================================================== *)

(** [modelSem <- struct{}{}] can proceed when the channel buffer, of
    capacity [MaxConcurrentModels], has room. *)
Definition semHasRoom (env : Env) (w : World) : bool :=
  modelSem w <? MaxConcurrentModels env.

Definition acquire : M unit :=
  tell EvAcquire ;; modify (fun w => setSem (S (modelSem w)) w).

(** [<-modelSem]: waits while the channel is empty. *)
Definition release : M unit :=
  fun w =>
    match modelSem w with
    | O => (Blocked, w)
    | S n => (Ok tt, setSem n (emit EvRelease w))
    end.

Definition builderContext (b : Live2dBuilder) : Context :=
  if hasTui (downloader b) && hasTuiCtx (downloader b) then TuiCtx
  else Background.

(** [setupDownloadEnvironment]. *)
Definition setupDownloadEnvironment (env : Env) (b : Live2dBuilder)
    (coin : bool) : M Context :=
  let ctx := builderContext b in
  let* w := get in
  match select2 (isDone ctx w) (semHasRoom env w) coin with
  | Some true => fail ErrCancelled
  | None => fun w => (Blocked, w)
  | Some false =>
      acquire ;;
      let* ok := osMkdirAll env (dataPath b) in
      if negb ok then
        tui b (EvSetError (ModelName b)) ;;
        release ;;
        fail ErrMkdir
      else ret ctx
  end.

(** [initializeDownloadProgress]. *)
Definition initializeDownloadProgress (b : Live2dBuilder) : M unit :=
  let totalFiles :=
    1 + 1 + length (bdTextures (data b)) + length (bdMotions (data b))
    + length (bdExpressions (data b)) in
  tui b (EvAddDownloadItem (ModelName b) totalFiles).

(** [defer func() { <-modelSem }()] around [body]: the token is taken
    back when [body] returns, whatever it returns. *)
Definition deferRelease {A} (body : M A) : M A :=
  fun w =>
    match body w with
    | (Blocked, w') => (Blocked, w')
    | (r, w') =>
        match release w' with
        | (Ok _, w'') => (r, w'')
        | (_, w'') => (Blocked, w'')
        end
    end.

(** [Construct] after [setupDownloadEnvironment] has returned [ctx]. *)
Definition constructBody (env : Env) (b : Live2dBuilder) (sched : list Tick)
    (ctx : Context) : M unit :=
  initializeDownloadProgress b ;;
  let* prepared := prepareDownloadTasks env b in
  let '(tasks, existingFiles) := prepared in
  fun w =>
    match processExistingFiles env b existingFiles emptyModel 0 w with
    | (Fail e, w') => (Fail e, tuiEmit b (EvSendError (ModelName b) e) w')
    | (Blocked, w') => (Blocked, w')
    | (Ok (m, completedFiles), w') =>
        (let* m' := handleDownloadTasks env b ctx sched tasks m completedFiles in
         createModelData env b m') w'
    end.

(** [Construct].  [coin] settles the [select] of the gate when both of
    its cases are ready, [sched] is the interleaving of the download phase. *)
Definition Construct (env : Env) (b : Live2dBuilder) (coin : bool)
    (sched : list Tick) : M unit :=
  let* ctx := setupDownloadEnvironment env b coin in
  deferRelease (constructBody env b sched ctx).

(** ** Several builders on one gate *)

(** A [Construct] call: not past the gate yet, holding a slot, back with
    its result, or holding a slot with a download phase that never ends. *)
Inductive BuildStatus :=
  | NotStarted
  | Holding (ctx : Context)
  | Finished (r : option error)
  | Stalled.

Record System := mkSystem {
  world : World;
  builds : list (Live2dBuilder * BuildStatus)
}.

(** The steps of the system: the cancellation signal fires; call [i]
    runs [setupDownloadEnvironment]; call [i] runs the rest of [Construct]
    under the interleaving [sched]. *)
Inductive SysTick :=
  | SysCancel
  | SysEnter (i : nat) (coin : bool)
  | SysRun (i : nat) (sched : list Tick).

Definition setStatus (i : nat) (b : Live2dBuilder) (st : BuildStatus)
    (w : World) (s : System) : System :=
  {| world := w; builds := <[i := (b, st)]> (builds s) |}.

Definition sysStep (env : Env) (t : SysTick) (s : System) : System :=
  match t with
  | SysCancel => {| world := setDone (world s); builds := builds s |}
  | SysEnter i coin =>
      match builds s !! i with
      | Some (b, NotStarted) =>
          match setupDownloadEnvironment env b coin (world s) with
          | (Ok ctx, w') => setStatus i b (Holding ctx) w' s
          | (Fail e, w') => setStatus i b (Finished (Some e)) w' s
          | (Blocked, w') => setStatus i b NotStarted w' s
          end
      | _ => s
      end
  | SysRun i sched =>
      match builds s !! i with
      | Some (b, Holding ctx) =>
          match deferRelease (constructBody env b sched ctx) (world s) with
          | (Ok _, w') => setStatus i b (Finished None) w' s
          | (Fail e, w') => setStatus i b (Finished (Some e)) w' s
          | (Blocked, w') => setStatus i b Stalled w' s
          end
      | _ => s
      end
  end.

Definition sysRun (env : Env) (ts : list SysTick) (s : System) : System :=
  fold_left (fun s t => sysStep env t s) ts s.

(** The calls that hold a slot of the gate. *)
Definition holdsGate (st : BuildStatus) : bool :=
  match st with
  | Holding _ | Stalled => true
  | _ => false
  end.

Fixpoint countHolders (l : list (Live2dBuilder * BuildStatus)) : nat :=
  match l with
  | [] => 0
  | x :: l' => (if holdsGate (snd x) then 1 else 0) + countHolders l'
  end.

Definition holders (s : System) : nat := countHolders (builds s).

(* ===================================================================== *)
(** * A concrete environment for the examples                             *)
(* ===================================================================== *)

Module Demo.

(** [filepath.Join], [filepath.Dir] and [filepath.Rel] restricted to
    what the examples need: clean, non-empty, slash-separated relative
    paths, with the target below the base. *)
Definition join (a b : string) : string := a +:+ "/" +:+ b.

Definition dir (p : string) : string :=
  let r := rev (list_ascii_of_string p) in
  let r := GoFilepath.dropWhile (fun c => negb (GoFilepath.isSep c)) r in
  match r with
  | [] => "."
  | _ :: r' => string_of_list_ascii (rev r')
  end.

Definition rel (base targ : string) : option string :=
  if String.prefix (base +:+ "/") targ
  then Some (String.substring (S (String.length base))
               (String.length targ - S (String.length base)) targ)
  else None.

(** A server that knows the files [served] (by URL, with their content
    type and body) and answers 404 to everything else; no call of the
    operating system fails. *)
Definition server (served : list (string * (string * string)))
    (url : string) : option Response :=
  match list_find (fun x => String.eqb (fst x) url = true) served with
  | Some (_, (_, (ct, body))) => Some (mkResponse StatusOK ct body None)
  | None => Some (mkResponse StatusNotFound "text/plain" "not found" None)
  end.

Definition env (served : list (string * (string * string))) (workers gate : nat)
  : Env :=
  {| Join := join; Dir := dir; Rel := rel; ToSlash := fun p => p;
     BaseAssetsURL := "https://bestdori.com/assets/jp";
     MaxConcurrentDownloads := workers;
     MaxConcurrentModels := gate;
     newRequestErr := fun _ => false;
     httpDo := server served;
     statErr := fun _ => false;
     mkdirErr := fun _ => false;
     createErr := fun _ => false;
     writeFileErr := fun _ => false;
     writeFilePartial := fun _ => None |}.

Definition world0 : World :=
  {| fs := ∅; ctxDone := false; modelSem := 0; trace := [] |}.

Definition bundle : string := "live2d/chara/037_general".

Definition url (file : string) : string :=
  "https://bestdori.com/assets/jp/live2d/chara/037_general_rip/" +:+ file.

(** One model file, one physics file, one texture. *)
Definition buildData : BuildData :=
  {| bdModel := mkBundleFile bundle "model.moc";
     bdPhysics := mkBundleFile bundle "physics.json";
     bdTextures := [mkBundleFile bundle "texture_00.png"];
     bdTransition := mkBundleFile bundle "anonTransitionData.asset";
     bdMotions := [];
     bdExpressions := [] |}.

Definition builder (e : Env) : Live2dBuilder :=
  NewLive2dBuilder e "out/anon" buildData (mkDownloader false false) "anon".

End Demo.

(* ===================================================================== *)
(** * Notions of the specification                                        *)
(* ===================================================================== *)

(** "The file's base name without extension", read as Go reads it:
    [strings.TrimSuffix(base, filepath.Ext(base))]. *)
Definition baseNameWithoutExt (filePath : string) : string :=
  let base := GoFilepath.Base filePath in
  TrimSuffix base (GoFilepath.Ext base).

(** The part of a name before its first dot (all of it if it has none). *)
Fixpoint beforeFirstDot (s : string) : string :=
  match s with
  | EmptyString => EmptyString
  | String c s' =>
      if Ascii.eqb c GoFilepath.dot then EmptyString
      else String c (beforeFirstDot s')
  end.

Fixpoint hasDot (s : string) : bool :=
  match s with
  | EmptyString => false
  | String c s' => Ascii.eqb c GoFilepath.dot || hasDot s'
  end.

(** The accumulator after a sequence of updates, each a file path with its
    relative path. *)
Definition updateAll (m : Live2dModel) (ups : list (string * string))
  : Live2dModel :=
  fold_left (fun m u => updateModelData m (fst u) (snd u)) ups m.

(** The files a build requires, in the order [prepareDownloadTasks]
    visits them: the reference, the destination path, and whether the
    file may be missing at the remote. *)
Definition requiredIn (env : Env) (dir : string) (files : list BundleFile)
  : list (BundleFile * string * bool) :=
  map (fun bf => (bf, Join env dir (FileName bf), false)) files.

Definition requiredFiles (env : Env) (b : Live2dBuilder)
  : list (BundleFile * string * bool) :=
  [ (bdModel (data b), Join env (dataPath b) "model.moc", false);
    (bdPhysics (data b), Join env (dataPath b) "physics.json", true) ]
  ++ requiredIn env (Join env (dataPath b) "textures") (bdTextures (data b))
  ++ requiredIn env (Join env (dataPath b) "motions") (bdMotions (data b))
  ++ requiredIn env (Join env (dataPath b) "expressions") (bdExpressions (data b)).

Definition requiredPaths (env : Env) (b : Live2dBuilder) : list string :=
  map (fun x => snd (fst x)) (requiredFiles env b).

(** What the existence check reports for a path, on the files [files]. *)
Definition reportsMissing (env : Env) (files : gmap string string)
    (path : string) : bool :=
  match files !! path with
  | Some _ => false
  | None => negb (statErr env path)
  end.

(** The tasks of a list of required files, with result channels numbered
    from [next]. *)
Fixpoint tasksFor (next : nat) (l : list (BundleFile * string * bool))
  : list downloadTask :=
  match l with
  | [] => []
  | (bf, file, allow) :: l' => mkTask bf file allow next :: tasksFor (S next) l'
  end.

Definition missingReq (env : Env) (files : gmap string string)
    (x : BundleFile * string * bool) : bool :=
  reportsMissing env files (snd (fst x)).

Definition presentReq (env : Env) (files : gmap string string)
    (x : BundleFile * string * bool) : bool :=
  negb (reportsMissing env files (snd (fst x))).

Definition statEvents (l : list (BundleFile * string * bool)) : list Event :=
  map (fun x => EvStat (snd (fst x))) l.

Definition emitAll (evs : list Event) (w : World) : World :=
  {| fs := fs w; ctxDone := ctxDone w; modelSem := modelSem w;
     trace := trace w ++ evs |}.

(** The pair [prepareDownloadTasks] has accumulated after the required
    files [done]: a task for each one reported missing, the path of each
    other one. *)
Definition prepared (env : Env) (files : gmap string string)
    (done : list (BundleFile * string * bool))
  : list downloadTask * list string :=
  (tasksFor 0 (List.filter (missingReq env files) done),
   map (fun x => snd (fst x)) (List.filter (presentReq env files) done)).

(** The path of the output manifest. *)
Definition manifestPath (env : Env) (b : Live2dBuilder) : string :=
  Join env (path b) "model.json".

(** The text of the fields of an object after its first one. *)
Fixpoint fieldsText (depth : nat) (l : list (string * GoJSON.JSON)) : string :=
  match l with
  | [] => EmptyString
  | (k, y) :: l' =>
      "," +:+ GoJSON.nl depth +:+ GoJSON.quote k +:+ ": " +:+
      GoJSON.render depth y +:+ fieldsText depth l'
  end.

(** A text written with apostrophes where it has double quotes. *)
Fixpoint requote (s : string) : string :=
  match s with
  | EmptyString => EmptyString
  | String c s' =>
      String (if Ascii.eqb c "'"%char then GoJSON.dquote else c) (requote s')
  end.

(** The text every manifest begins with: the version and the two fixed
    blocks. *)
Definition fixedHeader : string := requote
"{
  'version': 'Sample 1.0.0',
  'layout': {
    'center_x': 0,
    'center_y': 0,
    'width': 2
  },
  'hit_areas_custom': {
    'body_x': [
      -0.3,
      0.2
    ],
    'body_y': [
      0.3,
      -1.9
    ],
    'head_x': [
      -0.25,
      1
    ],
    'head_y': [
      0.25,
      0.2
    ]
  }".

(** ** Invariants of the download phase *)

(** The tasks no worker has taken yet: those still to be sent and those
    in the task channel. *)
Definition pending (s : BuilderState) (p : Pool) : list downloadTask :=
  match phase s with
  | Sending rest => rest ++ taskChan p
  | _ => taskChan p
  end.

Definition notSending (ws : WorkerState) : Prop :=
  match ws with
  | WSending _ _ => False
  | _ => True
  end.

(** The pending tasks have distinct result channels, each of them empty,
    and no worker waits to deliver a result. *)
Definition poolInv (s : BuilderState) (p : Pool) : Prop :=
  NoDup (map result (pending s p)) /\
  (forall t, In t (pending s p) -> resultChans p !! result t = Some None) /\
  Forall notSending (workers p).

Definition noError (r : downloadResult) : Prop := err r = None.

(** What the builder has received, by phase. *)
Definition builderInv (tasks : list downloadTask) (s : BuilderState) : Prop :=
  match phase s with
  | Sending _ => received s = []
  | Receiving rest =>
      Forall noError (received s) /\
      length (received s) + length rest = length tasks
  | Returned None =>
      Forall noError (received s) /\
      length (received s) = length tasks
  | Returned (Some e) =>
      length (received s) <= length tasks /\
      ((e = ErrCancelled /\ Forall noError (received s)) \/
       (exists oks r, received s = oks ++ [r] /\ Forall noError oks /\
                      err r = Some e))
  end.

(** ** Frames: what a piece of the build leaves alone *)

Definition notGate (e : Event) : Prop :=
  match e with
  | EvAcquire | EvRelease => False
  | _ => True
  end.

(** Neither a gate event nor a write of the manifest. *)
Definition quiet (e : Event) : Prop :=
  match e with
  | EvAcquire | EvRelease | EvWriteFile _ _ => False
  | _ => True
  end.

(** From [w] to [w']: the gate is as it was, no file has gone, the events
    [evs] were added, all of them in [P], and every file copied to is
    there. *)
Definition frame (P : Event -> Prop) (w w' : World) : Prop :=
  modelSem w' = modelSem w /\
  (forall p, is_Some (fs w !! p) -> is_Some (fs w' !! p)) /\
  exists evs, trace w' = trace w ++ evs /\ Forall P evs /\
              forall p, In (EvCopy p) evs -> is_Some (fs w' !! p).

Definition framed {A} (P : Event -> Prop) (c : M A) : Prop :=
  forall w, frame P w (snd (c w)).

(** The events of the body of [Construct] when it ends with [r]: no gate
    event, and a written manifest only if [r] is success. *)
Definition bodyEvent (r : outcome unit) (e : Event) : Prop :=
  notGate e /\ forall p, e = EvWriteFile p true -> r = Ok tt.

(** The system in which the builders of [bs] have all yet to start. *)
Definition initialSystem (w : World) (bs : list Live2dBuilder) : System :=
  {| world := w; builds := map (fun b => (b, NotStarted)) bs |}.

(** The gate is consistent: the calls that hold a slot are as many as the
    tokens in the channel, and no more than its capacity. *)
Definition gateInv (env : Env) (s : System) : Prop :=
  holders s = modelSem (world s) /\ holders s <= MaxConcurrentModels env.

(** ** A build without cancellation *)

(** An interleaving in which the builder sends its tasks and closes the
    task channel, worker 0 takes [n] tasks, and the builder receives. *)
Definition roundRobin (n : nat) : list Tick :=
  replicate (S n) (TBuilder false) ++ replicate n (TWorker 0)
  ++ replicate (S n) (TBuilder false).

(** The error [DownloadBundleFile] returns for a task when the context is
    not cancelled: a function of the environment. *)
Definition fetchError (env : Env) (t : downloadTask) : option error :=
  let url := downloadURL env (bundleFile t) in
  if newRequestErr env url then Some ErrCreateRequest else
  match httpDo env url with
  | None => Some ErrTransport
  | Some resp =>
      match validateResponse resp (allowNotFound t) with
      | Some e => Some e
      | None =>
          if allowNotFound t && (StatusCode resp =? StatusNotFound)%Z then None
          else if mkdirErr env (Dir env (filePath t)) then Some ErrMkdir
          else if createErr env (filePath t) then Some ErrCreateFile
          else match BodyErr resp with
               | Some CopyCtxErr => Some ErrCopyCancelled
               | Some CopyOtherErr => Some ErrCopy
               | None => None
               end
      end
  end.

(** Whether that call creates the file of the task. *)
Definition fetchCreates (env : Env) (t : downloadTask) : bool :=
  let url := downloadURL env (bundleFile t) in
  if newRequestErr env url then false else
  match httpDo env url with
  | None => false
  | Some resp =>
      match validateResponse resp (allowNotFound t) with
      | Some _ => false
      | None =>
          if allowNotFound t && (StatusCode resp =? StatusNotFound)%Z then false
          else if mkdirErr env (Dir env (filePath t)) then false
          else negb (createErr env (filePath t))
      end
  end.

(** The outcome a worker delivers for a task, then. *)
Definition taskResult (env : Env) (b : Live2dBuilder) (t : downloadTask)
  : downloadResult :=
  match fetchError env t with
  | Some e => mkResult EmptyString (Some (ErrDownloadFailed e))
  | None =>
      match Rel env (path b) (filePath t) with
      | None => mkResult EmptyString (Some ErrRel)
      | Some rel => mkResult (ToSlash env rel) None
      end
  end.

Definition taskOk (env : Env) (b : Live2dBuilder) (t : downloadTask) : Prop :=
  err (taskResult env b t) = None.

(** The accumulator after the outcomes of the tasks [done]. *)
Definition foldTasks (env : Env) (b : Live2dBuilder) (m : Live2dModel)
    (done : list downloadTask) : Live2dModel :=
  fold_left (fun m t => updateModelData m (filePath t) (relPath (taskResult env b t)))
            done m.

(** The accumulator after the existing files [files]. *)
Definition foldExisting (env : Env) (b : Live2dBuilder) (m : Live2dModel)
    (files : list string) : Live2dModel :=
  fold_left (fun m file =>
               match Rel env (path b) file with
               | Some rel => updateModelData m file (ToSlash env rel)
               | None => m
               end) files m.

Definition physicsFile (env : Env) (b : Live2dBuilder) : string :=
  Join env (dataPath b) "physics.json".

(** Nothing disturbs the build: no cancellation before or during it, room
    at the gate, a data directory that can be made, and a relative path
    for every required file. *)
Definition undisturbed (env : Env) (b : Live2dBuilder) (sched : list Tick)
    (w : World) : Prop :=
  isDone (builderContext b) w = false /\
  ~ In TCancel sched /\
  semHasRoom env w = true /\
  mkdirErr env (dataPath b) = false /\
  Forall (fun p => is_Some (Rel env (path b) p)) (requiredPaths env b).

(** The invariant of a download phase without cancellation, started on
    the accumulator [m0] in the world [w0]. *)
Definition calmInv (env : Env) (b : Live2dBuilder) (ctx : Context)
    (tasks : list downloadTask) (m0 : Live2dModel) (w0 : World)
    (s : BuilderState) (p : Pool) (w : World) : Prop :=
  isDone ctx w = false /\
  (forall t, In t (pending s p) -> In t tasks) /\
  (forall ch r, resultChans p !! ch = Some (Some r) ->
     exists t, In t tasks /\ result t = ch /\ r = taskResult env b t) /\
  (forall k ch r, workers p !! k = Some (WSending ch r) ->
     exists t, In t tasks /\ result t = ch /\ r = taskResult env b t) /\
  (forall file,
     (forall t, In t tasks -> filePath t = file -> fetchCreates env t = false) ->
     fs w !! file = fs w0 !! file) /\
  match phase s with
  | Sending rest => acc s = m0 /\ exists sent, tasks = sent ++ rest
  | Receiving rest =>
      exists done, tasks = done ++ rest /\ Forall (taskOk env b) done /\
                   acc s = foldTasks env b m0 done
  | Returned None =>
      Forall (taskOk env b) tasks /\ acc s = foldTasks env b m0 tasks
  | Returned (Some e) =>
      exists done t rest,
        tasks = done ++ t :: rest /\ Forall (taskOk env b) done /\
        err (taskResult env b t) = Some e
  end.

(** The task is that of a texture of the build. *)
Definition isTextureTask (env : Env) (b : Live2dBuilder) (t : downloadTask) : Prop :=
  In (bundleFile t, filePath t, allowNotFound t)
     (requiredIn env (Join env (dataPath b) "textures") (bdTextures (data b))).

(** The server of the examples with the model file and the texture, and
    without the physics file; the accumulator a build ends with there. *)
Definition demoEnv : Env :=
  Demo.env [ (Demo.url "model.moc", ("application/octet-stream", "MOC"));
             (Demo.url "texture_00.png", ("image/png", "PNG")) ] 1 1.

Definition demoModel : Live2dModel :=
  {| Model := "data/model.moc";
     Physics := "data/physics.json";
     Textures := ["data/textures/texture_00.png"];
     Motions := ∅;
     Expressions := [] |}.

(** The same server without the texture. *)
Definition demoEnvNoTexture : Env :=
  Demo.env [ (Demo.url "model.moc", ("application/octet-stream", "MOC")) ] 1 1.

(** ** Further notions *)

(** The errors of [writeFileContent]: those returned after the file has
    been created. *)
Definition isCopyError (e : error) : bool :=
  match e with
  | ErrCopyCancelled | ErrCopy => true
  | _ => false
  end.

(** The error [writeFileContent] makes of the way [io.Copy] ended. *)
Definition copyError (ce : CopyErr) : error :=
  match ce with
  | CopyCtxErr => ErrCopyCancelled
  | CopyOtherErr => ErrCopy
  end.

(** What a caller of a function returning [(string, error)] makes of the
    outcome a worker would send. *)
Definition outcomeOf (r : downloadResult) : outcome string :=
  match err r with
  | Some e => Fail e
  | None => Ok (relPath r)
  end.

#[global] Instance FileType_eq_dec : EqDecision FileType.
Proof. solve_decision. Defined.

(** The update is of a file classified as [ft]. *)
Definition updateOf (ft : FileType) (u : string * string) : bool :=
  bool_decide (getFileType (fst u) = ft).

(** The update is of a motion file and stores under the name [name]. *)
Definition motionNamed (name : string) (u : string * string) : bool :=
  updateOf FtMotion u && String.eqb (nameOf (fst u)) name.

(** The progress reports of a builder for the counts [from + 1] to
    [from + n]: none without a TUI model. *)
Definition progressEvents (b : Live2dBuilder) (from n : nat) : list Event :=
  if hasTui (downloader b)
  then map (EvUpdateProgress (ModelName b)) (seq (S from) n)
  else [].

(** The number of files [initializeDownloadProgress] announces. *)
Definition totalFiles (b : Live2dBuilder) : nat :=
  1 + 1 + length (bdTextures (data b)) + length (bdMotions (data b))
  + length (bdExpressions (data b)).

(** The announcement of [initializeDownloadProgress]: none without a TUI
    model. *)
Definition announcement (b : Live2dBuilder) : list Event :=
  if hasTui (downloader b)
  then [EvAddDownloadItem (ModelName b) (totalFiles b)]
  else [].

(** The calls that set the progress of a download item. *)
Definition isProgressCall (e : Event) : bool :=
  match e with
  | EvAddDownloadItem _ _ | EvUpdateProgress _ _ => true
  | _ => false
  end.

Definition isStat (e : Event) : bool :=
  match e with
  | EvStat _ => true
  | _ => false
  end.

Definition isGet (e : Event) : bool :=
  match e with
  | EvGet _ => true
  | _ => false
  end.

(** The events of a download: the request and the making of the file. *)
Definition fileEvent (e : Event) : Prop :=
  match e with
  | EvGet _ | EvMkdirAll _ | EvCreate _ | EvCopy _ => True
  | _ => False
  end.

(** The events of the build once the existence checks are done. *)
Definition afterCheck (e : Event) : Prop :=
  match e with
  | EvGet _ | EvMkdirAll _ | EvCreate _ | EvCopy _
  | EvUpdateProgress _ _ | EvSendError _ _ | EvWriteFile _ _ => True
  | _ => False
  end.

(** The events of a build that ends before its existence checks. *)
Definition setupEvent (e : Event) : Prop :=
  match e with
  | EvAcquire | EvRelease | EvMkdirAll _ | EvSetError _ => True
  | _ => False
  end.

(** The progress of a download phase started at the count [c0] in the
    world [w0]: [k] outcomes have been folded, each reported. *)
Definition progressInv (b : Live2dBuilder) (tasks : list downloadTask)
    (c0 : nat) (w0 : World) (s : BuilderState) (w : World) : Prop :=
  exists evs k,
    trace w = trace w0 ++ evs /\ Forall afterCheck evs /\
    List.filter isProgressCall evs = progressEvents b c0 k /\
    completedFiles s = c0 + k /\
    match phase s with
    | Sending _ => k = 0
    | Receiving rest => k + length rest = length tasks
    | Returned None => k = length tasks
    | Returned (Some _) => k <= length tasks
    end.

(** The error of the first task, in task order, whose outcome has one. *)
Fixpoint firstError (env : Env) (b : Live2dBuilder) (tasks : list downloadTask)
  : option error :=
  match tasks with
  | [] => None
  | t :: rest =>
      match err (taskResult env b t) with
      | Some e => Some e
      | None => firstError env b rest
      end
  end.

(** What the tasks give when they are taken one after the other, in task
    order, without cancellation. *)
Definition downloadOutcome (env : Env) (b : Live2dBuilder) (m : Live2dModel)
    (tasks : list downloadTask) : outcome Live2dModel :=
  match firstError env b tasks with
  | Some e => Fail e
  | None => Ok (foldTasks env b m tasks)
  end.

(** The interleaving [sched] in full: the workers go on after the
    builder has returned. *)
Fixpoint runTicks (env : Env) (b : Live2dBuilder) (ctx : Context)
    (tasks : list downloadTask) (sched : list Tick)
    (s : BuilderState) (p : Pool) (w : World)
  : BuilderState * Pool * World :=
  match sched with
  | [] => (s, p, w)
  | t :: sched' =>
      let '(s', p', w') := tick env b ctx tasks t s p w in
      runTicks env b ctx tasks sched' s' p' w'
  end.

(** The calls on the TUI model made while the outcomes are awaited. *)
Definition tuiOnly (e : Event) : Prop :=
  match e with
  | EvUpdateProgress _ _ | EvSendError _ _ => True
  | _ => False
  end.

(** The invariant of a download phase without workers: no outcome is
    ever there to receive, and the builder waits or has returned the
    cancellation error. *)
Definition idleInv (ctx : Context) (w0 : World) (s : BuilderState) (p : Pool)
    (w : World) : Prop :=
  workers p = [] /\
  (forall ch, resultReady p ch = None) /\
  fs w = fs w0 /\
  match phase s with
  | Sending _ => True
  | Receiving rest => rest <> []
  | Returned (Some e) => e = ErrCancelled /\ isDone ctx w = true
  | Returned None => False
  end.

(** The invariant of a download phase under a context that is cancelled:
    no file changes and only calls on the TUI model are made. *)
Definition cancelledInv (ctx : Context) (w0 : World) (w : World) : Prop :=
  isDone ctx w = true /\ fs w = fs w0 /\
  exists evs, trace w = trace w0 ++ evs /\ Forall tuiOnly evs.

(** The invariant of a download phase that starts under a cancelled
    context: no outcome is ever sent, the builder receives none, and if
    it has returned it has returned the cancellation error. *)
Definition silentInv (ctx : Context) (tasks : list downloadTask)
    (s : BuilderState) (p : Pool) (w : World) : Prop :=
  isDone ctx w = true /\
  (forall ch, resultReady p ch = None) /\
  Forall notSending (workers p) /\
  match phase s with
  | Sending _ => True
  | Receiving rest => rest = tasks
  | Returned e => e = Some ErrCancelled
  end.

(** The file of the task is on disk, unless the task tolerates a file
    missing at the remote. *)
Definition onDisk (w : World) (t : downloadTask) : Prop :=
  allowNotFound t = false -> is_Some (fs w !! filePath t).

(** The outcome [r] of the task [t] is honest: if it has no error, the
    file is there. *)
Definition honest (w : World) (t : downloadTask) (r : downloadResult) : Prop :=
  err r = None -> onDisk w t.

(** The invariant of a download phase, under every interleaving: an
    outcome that waits in a result channel or with a worker is honest,
    and the tasks whose outcome the builder has folded have their files
    on disk. *)
Definition madeInv (tasks : list downloadTask)
    (s : BuilderState) (p : Pool) (w : World) : Prop :=
  (forall t, In t (pending s p) -> In t tasks) /\
  (forall t r, In t tasks -> resultChans p !! result t = Some (Some r) ->
               honest w t r) /\
  (forall k t r, In t tasks -> workers p !! k = Some (WSending (result t) r) ->
                 honest w t r) /\
  match phase s with
  | Sending rest => exists sent, tasks = sent ++ rest
  | Receiving rest => exists done, tasks = done ++ rest /\ Forall (onDisk w) done
  | Returned None => Forall (onDisk w) tasks
  | Returned (Some _) => True
  end.

(** A build with two textures on the server of the examples, and the
    world in which the second one is already on disk. *)
Definition twoTextures : BuildData :=
  {| bdModel := mkBundleFile Demo.bundle "model.moc";
     bdPhysics := mkBundleFile Demo.bundle "physics.json";
     bdTextures := [mkBundleFile Demo.bundle "texture_00.png";
                    mkBundleFile Demo.bundle "texture_01.png"];
     bdTransition := mkBundleFile Demo.bundle "anonTransitionData.asset";
     bdMotions := [];
     bdExpressions := [] |}.

Definition twoTexturesBuilder : Live2dBuilder :=
  NewLive2dBuilder demoEnv "out/anon" twoTextures (mkDownloader false false) "anon".

Definition secondTextureOnDisk : World :=
  setFs (<["out/anon/data/textures/texture_01.png" := "PNG1"]> ∅) Demo.world0.

(** The end of a manifest without expressions, and the text between the
    fixed header and the model path, between the model path and the
    physics path, and after the physics path in a manifest without
    textures, motions and expressions. *)
Definition noExpressionsEnd : string := requote
",
  'expressions': null
}".

Definition modelLabel : string := requote
",
  'model': ".

Definition physicsLabel : string := requote
",
  'physics': ".

Definition nothingElseEnd : string := requote
",
  'textures': null,
  'motions': {},
  'expressions': null
}".

(** The relative path the manifest gives a file. *)
Definition relOf (env : Env) (b : Live2dBuilder) (file : string) : string :=
  match Rel env (path b) file with
  | Some rel => ToSlash env rel
  | None => EmptyString
  end.

(** The update of the accumulator for a file. *)
Definition updateFor (env : Env) (b : Live2dBuilder) (file : string)
  : string * string :=
  (file, relOf env b file).

Definition classifiedAs (ft : FileType) (file : string) : bool :=
  bool_decide (getFileType file = ft).







(* ===================================================================== *)
(** * The download list of the TUI model (pkg/tui/model.go)               *)
(* ===================================================================== *)

(** The part of [tui.Model] that the downloader drives: the download
    items, their order, the list shown on the downloading screen, the
    screen state and the cancellation.  The progress bars, the text
    input and the model list belong to the UI library or to other
    screens and are left out, and so is [UpdateDownloadListMsg], which
    nothing in the repository sends.  The program is set ([SetProgram],
    as [main] does before the first download), so [program.Send] has a
    receiver; a message sent waits in [inbox] until the event loop takes
    it, and the loop may take the waiting messages in any order. *)
Module Tui.

Definition StateInput : string := "input".
Definition StateList : string := "list".
Definition StateLoading : string := "loading".
Definition StateDownloading : string := "downloading".

(** [DownloadItem]; [DownloadListItem] has the same fields and is a copy
    of it.  A nil [Err] is [None]. *)
Record DownloadItem := mkItem {
  Name : string;
  Total : Z;
  Current : Z;
  Err : option error
}.

(** [progressMsg], with the two operands of its ratio, and
    [progressErrMsg]. *)
Inductive Msg :=
  | progressMsg (itemName : string) (current total : Z)
  | progressErrMsg (itemName : string) (err : option error).

Record Model := mkModel {
  Items : gmap string DownloadItem;   (* map[string]*DownloadItem *)
  ItemOrder : list string;
  DownloadList : list DownloadItem;   (* the items of the last SetItems *)
  State : string;
  cancelled : bool;                   (* cancelChan closed and Ctx cancelled *)
  panicked : bool;                    (* close of the closed cancelChan *)
  inbox : list Msg                    (* sent to the program, not yet handled *)
}.

Definition NewModel : Model := mkModel ∅ [] [] StateInput false false [].

Definition setItems (items : gmap string DownloadItem) (m : Model) : Model :=
  mkModel items (ItemOrder m) (DownloadList m) (State m) (cancelled m) (panicked m)
          (inbox m).

Definition setItemOrder (order : list string) (m : Model) : Model :=
  mkModel (Items m) order (DownloadList m) (State m) (cancelled m) (panicked m)
          (inbox m).

Definition setState (state : string) (m : Model) : Model :=
  mkModel (Items m) (ItemOrder m) (DownloadList m) state (cancelled m) (panicked m)
          (inbox m).

Definition setInbox (msgs : list Msg) (m : Model) : Model :=
  mkModel (Items m) (ItemOrder m) (DownloadList m) (State m) (cancelled m)
          (panicked m) msgs.

Definition send (msg : Msg) (m : Model) : Model := setInbox (inbox m ++ [msg]) m.

(** [updateDownloadList]: a copy of every item of [ItemOrder] that is in
    [Items], in that order. *)
Definition updateDownloadList (m : Model) : Model :=
  mkModel (Items m) (ItemOrder m)
          (omap (fun name => Items m !! name) (ItemOrder m))
          (State m) (cancelled m) (panicked m) (inbox m).

Definition AddDownloadItem (name : string) (totalFiles : Z) (m : Model) : Model :=
  match Items m !! name with
  | Some item =>
      updateDownloadList
        (setItems (<[name := mkItem (Name item) totalFiles 0 (Err item)]> (Items m)) m)
  | None =>
      updateDownloadList
        (setItemOrder (ItemOrder m ++ [name])
           (setItems (<[name := mkItem name totalFiles 0 None]> (Items m)) m))
  end.

Definition UpdateProgress (name : string) (current : Z) (m : Model) : Model :=
  if cancelled m then m
  else match Items m !! name with
       | Some item =>
           send (progressMsg name current (Total item))
                (setItems (<[name := mkItem (Name item) (Total item) current (Err item)]>
                             (Items m)) m)
       | None => m
       end.

Definition SendError (itemName : string) (err : option error) (m : Model) : Model :=
  send (progressErrMsg itemName err) m.

Definition handleProgressMsg (itemName : string) (m : Model) : Model :=
  updateDownloadList
    match Items m !! itemName with
    | Some _ => m
    | None => setItems (<[itemName := mkItem itemName 1 0 None]> (Items m)) m
    end.

Definition handleProgressErrMsg (itemName : string) (err : option error)
    (m : Model) : Model :=
  match Items m !! itemName with
  | Some item =>
      updateDownloadList
        (setItems (<[itemName := mkItem (Name item) (Total item) (Current item) err]>
                     (Items m)) m)
  | None => m
  end.

(** [Update] on one of the two messages. *)
Definition Update (msg : Msg) (m : Model) : Model :=
  match msg with
  | progressMsg itemName _ _ => handleProgressMsg itemName m
  | progressErrMsg itemName err => handleProgressErrMsg itemName err m
  end.

(** The escape key in [handleListState] and in [handleDownloadingState]:
    back to the input screen, and the items are dropped. *)
Definition dropItems (m : Model) : Model :=
  updateDownloadList (setItemOrder [] (setItems ∅ (setState StateInput m))).

(** [close(m.cancelChan)] and [m.Cancel()] in [handleKeyMsg]: closing the
    channel a second time panics. *)
Definition quit (m : Model) : Model :=
  if cancelled m
  then mkModel (Items m) (ItemOrder m) (DownloadList m) (State m) true true (inbox m)
  else mkModel (Items m) (ItemOrder m) (DownloadList m) (State m) true false (inbox m).

(** The keys of [handleKeyMsg] that reach the items or the cancellation. *)
Inductive Key := CtrlC | Esc.

Definition handleKeyMsg (key : Key) (m : Model) : Model :=
  match key with
  | CtrlC => quit m
  | Esc =>
      if String.eqb (State m) StateInput then quit m
      else if String.eqb (State m) StateLoading then setState StateInput m
      else if String.eqb (State m) StateList then dropItems m
      else if String.eqb (State m) StateDownloading then dropItems m
      else m
  end.

(** The mark [Title] starts with. *)
Definition titleMark (i : DownloadItem) : string :=
  match Err i with
  | Some _ => "❌"
  | None => if Z.eqb (Current i) (Total i) then "✅" else "⏳"
  end.

(** What happens to the model: the calls of the downloader and of
    [main], an assignment to [State] (by [main] or by a handler of
    another screen), and the event loop handling the [i]-th waiting
    message or a key.  After a panic nothing happens any more. *)
Inductive Op :=
  | OpAdd (name : string) (totalFiles : Z)
  | OpUpdate (name : string) (current : Z)
  | OpSendError (name : string) (err : option error)
  | OpHandle (i : nat)
  | OpSetState (state : string)
  | OpEsc
  | OpCtrlC.

Definition step (m : Model) (op : Op) : Model :=
  if panicked m then m else
  match op with
  | OpAdd name totalFiles => AddDownloadItem name totalFiles m
  | OpUpdate name current => UpdateProgress name current m
  | OpSendError name err => SendError name err m
  | OpHandle i =>
      match inbox m !! i with
      | Some msg => Update msg (setInbox (take i (inbox m) ++ drop (S i) (inbox m)) m)
      | None => m
      end
  | OpSetState state => setState state m
  | OpEsc => handleKeyMsg Esc m
  | OpCtrlC => handleKeyMsg CtrlC m
  end.

Definition run (ops : list Op) (m : Model) : Model := fold_left step ops m.

(** [SendError] with an error, as the downloader calls it. *)
Definition sendsError (op : Op) : bool :=
  match op with
  | OpSendError _ None => false
  | _ => true
  end.

(** Anything but the escape key, which drops the items in the list and
    in the downloading state. *)
Definition keepsItems (op : Op) : bool :=
  match op with
  | OpEsc => false
  | _ => true
  end.

(** Every item is stored under its name. *)
Definition named (m : Model) : Prop :=
  forall k it, Items m !! k = Some it -> Name it = k.

(** The list shows items of [ItemOrder] only. *)
Definition listed (m : Model) : Prop :=
  forall it, In it (DownloadList m) -> In (Name it) (ItemOrder m).

(** No waiting error message carries a nil error. *)
Definition errorsWaiting (m : Model) : Prop :=
  forall name, ~ In (progressErrMsg name None) (inbox m).

(** The item [name] carries an error. *)
Definition hasError (name : string) (m : Model) : Prop :=
  exists it, Items m !! name = Some it /\ is_Some (Err it).

(** The item [name] has failed, and the list shows it so. *)
Definition failed (name : string) (m : Model) : Prop :=
  hasError name m /\
  (forall it, In it (DownloadList m) -> Name it = name -> titleMark it = "❌").

(** The item [name] exists and is not in [ItemOrder]. *)
Definition unlisted (name : string) (m : Model) : Prop :=
  is_Some (Items m !! name) /\ ~ In name (ItemOrder m) /\
  (forall it, In it (DownloadList m) -> Name it <> name).

End Tui.

(* ===================================================================== *)
(** * cmd/bestdori-live2d-downloader/main.go: the callers of [Construct]  *)
(* ===================================================================== *)

(** [%d] of an [int]. *)
Definition formatInt (z : Z) : string :=
  (if (z <? 0)%Z then "-" else "") +:+ GoJSON.natToString (Z.abs_nat z).

(** [err.Error()] for the errors of the package.  An error made with
    [%w] around one from outside the repository is written with the
    text of that one, [detail]. *)
Fixpoint errorText (detail : error -> string) (e : error) : string :=
  match e with
  | ErrCancelled => "下载已取消"
  | ErrCreateRequest => "创建请求失败: " +:+ detail e
  | ErrTransport => "下载文件失败: " +:+ detail e
  | ErrHTTPStatus code => "下载文件HTTP错误: " +:+ formatInt code
  | ErrContentMismatch => "文件不存在或无法访问"
  | ErrMkdir => "创建目录失败: " +:+ detail e
  | ErrCreateFile => "创建文件失败: " +:+ detail e
  | ErrCopyCancelled => "下载超时或被取消: " +:+ detail e
  | ErrCopy => "写入文件失败: " +:+ detail e
  | ErrRel => "获取相对路径失败: " +:+ detail e
  | ErrWriteManifest => "写入模型数据失败: " +:+ detail e
  | ErrDownloadFailed cause => "下载文件失败: " +:+ errorText detail cause
  end.

Definition ErrDownloadCancelled : string := "下载已取消".
Definition StateInput : string := "input".

(** The errors [getLive2dPath] constructs. *)
Inductive pathError :=
  | PathFormat                        (* errors.New("无效的Live2D名称格式") *)
  | PathCharaID (detail : string).    (* "无效的角色ID: %w" *)

(** The errors [downloadLive2d] returns. *)
Inductive appError :=
  | AppGetData (detail : string)      (* "获取Live2D数据失败: %w" *)
  | AppPath (e : pathError)           (* the error of getLive2dPath, as it is *)
  | AppConstruct (e : error).         (* "构建Live2D模型失败: %w" *)

(** What the application observes of the API client, of [getLive2dPath]
    and of the errors from outside the repository. *)
Record App := mkApp {
  GetLive2dData : string -> string + BuildData;   (* inl: the text of the error *)
  getLive2dPath : string -> pathError + string;
  errDetail : error -> string
}.

Definition appErrorText (app : App) (e : appError) : string :=
  match e with
  | AppGetData detail => "获取Live2D数据失败: " +:+ detail
  | AppPath PathFormat => "无效的Live2D名称格式"
  | AppPath (PathCharaID detail) => "无效的角色ID: " +:+ detail
  | AppConstruct e => "构建Live2D模型失败: " +:+ errorText (errDetail app) e
  end.

(** The downloader of the application: [NewDownloader] is given a TUI
    model, which has a context. *)
Definition appDownloader : Downloader := mkDownloader true true.

(** The builder [downloadLive2d] makes for a model name and a path. *)
Definition appBuilder (env : Env) (path : string) (data : BuildData)
    (live2dName : string) : Live2dBuilder :=
  NewLive2dBuilder env path data appDownloader live2dName.

(** [downloadLive2d]: [None] while [Construct] has not returned,
    [Some None] for the nil error. *)
Definition downloadLive2d (env : Env) (app : App) (live2dName : string)
    (coin : bool) (sched : list Tick)
  : World -> option (option appError) * World :=
  fun w =>
    match GetLive2dData app live2dName with
    | inl detail => (Some (Some (AppGetData detail)), w)
    | inr data =>
        match getLive2dPath app live2dName with
        | inl e => (Some (Some (AppPath e)), w)
        | inr path =>
            match Construct env (appBuilder env path data live2dName) coin sched w with
            | (Ok _, w') => (Some None, w')
            | (Fail constructErr, w') => (Some (Some (AppConstruct constructErr)), w')
            | (Blocked, w') => (None, w')
            end
        end
    end.

(** What [handleDirectDownload] sets of the TUI model. *)
Record Screen := mkScreen {
  State : string;
  ErrorMessage : string
}.

(** [handleDirectDownload]: the boolean tells the main loop to go on. *)
Definition handleDirectDownload (env : Env) (app : App) (input : string)
    (coin : bool) (sched : list Tick) (scr : Screen) (w : World)
  : option bool * Screen * World :=
  let input := if HasSuffix input "_rip" then TrimSuffix input "_rip" else input in
  let w := emit (EvAddDownloadItem input 1) w in
  let scr := {| State := "downloading"; ErrorMessage := ErrorMessage scr |} in
  match downloadLive2d env app input coin sched w with
  | (None, w') => (None, scr, w')
  | (Some (Some downloadErr), w') =>
      if String.eqb (appErrorText app downloadErr) ErrDownloadCancelled
      then (Some false, scr, w')
      else (Some true,
            {| State := StateInput;
               ErrorMessage := "下载失败: " +:+ appErrorText app downloadErr |},
            w')
  | (Some None, w') => (Some true, scr, w')
  end.

(** [downloadModel]: the error it sends on [errChan], if any, and
    whether it marks the model as completed. *)
Definition downloadModel (env : Env) (app : App) (costume : string)
    (coin : bool) (sched : list Tick) (w : World)
  : option (option appError * bool) * World :=
  match downloadLive2d env app costume coin sched w with
  | (None, w') => (None, w')
  | (Some (Some err), w') =>
      if String.eqb (appErrorText app err) ErrDownloadCancelled
      then (Some (Some err, false), w')
      else (Some (None, false), w')
  | (Some None, w') => (Some (None, true), w')
  end.

(* THEOREMS *)

Example getFileType_ex1 : getFileType "m/data/motions/idle01.mtn" = FtMotion.
Proof. reflexivity. Qed.
Example nameOf_ex1 : nameOf "m/data/motions/idle01.mtn" = "idle01".
Proof. reflexivity. Qed.
Example nameOf_ex2 : nameOf "m/data/expressions/default.exp.json" = "default".
Proof. reflexivity. Qed.
Example Ext_ex1 : GoFilepath.Ext "m/data/motions/idle.v2.mtn" = ".mtn".
Proof. reflexivity. Qed.
Example Base_ex1 : GoFilepath.Base "a/b//" = "b".
Proof. reflexivity. Qed.


(* ===================================================================== *)
(** * The accumulator update                                              *)
(* ===================================================================== *)

Section UpdateModelData.

Lemma Split_hd (s : string) :
  hd EmptyString (Split s GoFilepath.dot) = beforeFirstDot s.
Proof.
  induction s as [|c s IH]; simpl; [reflexivity|].
  destruct (Ascii.eqb c GoFilepath.dot); [reflexivity|].
  destruct (Split s GoFilepath.dot) as [|piece rest] eqn:E; simpl in *;
    congruence.
Qed.

Lemma beforeFirstDot_noDot (s : string) : hasDot (beforeFirstDot s) = false.
Proof.
  induction s as [|c s IH]; simpl; [reflexivity|].
  destruct (Ascii.eqb c GoFilepath.dot) eqn:E; simpl; [reflexivity|].
  now rewrite E.
Qed.

Lemma beforeFirstDot_split (s : string) :
  s = beforeFirstDot s \/
  exists ext, s = beforeFirstDot s +:+ String GoFilepath.dot ext.
Proof.
  induction s as [|c s IH]; simpl; [now left|].
  destruct (Ascii.eqb c GoFilepath.dot) eqn:E.
  - apply Ascii.eqb_eq in E. subst c. right. now exists s.
  - destruct IH as [IH|[ext IH]].
    + left. f_equal. exact IH.
    + right. exists ext.
      change (String c s
              = String c (beforeFirstDot s +:+ String GoFilepath.dot ext)).
      f_equal. exact IH.
Qed.

Lemma updateModelData_motion (m : Live2dModel) (filePath relPath : string) :
  getFileType filePath = FtMotion ->
  Motions (updateModelData m filePath relPath)
  = <[nameOf filePath := [mkMotionFile relPath]]> (Motions m).
Proof. intros H. unfold updateModelData. now rewrite H. Qed.

Lemma updateModelData_motions_single (m : Live2dModel) (filePath relPath : string) :
  (forall n files, Motions m !! n = Some files -> exists f, files = [f]) ->
  forall n files, Motions (updateModelData m filePath relPath) !! n = Some files ->
                  exists f, files = [f].
Proof.
  intros Hm n files. unfold updateModelData.
  destruct (getFileType filePath); simpl; try apply Hm.
  rewrite lookup_insert. case_decide.
  - intros [= <-]. eauto.
  - apply Hm.
Qed.

Lemma updateAll_motions_single (ups : list (string * string)) (m : Live2dModel) :
  (forall n files, Motions m !! n = Some files -> exists f, files = [f]) ->
  forall n files, Motions (updateAll m ups) !! n = Some files ->
                  exists f, files = [f].
Proof.
  revert m. induction ups as [|[p r] ups IH]; intros m Hm; simpl; [exact Hm|].
  apply IH. now apply updateModelData_motions_single.
Qed.

End UpdateModelData.

(** C9, as the code has it.  For a path classified as a motion file, the
    update stores the relative path under the part of the file's base name
    before its first dot: a name without a dot of which the base name is
    the extension by nothing or by a dot and a rest.  The entry replaces
    what was stored under that name, the other names keep their entries,
    and after any sequence of updates of a fresh accumulator every motion
    name has exactly one file. *)
Theorem motion_update_replaces (m : Live2dModel) (filePath relPath : string) :
  getFileType filePath = FtMotion ->
  let name := beforeFirstDot (GoFilepath.Base filePath) in
  let m' := updateModelData m filePath relPath in
  hasDot name = false /\
  (GoFilepath.Base filePath = name \/
   exists ext, GoFilepath.Base filePath = name +:+ String GoFilepath.dot ext) /\
  Motions m' !! name = Some [mkMotionFile relPath] /\
  (forall other, other <> name -> Motions m' !! other = Motions m !! other) /\
  (forall ups n files,
     Motions (updateAll emptyModel ups) !! n = Some files ->
     exists f, files = [f]).
Proof.
  intros Hft name m'.
  assert (Hname : nameOf filePath = name) by apply Split_hd.
  split; [apply beforeFirstDot_noDot|].
  split; [apply beforeFirstDot_split|].
  subst m'. rewrite updateModelData_motion by assumption. rewrite Hname.
  split; [apply lookup_insert_eq|].
  split.
  - intros other Hne. now rewrite lookup_insert_ne.
  - intros ups. apply updateAll_motions_single.
    intros n files. simpl. now rewrite lookup_empty.
Qed.

Lemma motion_update_replaces_witness :
  getFileType "out/anon/data/motions/idle01.mtn" = FtMotion /\
  Motions (updateModelData
             (updateModelData emptyModel "out/anon/data/motions/idle01.mtn" "old")
             "out/anon/data/motions/idle01.mtn" "data/motions/idle01.mtn")
    !! "idle01" = Some [mkMotionFile "data/motions/idle01.mtn"].
Proof.
  split; [reflexivity|].
  apply (motion_update_replaces
           (updateModelData emptyModel "out/anon/data/motions/idle01.mtn" "old")
           "out/anon/data/motions/idle01.mtn" "data/motions/idle01.mtn").
  reflexivity.
Defined.

(** C9 as stated fails on a base name with two dots: the file
    [idle.v2.mtn] is a motion file, its base name without extension is
    [idle.v2], and the update stores nothing under that name: the entry is
    under [idle]. *)
Lemma motion_name_counterexample :
  let filePath := "out/anon/data/motions/idle.v2.mtn" in
  let m' := updateModelData emptyModel filePath "data/motions/idle.v2.mtn" in
  getFileType filePath = FtMotion /\
  baseNameWithoutExt filePath = "idle.v2" /\
  Motions m' !! baseNameWithoutExt filePath = None /\
  Motions m' !! "idle" = Some [mkMotionFile "data/motions/idle.v2.mtn"].
Proof. vm_compute. repeat split. Qed.

(** C10.  Textures and expressions are appended without a look at what is
    there: the same update twice leaves the relative path twice in the
    list.  A motion update twice is the motion update once. *)
Theorem texture_expression_append_twice (m : Live2dModel) (filePath relPath : string) :
  let m2 := updateModelData (updateModelData m filePath relPath) filePath relPath in
  (getFileType filePath = FtTexture ->
   Textures m2 = Textures m ++ [relPath; relPath]) /\
  (getFileType filePath = FtExpression ->
   Expressions m2 = Expressions m ++
     [mkExpressionFile (nameOf filePath) relPath;
      mkExpressionFile (nameOf filePath) relPath]) /\
  (getFileType filePath = FtMotion ->
   Motions m2 = Motions (updateModelData m filePath relPath)).
Proof.
  intros m2. subst m2. unfold updateModelData.
  repeat split; intros H; rewrite H; simpl.
  - now rewrite <- app_assoc.
  - now rewrite <- app_assoc.
  - apply insert_insert_eq.
Qed.

Lemma texture_expression_append_twice_witness :
  Textures (updateModelData
              (updateModelData emptyModel "out/anon/data/textures/texture_00.png"
                               "data/textures/texture_00.png")
              "out/anon/data/textures/texture_00.png" "data/textures/texture_00.png")
  = ["data/textures/texture_00.png"; "data/textures/texture_00.png"] /\
  Expressions (updateModelData
              (updateModelData emptyModel "out/anon/data/expressions/default.exp.json"
                               "data/expressions/default.exp.json")
              "out/anon/data/expressions/default.exp.json"
              "data/expressions/default.exp.json")
  = [mkExpressionFile "default" "data/expressions/default.exp.json";
     mkExpressionFile "default" "data/expressions/default.exp.json"].
Proof.
  split.
  - apply (proj1 (texture_expression_append_twice emptyModel
             "out/anon/data/textures/texture_00.png" "data/textures/texture_00.png")).
    reflexivity.
  - apply (proj1 (proj2 (texture_expression_append_twice emptyModel
             "out/anon/data/expressions/default.exp.json"
             "data/expressions/default.exp.json"))).
    reflexivity.
Defined.

(* ===================================================================== *)
(** * The asset fetcher                                                   *)
(* ===================================================================== *)

(** Unfolding of the monad. *)
Ltac monad_unfold :=
  unfold bind, ret, fail, tell, get, modify in *.

Section Fetcher.

Variables (env : Env) (ctx : Context) (bf : BundleFile) (filePath : string).
Variable (w : World).

Hypothesis notCancelled : isDone ctx w = false.
Hypothesis requestBuilt : newRequestErr env (downloadURL env bf) = false.

(** Up to the validation of the response nothing but the request has
    happened. *)
Lemma DownloadBundleFile_rejected (allow : bool) (resp : Response) (e : error) :
  httpDo env (downloadURL env bf) = Some resp ->
  validateResponse resp allow = Some e ->
  DownloadBundleFile env ctx bf filePath allow w
  = (Fail e, emit (EvGet (downloadURL env bf)) w).
Proof.
  intros Hdo Hval. unfold DownloadBundleFile, createDownloadRequest.
  monad_unfold. rewrite notCancelled, requestBuilt, Hdo, Hval. reflexivity.
Qed.

Lemma DownloadBundleFile_skipped (resp : Response) :
  httpDo env (downloadURL env bf) = Some resp ->
  StatusCode resp = StatusNotFound ->
  DownloadBundleFile env ctx bf filePath true w
  = (Ok tt, emit (EvGet (downloadURL env bf)) w).
Proof.
  intros Hdo Hst. unfold DownloadBundleFile, createDownloadRequest.
  monad_unfold. rewrite notCancelled, requestBuilt, Hdo.
  unfold validateResponse. rewrite Hst. reflexivity.
Qed.

End Fetcher.

(** C3.  A response whose status is not OK makes [DownloadBundleFile]
    return the HTTP status error, unless [allowNotFound] is set and the
    status is Not Found: then it returns no error.  In both cases no file
    is touched: the request is all that happened. *)
Theorem DownloadBundleFile_non_ok_status
    (env : Env) (ctx : Context) (bf : BundleFile) (filePath : string)
    (allow : bool) (w : World) (resp : Response) :
  isDone ctx w = false ->
  newRequestErr env (downloadURL env bf) = false ->
  httpDo env (downloadURL env bf) = Some resp ->
  StatusCode resp <> StatusOK ->
  let r := DownloadBundleFile env ctx bf filePath allow w in
  (allow = true /\ StatusCode resp = StatusNotFound -> fst r = Ok tt) /\
  (~ (allow = true /\ StatusCode resp = StatusNotFound) ->
   fst r = Fail (ErrHTTPStatus (StatusCode resp))) /\
  fs (snd r) = fs w /\
  trace (snd r) = trace w ++ [EvGet (downloadURL env bf)].
Proof.
  intros Hctx Hreq Hdo Hst r. subst r.
  destruct (decide (allow = true /\ StatusCode resp = StatusNotFound))
    as [[-> H404]|Hno].
  - rewrite (DownloadBundleFile_skipped env ctx bf filePath w Hctx Hreq resp Hdo H404).
    simpl. repeat split; tauto.
  - assert (Hval : validateResponse resp allow
                   = Some (ErrHTTPStatus (StatusCode resp))).
    { unfold validateResponse.
      destruct (Z.eqb_spec (StatusCode resp) StatusOK) as [|_]; [contradiction|].
      simpl. destruct allow; simpl; [|reflexivity].
      destruct (Z.eqb_spec (StatusCode resp) StatusNotFound); [|reflexivity].
      exfalso. apply Hno. now split. }
    rewrite (DownloadBundleFile_rejected env ctx bf filePath w Hctx Hreq allow resp _
               Hdo Hval).
    simpl. repeat split; tauto.
Qed.

Lemma DownloadBundleFile_non_ok_status_witness :
  let env := Demo.env [] 1 1 in
  let bf := mkBundleFile Demo.bundle "physics.json" in
  fst (DownloadBundleFile env Background bf "out/anon/data/physics.json" true
                          Demo.world0) = Ok tt /\
  fst (DownloadBundleFile env Background bf "out/anon/data/physics.json" false
                          Demo.world0) = Fail (ErrHTTPStatus 404).
Proof.
  split.
  - apply (DownloadBundleFile_non_ok_status (Demo.env [] 1 1) Background
             (mkBundleFile Demo.bundle "physics.json") "out/anon/data/physics.json"
             true Demo.world0 (mkResponse StatusNotFound "text/plain" "not found" None));
      [reflexivity | reflexivity | reflexivity | discriminate | split; reflexivity].
  - apply (DownloadBundleFile_non_ok_status (Demo.env [] 1 1) Background
             (mkBundleFile Demo.bundle "physics.json") "out/anon/data/physics.json"
             false Demo.world0 (mkResponse StatusNotFound "text/plain" "not found" None));
      [reflexivity | reflexivity | reflexivity | discriminate | ].
    intros [H _]. discriminate H.
Defined.

(** C7.  A response with status OK whose content type begins with
    [text/html] makes [DownloadBundleFile] return the content-mismatch
    error, for a mandatory file as for an optional one, and no file is
    created: the request is all that happened. *)
Theorem DownloadBundleFile_html_page
    (env : Env) (ctx : Context) (bf : BundleFile) (filePath : string)
    (allow : bool) (w : World) (resp : Response) :
  isDone ctx w = false ->
  newRequestErr env (downloadURL env bf) = false ->
  httpDo env (downloadURL env bf) = Some resp ->
  StatusCode resp = StatusOK ->
  HasPrefix (ContentType resp) "text/html" = true ->
  let r := DownloadBundleFile env ctx bf filePath allow w in
  fst r = Fail ErrContentMismatch /\
  fs (snd r) = fs w /\
  trace (snd r) = trace w ++ [EvGet (downloadURL env bf)].
Proof.
  intros Hctx Hreq Hdo Hst Hct r. subst r.
  assert (Hval : validateResponse resp allow = Some ErrContentMismatch).
  { unfold validateResponse. rewrite Hst, Hct. reflexivity. }
  rewrite (DownloadBundleFile_rejected env ctx bf filePath w Hctx Hreq allow resp _
             Hdo Hval).
  simpl. repeat split.
Qed.

Lemma DownloadBundleFile_html_page_witness :
  let env := Demo.env [(Demo.url "texture_00.png",
                        ("text/html; charset=utf-8", "<html>gone</html>"))] 1 1 in
  let r := DownloadBundleFile env Background
             (mkBundleFile Demo.bundle "texture_00.png")
             "out/anon/data/textures/texture_00.png" false Demo.world0 in
  fst r = Fail ErrContentMismatch /\
  fs (snd r) !! "out/anon/data/textures/texture_00.png" = None.
Proof.
  pose proof (DownloadBundleFile_html_page
    (Demo.env [(Demo.url "texture_00.png",
                ("text/html; charset=utf-8", "<html>gone</html>"))] 1 1)
    Background (mkBundleFile Demo.bundle "texture_00.png")
    "out/anon/data/textures/texture_00.png" false Demo.world0
    (mkResponse StatusOK "text/html; charset=utf-8" "<html>gone</html>" None)
    eq_refl eq_refl eq_refl eq_refl eq_refl) as [H1 [H2 _]].
  split; [exact H1|]. rewrite H2. reflexivity.
Defined.

(* ===================================================================== *)
(** * The partition into tasks and existing files                         *)
(* ===================================================================== *)

Section Prepare.

Variable env : Env.

Lemma emitAll_nil (w : World) : emitAll [] w = w.
Proof. destruct w. unfold emitAll. simpl. now rewrite app_nil_r. Qed.

Lemma emitAll_emit (e : Event) (evs : list Event) (w : World) :
  emitAll evs (emit e w) = emitAll (e :: evs) w.
Proof. unfold emitAll, emit. simpl. now rewrite <- app_assoc. Qed.

Lemma emitAll_app (e1 e2 : list Event) (w : World) :
  emitAll e2 (emitAll e1 w) = emitAll (e1 ++ e2) w.
Proof. unfold emitAll. simpl. now rewrite <- app_assoc. Qed.

Lemma tasksFor_app (n : nat) (l1 l2 : list (BundleFile * string * bool)) :
  tasksFor n (l1 ++ l2) = tasksFor n l1 ++ tasksFor (n + length l1) l2.
Proof.
  revert n. induction l1 as [|[[bf f] a] l1 IH]; intros n; simpl.
  - now rewrite Nat.add_0_r.
  - rewrite IH. now replace (S n + length l1) with (n + S (length l1)) by lia.
Qed.

Lemma tasksFor_length (n : nat) (l : list (BundleFile * string * bool)) :
  length (tasksFor n l) = length l.
Proof.
  revert n. induction l as [|[[bf f] a] l IH]; intros n; simpl; [|rewrite IH];
    reflexivity.
Qed.

Lemma tasksFor_filePath (n : nat) (l : list (BundleFile * string * bool)) :
  map filePath (tasksFor n l) = map (fun x => snd (fst x)) l.
Proof.
  revert n. induction l as [|[[bf f] a] l IH]; intros n; simpl; [|rewrite IH];
    reflexivity.
Qed.

Lemma tasksFor_result (n : nat) (l : list (BundleFile * string * bool)) :
  map result (tasksFor n l) = seq n (length l).
Proof.
  revert n. induction l as [|[[bf f] a] l IH]; intros n; simpl; [|rewrite IH];
    reflexivity.
Qed.

Lemma prepareOne_spec (files : gmap string string) (w : World)
    (done : list (BundleFile * string * bool))
    (bf : BundleFile) (file : string) (allow : bool) :
  fs w = files ->
  prepareOne env bf file allow (prepared env files done) w
  = (Ok (prepared env files (done ++ [(bf, file, allow)])), emit (EvStat file) w).
Proof.
  intros <-.
  unfold prepareOne, prepared, statIsNotExist. monad_unfold.
  rewrite !List.filter_app, tasksFor_app, map_app.
  cbn [List.filter].
  change (missingReq env (fs w) (bf, file, allow))
    with (reportsMissing env (fs w) file).
  change (presentReq env (fs w) (bf, file, allow))
    with (negb (reportsMissing env (fs w) file)).
  rewrite tasksFor_length. cbn [fs emit Nat.add].
  unfold reportsMissing.
  destruct (fs w !! file) eqn:E; [|destruct (statErr env file)];
    cbn [negb tasksFor map]; rewrite ?app_nil_r; reflexivity.
Qed.

Lemma prepareAll_spec (files : gmap string string) (dir : string)
    (l : list BundleFile) :
  forall (w : World) (done : list (BundleFile * string * bool)),
  fs w = files ->
  prepareAll env dir l (prepared env files done) w
  = (Ok (prepared env files (done ++ requiredIn env dir l)),
     emitAll (statEvents (requiredIn env dir l)) w).
Proof.
  induction l as [|bf l IH]; intros w done Hfs.
  - cbn [prepareAll requiredIn map statEvents].
    now rewrite app_nil_r, emitAll_nil.
  - cbn [prepareAll requiredIn map statEvents].
    unfold bind at 1. rewrite (prepareOne_spec files) by assumption.
    rewrite IH by exact Hfs. rewrite <- app_assoc. cbn [app].
    now rewrite emitAll_emit.
Qed.

Lemma prepareDownloadTasks_spec (b : Live2dBuilder) (w : World) :
  prepareDownloadTasks env b w
  = (Ok (prepared env (fs w) (requiredFiles env b)),
     emitAll (statEvents (requiredFiles env b)) w).
Proof.
  unfold prepareDownloadTasks, requiredFiles.
  change (@nil downloadTask, @nil string) with (prepared env (fs w) []).
  unfold bind.
  rewrite (prepareOne_spec (fs w)) by reflexivity. cbn [app].
  rewrite (prepareOne_spec (fs w)) by reflexivity. cbn [app].
  rewrite (prepareAll_spec (fs w)) by reflexivity.
  rewrite (prepareAll_spec (fs w)) by reflexivity.
  rewrite (prepareAll_spec (fs w)) by reflexivity.
  rewrite !emitAll_app, !emitAll_emit.
  unfold statEvents. rewrite <- !app_assoc. cbn [app map fst snd].
  rewrite !map_app. reflexivity.
Qed.

Lemma filter_partition_perm {A} (f : A -> bool) (l : list A) :
  Permutation (List.filter f l ++ List.filter (fun x => negb (f x)) l) l.
Proof.
  induction l as [|x l IH]; simpl; [constructor|].
  destruct (f x); simpl.
  - now constructor.
  - rewrite <- Permutation_middle. now constructor.
Qed.

End Prepare.

(** C1.  [prepareDownloadTasks] always returns, changes no file, and
    splits the required files by the existence check on the files present
    when it runs: the tasks are those of the files reported missing, in
    order, and the existing-file list holds the others, in order.  So
    every required file is in exactly one of the two lists, a task is
    created for it exactly when it is reported missing, and there is no
    task when no file is reported missing. *)
Theorem prepareDownloadTasks_partitions (env : Env) (b : Live2dBuilder) (w : World) :
  let paths := requiredPaths env b in
  let missing := reportsMissing env (fs w) in
  exists tasks existing w',
    prepareDownloadTasks env b w = (Ok (tasks, existing), w') /\
    fs w' = fs w /\
    tasks = tasksFor 0 (List.filter (missingReq env (fs w)) (requiredFiles env b)) /\
    map filePath tasks = List.filter missing paths /\
    existing = List.filter (fun p => negb (missing p)) paths /\
    Permutation (map filePath tasks ++ existing) paths /\
    (forall p, In p paths ->
       (In p (map filePath tasks) <-> missing p = true) /\
       (In p existing <-> missing p = false) /\
       ~ (In p (map filePath tasks) /\ In p existing)) /\
    ((forall p, In p paths -> missing p = false) -> tasks = []).
Proof.
  intros paths missing.
  assert (Hmap : forall (f : string -> bool) (l : list (BundleFile * string * bool)),
             map (fun x => snd (fst x)) (List.filter (fun x => f (snd (fst x))) l)
             = List.filter f (map (fun x => snd (fst x)) l)).
  { intros f l. induction l as [|x l IH]; simpl; [reflexivity|].
    destruct (f (snd (fst x))); simpl; now rewrite IH. }
  assert (Htasks : map filePath (tasksFor 0 (List.filter (missingReq env (fs w))
                                               (requiredFiles env b)))
                   = List.filter missing paths).
  { rewrite tasksFor_filePath. apply (Hmap missing). }
  assert (Hex : map (fun x => snd (fst x))
                    (List.filter (presentReq env (fs w)) (requiredFiles env b))
                = List.filter (fun p => negb (missing p)) paths).
  { apply (Hmap (fun p => negb (missing p))). }
  eexists _, _, _. split; [apply prepareDownloadTasks_spec|].
  split; [reflexivity|]. split; [reflexivity|].
  split; [exact Htasks|]. split; [exact Hex|].
  rewrite Htasks, Hex.
  split; [apply filter_partition_perm|].
  split.
  - intros p Hp. rewrite !List.filter_In.
    destruct (missing p) eqn:E; simpl; intuition congruence.
  - intros Hall.
    assert (Hnil : List.filter missing paths = []).
    { clear -Hall. induction paths as [|p l IH]; simpl; [reflexivity|].
      rewrite (Hall p) by now left. apply IH. intros q Hq. apply Hall. now right. }
    rewrite <- Htasks in Hnil. now apply map_eq_nil in Hnil.
Qed.

Lemma prepareDownloadTasks_partitions_witness :
  let env := Demo.env [] 1 1 in
  let w := setFs (<["out/anon/data/model.moc" := "MOC"]> ∅) Demo.world0 in
  fst (prepareDownloadTasks env (Demo.builder env) w)
  = Ok ([ mkTask (mkBundleFile Demo.bundle "physics.json")
                 "out/anon/data/physics.json" true 0;
          mkTask (mkBundleFile Demo.bundle "texture_00.png")
                 "out/anon/data/textures/texture_00.png" false 1 ],
        ["out/anon/data/model.moc"]).
Proof.
  destruct (prepareDownloadTasks_partitions (Demo.env [] 1 1)
              (Demo.builder (Demo.env [] 1 1))
              (setFs (<["out/anon/data/model.moc" := "MOC"]> ∅) Demo.world0))
    as (tasks & existing & w' & Hrun & _ & Ht & _ & He & _).
  cbv zeta. rewrite Hrun, Ht, He. vm_compute. reflexivity.
Defined.

(* ===================================================================== *)
(** * The serialization of the manifest                                   *)
(* ===================================================================== *)

Section KeyOrder.

Context {V : Type}.

#[local] Instance keyLe_trans : Transitive (@GoJSON.keyLe V).
Proof. intros x y z. unfold GoJSON.keyLe. apply transitivity. Qed.

#[local] Instance keyLe_total : Total (@GoJSON.keyLe V).
Proof. intros x y. unfold GoJSON.keyLe. apply total, _. Qed.

(** Sorting by key forgets the order of enumeration, when no key occurs
    twice. *)
Lemma sortKeys_perm (l1 l2 : list (string * V)) :
  NoDup (map fst l1) -> l1 ≡ₚ l2 ->
  GoJSON.sortKeys l1 = GoJSON.sortKeys l2.
Proof.
  intros Hnd Hperm. unfold GoJSON.sortKeys.
  apply (StronglySorted_unique_strong GoJSON.keyLe).
  - intros [k1 v1] [k2 v2] H1 H2 Hle1 Hle2.
    rewrite (merge_sort_Permutation GoJSON.keyLe l1) in H1.
    rewrite (merge_sort_Permutation GoJSON.keyLe l2), <- Hperm in H2.
    unfold GoJSON.keyLe in *. simpl in *.
    assert (k1 = k2) by (apply (anti_symm String.le); assumption). subst k2.
    f_equal. clear -Hnd H1 H2.
    induction l1 as [|[k v] l IH]; [inversion H1|].
    simpl in Hnd. apply NoDup_cons in Hnd as [Hk Hnd].
    apply elem_of_cons in H1 as [H1|H1], H2 as [H2|H2]; try congruence.
    + exfalso. apply Hk. injection H1 as <- <-.
      apply list_elem_of_fmap. now exists (k1, v2).
    + exfalso. apply Hk. injection H2 as <- <-.
      apply list_elem_of_fmap. now exists (k1, v1).
    + auto.
  - apply StronglySorted_merge_sort; apply _.
  - apply StronglySorted_merge_sort; apply _.
  - now rewrite !merge_sort_Permutation.
Qed.

End KeyOrder.

Section Manifest.

Lemma string_app_assoc (a b c : string) : (a +:+ b) +:+ c = a +:+ (b +:+ c).
Proof.
  induction a as [|x a IH]; [reflexivity|].
  change (String x ((a +:+ b) +:+ c) = String x (a +:+ (b +:+ c))).
  now f_equal.
Qed.

Lemma fieldsText_cons (depth : nat) (k : string) (y : GoJSON.JSON)
    (l : list (string * GoJSON.JSON)) :
  fieldsText depth ((k, y) :: l)
  = "," +:+ GoJSON.nl depth +:+ GoJSON.quote k +:+ ": " +:+
    GoJSON.render depth y +:+ fieldsText depth l.
Proof. reflexivity. Qed.

Lemma render_object (depth : nat) (k : string) (x : GoJSON.JSON)
    (kvs : list (string * GoJSON.JSON)) :
  GoJSON.render depth (GoJSON.JObj ((k, x) :: kvs))
  = "{" +:+ GoJSON.nl (S depth) +:+ GoJSON.quote k +:+ ": " +:+
    GoJSON.render (S depth) x +:+ fieldsText (S depth) kvs +:+
    GoJSON.nl depth +:+ "}".
Proof.
  cbn [GoJSON.render].
  do 5 (apply (f_equal2 String.append); [reflexivity|]).
  apply (f_equal2 String.append); [|reflexivity].
  induction kvs as [|[k' y] l IH]; [reflexivity|].
  cbn [fieldsText]. now rewrite IH.
Qed.

Lemma createModelData_spec (env : Env) (b : Live2dBuilder) (m : Live2dModel)
    (w : World) :
  writeFileErr env (manifestPath env b) = false ->
  createModelData env b m w
  = (Ok tt,
     setFs (<[manifestPath env b := GoJSON.MarshalIndent (modelDataOf m)]> (fs w))
           (emit (EvWriteFile (manifestPath env b) true) w)).
Proof.
  intros H. unfold createModelData, osWriteFile. fold (manifestPath env b).
  monad_unfold. rewrite H. reflexivity.
Qed.

Lemma manifest_header (m : Live2dModel) :
  GoJSON.MarshalIndent (modelDataOf m)
  = fixedHeader +:+
    (fieldsText 1
       [ ("model", GoJSON.JStr (Model m));
         ("physics", GoJSON.JStr (Physics m));
         ("textures", GoJSON.encSlice GoJSON.JStr (Textures m));
         ("motions", GoJSON.encMap (GoJSON.encSlice GoJSON.encMotionFile) (Motions m));
         ("expressions", GoJSON.encSlice GoJSON.encExpressionFile (Expressions m)) ]
     +:+ GoJSON.nl 0 +:+ "}").
Proof.
  unfold GoJSON.MarshalIndent, GoJSON.encData.
  rewrite render_object.
  cbn [Version Layout HitAreasCustom modelDataOf].
  do 2 rewrite fieldsText_cons.
  set (R := fieldsText 1 _). set (T := GoJSON.nl 0 +:+ "}").
  rewrite !string_app_assoc.
  generalize (R +:+ T). clear R T. intros Z.
  vm_compute. reflexivity.
Qed.

End Manifest.

(** C8.  The bytes of the manifest are a function of the contents of the
    accumulator.  Two calls of [createModelData] on the same accumulator,
    by whatever builders in whatever worlds, leave the same bytes in their
    manifests; accumulators with the same paths, lists and motion entries
    give the same bytes; a map is written with its keys in increasing
    order, whatever order it is enumerated in; and every manifest has the
    same two fixed blocks and begins with the same text, which holds
    them. *)
Theorem manifest_is_deterministic :
  (forall env1 b1 w1 env2 b2 w2 m,
     writeFileErr env1 (manifestPath env1 b1) = false ->
     writeFileErr env2 (manifestPath env2 b2) = false ->
     fs (snd (createModelData env1 b1 m w1)) !! manifestPath env1 b1
       = Some (GoJSON.MarshalIndent (modelDataOf m)) /\
     fs (snd (createModelData env2 b2 m w2)) !! manifestPath env2 b2
       = Some (GoJSON.MarshalIndent (modelDataOf m))) /\
  (forall m1 m2,
     Model m1 = Model m2 -> Physics m1 = Physics m2 ->
     Textures m1 = Textures m2 -> Expressions m1 = Expressions m2 ->
     (forall name, Motions m1 !! name = Motions m2 !! name) ->
     GoJSON.MarshalIndent (modelDataOf m1) = GoJSON.MarshalIndent (modelDataOf m2)) /\
  (forall (V : Type) (enc : V -> GoJSON.JSON) (m : gmap string V)
          (enumeration : list (string * V)),
     enumeration ≡ₚ map_to_list m ->
     GoJSON.encMapFrom enc enumeration = GoJSON.encMap enc m) /\
  (forall m,
     Layout (modelDataOf m) = layoutBlock /\
     HitAreasCustom (modelDataOf m) = hitAreasBlock /\
     exists rest, GoJSON.MarshalIndent (modelDataOf m) = fixedHeader +:+ rest).
Proof.
  split; [|split; [|split]].
  - intros env1 b1 w1 env2 b2 w2 m H1 H2.
    rewrite !createModelData_spec by assumption. simpl.
    now rewrite !lookup_insert_eq.
  - intros [mo1 ph1 te1 mt1 ex1] [mo2 ph2 te2 mt2 ex2]; simpl.
    intros -> -> -> -> Hm. apply map_eq in Hm. now subst mt2.
  - intros V enc m enumeration Hperm. unfold GoJSON.encMap, GoJSON.encMapFrom.
    do 2 f_equal. symmetry. apply sortKeys_perm; [|now symmetry].
    apply NoDup_fst_map_to_list.
  - intros m. split; [reflexivity|]. split; [reflexivity|].
    eexists. apply manifest_header.
Qed.

Lemma manifest_is_deterministic_witness :
  let e1 := Demo.env [] 1 1 in
  let e2 := Demo.env [] 4 2 in
  let b2 := NewLive2dBuilder e2 "elsewhere" Demo.buildData (mkDownloader true true) "x" in
  let m := updateModelData emptyModel "out/anon/data/model.moc" "data/model.moc" in
  fs (snd (createModelData e1 (Demo.builder e1) m Demo.world0)) !! "out/anon/model.json"
  = fs (snd (createModelData e2 b2 m (setDone Demo.world0))) !! "elsewhere/model.json".
Proof.
  destruct manifest_is_deterministic as [H _].
  destruct (H (Demo.env [] 1 1) (Demo.builder (Demo.env [] 1 1)) Demo.world0
              (Demo.env [] 4 2)
              (NewLive2dBuilder (Demo.env [] 4 2) "elsewhere" Demo.buildData
                                (mkDownloader true true) "x")
              (setDone Demo.world0)
              (updateModelData emptyModel "out/anon/data/model.moc" "data/model.moc")
              eq_refl eq_refl) as [H1 H2].
  cbv zeta.
  change "out/anon/model.json"
    with (manifestPath (Demo.env [] 1 1) (Demo.builder (Demo.env [] 1 1))).
  change "elsewhere/model.json"
    with (manifestPath (Demo.env [] 4 2)
            (NewLive2dBuilder (Demo.env [] 4 2) "elsewhere" Demo.buildData
                              (mkDownloader true true) "x")).
  rewrite H1, H2. reflexivity.
Defined.

(* ===================================================================== *)
(** * The download phase                                                  *)
(* ===================================================================== *)

Section Pool.

Variables (env : Env) (b : Live2dBuilder) (ctx : Context).
Variable tasks : list downloadTask.

(** An invariant of the turns allowed by [allowed] is an invariant of
    every interleaving of such turns. *)
Lemma runPool_invariant (allowed : Tick -> Prop)
    (I : BuilderState -> Pool -> World -> Prop) :
  (forall t s p w, allowed t -> I s p w ->
     let r := tick env b ctx tasks t s p w in I (fst (fst r)) (snd (fst r)) (snd r)) ->
  forall sched s p w, Forall allowed sched -> I s p w ->
     let r := runPool env b ctx tasks sched s p w in
     I (fst (fst r)) (snd (fst r)) (snd r).
Proof.
  intros Hstep sched. induction sched as [|t sched IH]; intros s p w Hall HI.
  - simpl. destruct (phase s); exact HI.
  - apply Forall_cons in Hall as [Ht Hall]. simpl.
    destruct (phase s) eqn:E; try exact HI.
    + specialize (Hstep t s p w Ht HI).
      destruct (tick env b ctx tasks t s p w) as [[s' p'] w']. now apply IH.
    + specialize (Hstep t s p w Ht HI).
      destruct (tick env b ctx tasks t s p w) as [[s' p'] w']. now apply IH.
Qed.

Lemma notSending_insert (k : nat) (ws : WorkerState) (l : list WorkerState) :
  notSending ws -> Forall notSending l -> Forall notSending (<[k := ws]> l).
Proof. intros H Hl. now apply Forall_insert. Qed.

Lemma workerStep_poolInv (k : nat) (s : BuilderState) (p : Pool) (w : World) :
  poolInv s p -> poolInv s (fst (workerStep env b ctx k p w)).
Proof.
  intros (Hnd & Hch & Hws). unfold workerStep.
  destruct (workers p !! k) as [ws|] eqn:Ek; [|now repeat split].
  destruct ws; try now repeat split.
  - (* WLoop *)
    destruct (taskChan p) as [|task q] eqn:Eq.
    + destruct (taskChanClosed p); [|now repeat split].
      repeat split; try assumption.
      simpl. now apply notSending_insert.
    + assert (Hpend : exists pre, pending s p = pre ++ task :: q /\
                        pending s (setTaskChan q p) = pre ++ q).
      { unfold pending. simpl. rewrite Eq.
        destruct (phase s); [eexists; split; reflexivity | now exists [] ..]. }
      destruct Hpend as (pre & Hp & Hp').
      assert (Hnd' : NoDup (map result (pending s (setTaskChan q p)))).
      { rewrite Hp'. rewrite Hp in Hnd. rewrite map_app in *. simpl in Hnd.
        apply NoDup_app in Hnd as (H1 & H2 & H3). apply NoDup_cons in H3 as [_ H3].
        apply NoDup_app. repeat split; try assumption.
        intros x Hx Hx'. apply (H2 x Hx). now right. }
      assert (Hch' : forall t, In t (pending s (setTaskChan q p)) ->
                               resultChans p !! result t = Some None).
      { intros t Ht. apply Hch. rewrite Hp. rewrite Hp' in Ht.
        apply in_app_iff in Ht as [Ht|Ht]; apply in_app_iff; [now left|].
        right. now right. }
      destruct (isDone ctx w).
      * destruct (errorChan (setTaskChan q p)); simpl;
          (split; [exact Hnd' | split; [exact Hch' | now apply notSending_insert]]).
      * destruct (workerResult env b ctx task w) as [r w']. simpl.
        unfold sendResult. simpl.
        rewrite (Hch task) by (rewrite Hp; apply in_app_iff; right; now left).
        split; [exact Hnd' | split; [| now apply notSending_insert]].
        intros t Ht. change (In t (pending s (setTaskChan q p))) in Ht. simpl.
        assert (result t <> result task).
        { intros Heq. rewrite Hp in Hnd. rewrite Hp' in Ht.
          rewrite map_app in Hnd. simpl in Hnd.
          apply NoDup_app in Hnd as (H1 & H2 & H3).
          apply NoDup_cons in H3 as [H3 _].
          apply in_app_iff in Ht as [Ht|Ht].
          - apply (H2 (result t)).
            + apply list_elem_of_In, in_map, Ht.
            + rewrite Heq. left.
          - apply H3. rewrite <- Heq. apply list_elem_of_In, in_map, Ht. }
        rewrite list_lookup_insert_ne by congruence. now apply Hch'.
  - (* WSending: excluded by the invariant *)
    exfalso. apply (Forall_lookup_1 _ _ _ _ Hws Ek).
Qed.

Lemma setResultChan_None_lookup (p : Pool) (ch ch' : nat) (r : downloadResult) :
  resultChans p !! ch = Some (Some r) ->
  resultChans p !! ch' = Some None ->
  resultChans (setResultChan ch None p) !! ch' = Some None.
Proof.
  intros Hr Hn. simpl. destruct (decide (ch = ch')) as [->|Hne].
  - congruence.
  - now rewrite list_lookup_insert_ne.
Qed.

Lemma resultReady_Some (p : Pool) (ch : nat) (r : downloadResult) :
  resultReady p ch = Some r -> resultChans p !! ch = Some (Some r).
Proof.
  unfold resultReady. destruct (resultChans p !! ch) as [[r'|]|]; congruence.
Qed.

Lemma builderStep_poolInv (coin : bool) (s : BuilderState) (p : Pool) (w : World) :
  poolInv s p ->
  let r := builderStep b ctx tasks coin s p w in
  poolInv (fst (fst r)) (snd (fst r)).
Proof.
  intros (Hnd & Hch & Hws). unfold builderStep, poolInv, pending in *.
  destruct (phase s) as [[|task rest]|[|task rest]|e] eqn:E; simpl.
  - (* close(taskChan) *) now repeat split.
  - destruct (select2 (isDone ctx w) true coin) as [[|]|]; simpl.
    + (* cancelled while sending *)
      rewrite map_app in Hnd. apply NoDup_app in Hnd as (_ & _ & Hnd).
      repeat split; try assumption.
      intros t Ht. apply Hch. apply in_app_iff. now right.
    + split; [|split; [|assumption]].
      * apply NoDup_ListNoDup. apply NoDup_ListNoDup in Hnd.
        eapply Permutation_NoDup; [|exact Hnd].
        apply Permutation_map. simpl. rewrite app_assoc.
        apply Permutation_cons_append.
      * intros t Ht. apply Hch. simpl.
        rewrite !in_app_iff in Ht. simpl in Ht. rewrite in_app_iff. tauto.
    + split; [|split; [|assumption]].
      * apply NoDup_ListNoDup. apply NoDup_ListNoDup in Hnd.
        eapply Permutation_NoDup; [|exact Hnd].
        apply Permutation_map. simpl. rewrite app_assoc.
        apply Permutation_cons_append.
      * intros t Ht. apply Hch. simpl.
        rewrite !in_app_iff in Ht. simpl in Ht. rewrite in_app_iff. tauto.
  - now repeat split.
  - destruct (resultReady p (result task)) as [r|] eqn:Er.
    + apply resultReady_Some in Er.
      destruct (select2 _ _ coin) as [[|]|]; simpl; rewrite ?E;
        try now repeat split.
      destruct (err r); simpl; (split; [assumption|split; [|assumption]]);
        intros t Ht; eapply setResultChan_None_lookup; eauto.
    + destruct (select2 _ _ coin) as [[|]|]; simpl; rewrite ?E;
        now repeat split.
  - rewrite E. now repeat split.
Qed.

Lemma builderStep_builderInv (coin : bool) (s : BuilderState) (p : Pool) (w : World) :
  builderInv tasks s ->
  builderInv tasks (fst (fst (builderStep b ctx tasks coin s p w))).
Proof.
  unfold builderStep, builderInv.
  destruct (phase s) as [[|task rest]|[|task rest]|e] eqn:E; simpl.
  - intros ->. split; [constructor|reflexivity].
  - intros Hr. destruct (select2 (isDone ctx w) true coin) as [[|]|]; simpl;
      try exact Hr.
    rewrite Hr. split; [simpl; lia|]. left. split; [reflexivity|constructor].
  - intros [Hok Hlen]. split; [assumption|simpl in Hlen; lia].
  - intros [Hok Hlen]. simpl in Hlen.
    destruct (resultReady p (result task)) as [r|] eqn:Er.
    + destruct (select2 _ _ coin) as [[|]|]; simpl; rewrite ?E.
      * split; [lia|]. left. now split.
      * destruct (err r) as [e|] eqn:Ee; simpl.
        -- split; [rewrite length_app; simpl; lia|].
           right. exists (received s), r. now repeat split.
        -- split; [|rewrite length_app; simpl; lia].
           apply Forall_app. split; [assumption|]. now repeat constructor.
      * now split.
    + destruct (select2 _ _ coin) as [[|]|]; simpl; rewrite ?E.
      * split; [lia|]. left. now split.
      * now split.
      * now split.
  - rewrite E. tauto.
Qed.

(** Turn by turn, both invariants hold. *)
Lemma tick_invariants (t : Tick) (s : BuilderState) (p : Pool) (w : World) :
  poolInv s p /\ builderInv tasks s ->
  let r := tick env b ctx tasks t s p w in
  poolInv (fst (fst r)) (snd (fst r)) /\ builderInv tasks (fst (fst r)).
Proof.
  intros [Hp Hb]. destruct t as [|k|coin]; simpl.
  - now split.
  - pose proof (workerStep_poolInv k s p w Hp) as H.
    destruct (workerStep env b ctx k p w) as [p' w']. now split.
  - split; [now apply builderStep_poolInv | now apply builderStep_builderInv].
Qed.

Lemma start_invariants (m : Live2dModel) (completed : nat) :
  map result tasks = seq 0 (length tasks) ->
  poolInv (startBuilder tasks m completed) (startWorkerPool env tasks) /\
  builderInv tasks (startBuilder tasks m completed).
Proof.
  intros Hids. split; [|reflexivity].
  unfold poolInv, pending. simpl. rewrite app_nil_r.
  split; [rewrite Hids; apply NoDup_seq|].
  split.
  - intros t Ht. apply in_map with (f := result) in Ht. rewrite Hids in Ht.
    apply in_seq in Ht. apply lookup_replicate_2. lia.
  - now apply Forall_replicate.
Qed.

End Pool.

(** C2 as stated fails.  The model file is not on the server, the physics
    file neither, the texture is.  The builder sends its three tasks, one
    worker takes them all, and the builder receives the outcome of the
    model task: it returns that error, and the outcomes of the physics and
    texture tasks are left in their channels, never received. *)
Lemma drain_counterexample :
  let env := Demo.env [(Demo.url "texture_00.png", ("image/png", "PNG"))] 1 1 in
  let b := Demo.builder env in
  let tasks := fst (prepared env ∅ (requiredFiles env b)) in
  let r := runPool env b Background tasks (roundRobin 3)
                   (startBuilder tasks emptyModel 0) (startWorkerPool env tasks)
                   Demo.world0 in
  length tasks = 3 /\
  phase (fst (fst r)) = Returned (Some (ErrDownloadFailed (ErrHTTPStatus 404))) /\
  received (fst (fst r))
    = [mkResult "" (Some (ErrDownloadFailed (ErrHTTPStatus 404)))] /\
  resultReady (snd (fst r)) 1 = Some (mkResult "data/physics.json" None) /\
  resultReady (snd (fst r)) 2
    = Some (mkResult "data/textures/texture_00.png" None) /\
  fst (handleDownloadTasks env b Background (roundRobin 3) tasks emptyModel 0
                           Demo.world0)
    = Fail (ErrDownloadFailed (ErrHTTPStatus 404)).
Proof. vm_compute. repeat split. Qed.

(* ===================================================================== *)
(** * What a build leaves alone                                           *)
(* ===================================================================== *)

Section Frames.

Variable P : Event -> Prop.

Lemma frame_refl (w : World) : frame P w w.
Proof.
  split; [reflexivity|]. split; [auto|].
  exists []. rewrite app_nil_r. split; [reflexivity|].
  split; [constructor|]. intros p [].
Qed.

Lemma frame_trans (w1 w2 w3 : World) :
  frame P w1 w2 -> frame P w2 w3 -> frame P w1 w3.
Proof.
  intros (Hs1 & Hf1 & evs1 & Ht1 & HP1 & Hc1) (Hs2 & Hf2 & evs2 & Ht2 & HP2 & Hc2).
  split; [congruence|]. split; [auto|].
  exists (evs1 ++ evs2). split; [rewrite Ht2, Ht1; now rewrite app_assoc|].
  split; [now apply Forall_app|].
  intros p Hp. apply in_app_iff in Hp as [Hp|Hp]; auto.
Qed.

Lemma frame_emit (e : Event) (w : World) :
  P e -> (forall p, e <> EvCopy p) -> frame P w (emit e w).
Proof.
  intros HP Hne. split; [reflexivity|]. split; [auto|].
  exists [e]. split; [reflexivity|]. split; [now repeat constructor|].
  intros p [Hp|[]]. now apply Hne in Hp.
Qed.

Lemma frame_insert (path content : string) (w : World) :
  frame P w (setFs (<[path := content]> (fs w)) w).
Proof.
  split; [reflexivity|]. split.
  - intros p Hp. simpl. destruct (decide (path = p)) as [->|Hne].
    + rewrite lookup_insert_eq. eauto.
    + now rewrite lookup_insert_ne.
  - exists []. simpl. rewrite app_nil_r. split; [reflexivity|].
    split; [constructor|]. intros p [].
Qed.

Lemma frame_copy (path content : string) (w : World) :
  P (EvCopy path) ->
  frame P w (setFs (<[path := content]> (fs (emit (EvCopy path) w)))
                   (emit (EvCopy path) w)).
Proof.
  intros HP. split; [reflexivity|]. split.
  - intros p Hp. simpl. destruct (decide (path = p)) as [->|Hne].
    + rewrite lookup_insert_eq. eauto.
    + now rewrite lookup_insert_ne.
  - exists [EvCopy path]. simpl. split; [reflexivity|].
    split; [now repeat constructor|].
    intros p [[= <-]|[]]. rewrite lookup_insert_eq. eauto.
Qed.

Lemma framed_ret {A} (a : A) : framed P (ret a).
Proof. intros w. apply frame_refl. Qed.

Lemma framed_fail {A} (e : error) : framed P (@fail A e).
Proof. intros w. apply frame_refl. Qed.

Lemma framed_get : framed P get.
Proof. intros w. apply frame_refl. Qed.

Lemma framed_tell (e : Event) :
  P e -> (forall p, e <> EvCopy p) -> framed P (tell e).
Proof. intros HP Hne w. now apply frame_emit. Qed.

Lemma framed_bind {A B} (c : M A) (k : A -> M B) :
  framed P c -> (forall a, framed P (k a)) -> framed P (bind c k).
Proof.
  intros Hc Hk w. unfold bind. specialize (Hc w).
  destruct (c w) as [[a|e|] w1]; simpl in *; try exact Hc.
  eapply frame_trans; [exact Hc|]. apply Hk.
Qed.

End Frames.

Lemma frame_weaken (P Q : Event -> Prop) (w w' : World) :
  (forall e, P e -> Q e) -> frame P w w' -> frame Q w w'.
Proof.
  intros HPQ (Hs & Hf & evs & Ht & HP & Hc).
  split; [exact Hs|]. split; [exact Hf|].
  exists evs. split; [exact Ht|]. split; [|exact Hc].
  eapply Forall_impl; [exact HP|exact HPQ].
Qed.

Lemma quiet_notGate (e : Event) : quiet e -> notGate e.
Proof. destruct e; simpl; tauto. Qed.

Lemma quiet_bodyEvent (r : outcome unit) (e : Event) : quiet e -> bodyEvent r e.
Proof.
  intros H. split; [now apply quiet_notGate|].
  intros p ->. destruct H.
Qed.

(** Steps of a proof that a computation is framed by [quiet]. *)
Ltac framed_step :=
  first
    [ apply framed_ret
    | apply framed_fail
    | apply framed_get
    | apply framed_tell; [exact I | discriminate]
    | apply framed_bind; [|intros ?]
    | match goal with
      | |- framed _ (if ?c then _ else _) => destruct c
      | |- framed _ (match ?c with _ => _ end) => destruct c
      end ].

Section QuietParts.

Variable env : Env.

Lemma statIsNotExist_quiet (path : string) : framed quiet (statIsNotExist env path).
Proof. unfold statIsNotExist. repeat framed_step. Qed.

Lemma osMkdirAll_quiet (dir : string) : framed quiet (osMkdirAll env dir).
Proof. unfold osMkdirAll. repeat framed_step. Qed.

Lemma osCreate_quiet (path : string) : framed quiet (osCreate env path).
Proof.
  unfold osCreate. repeat framed_step.
  intros w. apply frame_insert.
Qed.

Lemma ioCopy_quiet (path : string) (resp : Response) : framed quiet (ioCopy path resp).
Proof. intros w. unfold ioCopy. monad_unfold. simpl. now apply frame_copy. Qed.

Lemma DownloadBundleFile_quiet (ctx : Context) (bf : BundleFile) (filePath : string)
    (allow : bool) :
  framed quiet (DownloadBundleFile env ctx bf filePath allow).
Proof.
  unfold DownloadBundleFile, createDownloadRequest, createFileAndDirectory,
    writeFileContent.
  repeat first [ apply osMkdirAll_quiet | apply osCreate_quiet | apply ioCopy_quiet
               | framed_step ].
Qed.

Lemma tui_quiet (b : Live2dBuilder) (e : Event) :
  quiet e -> (forall p, e <> EvCopy p) -> framed quiet (tui b e).
Proof. intros H1 H2. unfold tui. destruct (hasTui (downloader b)); [now apply framed_tell | apply framed_ret]. Qed.

Lemma tuiEmit_quiet (b : Live2dBuilder) (e : Event) (w : World) :
  quiet e -> (forall p, e <> EvCopy p) -> frame quiet w (tuiEmit b e w).
Proof.
  intros H1 H2. unfold tuiEmit.
  destruct (hasTui (downloader b)); [now apply frame_emit | apply frame_refl].
Qed.

End QuietParts.

Section QuietBuild.

Variables (env : Env) (b : Live2dBuilder).

Lemma frame_emitAll (evs : list Event) (w : World) :
  Forall quiet evs -> (forall p, ~ In (EvCopy p) evs) -> frame quiet w (emitAll evs w).
Proof.
  intros HP Hne. split; [reflexivity|]. split; [auto|].
  exists evs. split; [reflexivity|]. split; [exact HP|].
  intros p Hp. now apply Hne in Hp.
Qed.

Lemma prepareDownloadTasks_quiet : framed quiet (prepareDownloadTasks env b).
Proof.
  intros w. rewrite prepareDownloadTasks_spec. cbn [snd]. apply frame_emitAll.
  - unfold statEvents. apply Forall_forall. intros e He.
    apply list_elem_of_In, in_map_iff in He as (x & <- & _). exact I.
  - intros p Hp. unfold statEvents in Hp.
    apply in_map_iff in Hp as (x & Hx & _). discriminate.
Qed.

Lemma processExistingFiles_quiet (existingFiles : list string) :
  forall m completed, framed quiet (processExistingFiles env b existingFiles m completed).
Proof.
  induction existingFiles as [|file rest IH]; intros m completed; simpl.
  - apply framed_ret.
  - destruct (Rel env (path b) file); [|apply framed_fail].
    apply framed_bind; [apply tui_quiet; [exact I|discriminate]|].
    intros _. apply IH.
Qed.

Lemma initializeDownloadProgress_quiet : framed quiet (initializeDownloadProgress b).
Proof. unfold initializeDownloadProgress. apply tui_quiet; [exact I|discriminate]. Qed.

Variables (ctx : Context) (tasks : list downloadTask).

Lemma workerResult_quiet (task : downloadTask) (w : World) :
  frame quiet w (snd (workerResult env b ctx task w)).
Proof.
  unfold workerResult.
  pose proof (DownloadBundleFile_quiet env ctx (bundleFile task) (filePath task)
                (allowNotFound task) w) as H.
  destruct (DownloadBundleFile env ctx (bundleFile task) (filePath task)
              (allowNotFound task) w) as [[[]|e|] w']; simpl in *;
    try destruct (Rel env (path b) (filePath task)); exact H.
Qed.

Lemma workerStep_quiet (k : nat) (p : Pool) (w : World) :
  frame quiet w (snd (workerStep env b ctx k p w)).
Proof.
  unfold workerStep.
  destruct (workers p !! k) as [[| | |]|]; try apply frame_refl.
  destruct (taskChan p) as [|task q].
  - destruct (taskChanClosed p); apply frame_refl.
  - destruct (isDone ctx w).
    + destruct (errorChan _); apply frame_refl.
    + pose proof (workerResult_quiet task w) as H.
      destruct (workerResult env b ctx task w) as [r w']. exact H.
Qed.

Lemma builderStep_quiet (coin : bool) (s : BuilderState) (p : Pool) (w : World) :
  frame quiet w (snd (builderStep b ctx tasks coin s p w)).
Proof.
  unfold builderStep, returnError.
  destruct (phase s) as [[|task rest]|[|task rest]|e]; try apply frame_refl.
  - destruct (select2 _ _ _) as [[|]|]; apply frame_refl.
  - destruct (select2 _ _ _) as [[|]|]; simpl.
    + now apply tuiEmit_quiet.
    + destruct (resultReady p (result task)) as [r|]; [|apply frame_refl].
      destruct (err r); simpl; now apply tuiEmit_quiet.
    + destruct (resultReady p (result task)); apply frame_refl.
Qed.

Lemma tick_quiet (t : Tick) (s : BuilderState) (p : Pool) (w : World) :
  frame quiet w (snd (tick env b ctx tasks t s p w)).
Proof.
  destruct t as [|k|coin]; simpl.
  - split; [reflexivity|]. split; [auto|]. exists []. simpl.
    rewrite app_nil_r. split; [reflexivity|]. split; [constructor|]. intros ? [].
  - pose proof (workerStep_quiet k p w) as H.
    destruct (workerStep env b ctx k p w). exact H.
  - apply builderStep_quiet.
Qed.

Lemma runPool_quiet (sched : list Tick) :
  forall s p w, frame quiet w (snd (runPool env b ctx tasks sched s p w)).
Proof.
  induction sched as [|t sched IH]; intros s p w; simpl.
  - destruct (phase s); apply frame_refl.
  - destruct (phase s); try apply frame_refl.
    + pose proof (tick_quiet t s p w) as H.
      destruct (tick env b ctx tasks t s p w) as [[s' p'] w'].
      eapply frame_trans; [exact H|apply IH].
    + pose proof (tick_quiet t s p w) as H.
      destruct (tick env b ctx tasks t s p w) as [[s' p'] w'].
      eapply frame_trans; [exact H|apply IH].
Qed.

Lemma handleDownloadTasks_quiet (sched : list Tick) (m : Live2dModel) (completed : nat) :
  framed quiet (handleDownloadTasks env b ctx sched tasks m completed).
Proof.
  intros w. unfold handleDownloadTasks. destruct tasks as [|t l] eqn:E.
  - apply frame_refl.
  - rewrite <- E.
    pose proof (runPool_quiet sched (startBuilder tasks m completed)
                  (startWorkerPool env tasks) w) as H.
    destruct (runPool env b ctx tasks sched _ _ w) as [[s p] w'].
    destruct (phase s) as [| |[e|]]; exact H.
Qed.

(** [createModelData] adds the one event of its write: of a manifest
    written when it returns no error, of a manifest not written when it
    returns one. *)
Lemma createModelData_frame (m : Live2dModel) (w : World) :
  let r := createModelData env b m w in
  frame (bodyEvent (fst r)) w (snd r) /\ fst r <> Blocked.
Proof.
  unfold createModelData, osWriteFile. monad_unfold.
  destruct (writeFileErr env (Join env (path b) "model.json")); cbn [fst snd negb].
  - destruct (writeFilePartial env (Join env (path b) "model.json"));
      cbn [fst snd negb]; (split; [|discriminate]).
    + eapply frame_trans; [|apply frame_insert].
      apply frame_emit; [|discriminate]. split; [exact I|]. intros p [=].
    + apply frame_emit; [|discriminate]. split; [exact I|]. intros p [=].
  - split; [|discriminate].
    eapply frame_trans; [|apply frame_insert].
    apply frame_emit; [|discriminate]. split; [exact I|reflexivity].
Qed.

End QuietBuild.

Lemma bind_inv {A B} (c : M A) (k : A -> M B) (w w' : World) (r : outcome B) :
  bind c k w = (r, w') ->
  (exists a w1, c w = (Ok a, w1) /\ k a w1 = (r, w')) \/
  (exists e, c w = (Fail e, w') /\ r = Fail e) \/
  (c w = (Blocked, w') /\ r = Blocked).
Proof.
  unfold bind. destruct (c w) as [[a|e|] w1]; intros H.
  - left. eauto.
  - right. left. injection H as <- <-. eauto.
  - right. right. injection H as <- <-. eauto.
Qed.

Lemma framed_run {A} (P : Event -> Prop) (c : M A) (w w' : World) (r : outcome A) :
  framed P c -> c w = (r, w') -> frame P w w'.
Proof. intros H E. specialize (H w). now rewrite E in H. Qed.

(** The body of [Construct]: the gate is left alone, no file goes, and a
    manifest is written only on the way to a successful return. *)
Lemma constructBody_frame (env : Env) (b : Live2dBuilder) (ctx : Context)
    (sched : list Tick) (w w' : World) (r : outcome unit) :
  constructBody env b sched ctx w = (r, w') -> frame (bodyEvent r) w w'.
Proof.
  unfold constructBody. intros E.
  apply bind_inv in E as [(u & w0 & E0 & E)|[(e & E0 & ->)|[E0 ->]]];
    apply (framed_run quiet) in E0; try apply initializeDownloadProgress_quiet;
    try (eapply frame_weaken; [apply quiet_bodyEvent|exact E0]).
  apply bind_inv in E as [([tasks existing] & w1 & E1 & E)|[(e & E1 & ->)|[E1 ->]]];
    apply (framed_run quiet) in E1; try apply prepareDownloadTasks_quiet;
    try (eapply frame_weaken; [apply quiet_bodyEvent|];
         eapply frame_trans; eassumption).
  assert (H01 : frame quiet w w1) by (eapply frame_trans; eassumption).
  clear E0 E1.
  destruct (processExistingFiles env b existing emptyModel 0 w1)
    as [[[m completed]|e|] w2] eqn:E2;
    apply (framed_run quiet) in E2; try apply processExistingFiles_quiet.
  - assert (H02 : frame quiet w w2) by (eapply frame_trans; eassumption).
    apply bind_inv in E as [(m' & w3 & E3 & E)|[(e & E3 & ->)|[E3 ->]]];
      apply (framed_run quiet) in E3; try apply handleDownloadTasks_quiet;
      try (eapply frame_weaken; [apply quiet_bodyEvent|];
           eapply frame_trans; eassumption).
    pose proof (createModelData_frame env b m' w3) as [H4 _].
    rewrite E in H4. simpl in H4.
    eapply frame_trans; [|exact H4].
    eapply frame_weaken; [apply quiet_bodyEvent|].
    eapply frame_trans; eassumption.
  - injection E as <- <-.
    eapply frame_weaken; [apply quiet_bodyEvent|].
    eapply frame_trans; [exact H01|].
    eapply frame_trans; [exact E2|].
    apply tuiEmit_quiet; [exact I|discriminate].
  - injection E as <- <-.
    eapply frame_weaken; [apply quiet_bodyEvent|].
    eapply frame_trans; eassumption.
Qed.

(* ===================================================================== *)
(** * The gate around a build                                             *)
(* ===================================================================== *)

Section Gate.

Variables (env : Env) (b : Live2dBuilder).

(** The three ways [setupDownloadEnvironment] ends. *)
Lemma setupDownloadEnvironment_spec (coin : bool) (w : World) :
  match setupDownloadEnvironment env b coin w with
  | (Ok ctx, w') =>
      ctx = builderContext b /\ semHasRoom env w = true /\
      modelSem w' = S (modelSem w) /\ fs w' = fs w /\
      trace w' = trace w ++ [EvAcquire; EvMkdirAll (dataPath b)]
  | (Fail e, w') =>
      (e = ErrCancelled /\ w' = w /\ isDone (builderContext b) w = true) \/
      (e = ErrMkdir /\ semHasRoom env w = true /\
       modelSem w' = modelSem w /\ fs w' = fs w /\
       exists mid, trace w' = trace w ++ EvAcquire :: mid ++ [EvRelease] /\
                   Forall quiet mid /\ forall p, ~ In (EvCopy p) mid)
  | (Blocked, w') =>
      w' = w /\ semHasRoom env w = false /\ isDone (builderContext b) w = false
  end.
Proof.
  unfold setupDownloadEnvironment, acquire, release, osMkdirAll, tui.
  monad_unfold.
  destruct (isDone (builderContext b) w) eqn:Ed,
           (semHasRoom env w) eqn:Er; simpl; try destruct coin; simpl.
  all: try (left; now repeat split).
  all: try now repeat split.
  all: destruct (mkdirErr env (dataPath b)); simpl;
    [|repeat split; now rewrite <- app_assoc].
  all: destruct (hasTui (downloader b)); simpl.
  all: right; repeat split; try reflexivity.
  all: try (exists [EvMkdirAll (dataPath b); EvSetError (ModelName b)];
            split; [now rewrite <- !app_assoc|];
            split; [now repeat constructor|];
            intros p [H|[H|[]]]; discriminate).
  all: exists [EvMkdirAll (dataPath b)];
         (split; [now rewrite <- !app_assoc|]);
         (split; [now repeat constructor|]);
         intros p [H|[]]; discriminate.
Qed.

(** Which case of the [select] of the gate ran, by the way
    [setupDownloadEnvironment] ends. *)
Lemma setupDownloadEnvironment_choice (coin : bool) (w : World) :
  let choice := select2 (isDone (builderContext b) w) (semHasRoom env w) coin in
  match fst (setupDownloadEnvironment env b coin w) with
  | Ok _ => choice = Some false
  | Fail e =>
      (e = ErrCancelled /\ choice = Some true) \/
      (e = ErrMkdir /\ choice = Some false)
  | Blocked => choice = None
  end.
Proof.
  unfold setupDownloadEnvironment, acquire, release, osMkdirAll, tui.
  monad_unfold.
  destruct (isDone (builderContext b) w), (semHasRoom env w); simpl;
    try destruct coin; simpl; auto;
    destruct (mkdirErr env (dataPath b)); simpl; auto;
    destruct (hasTui (downloader b)); simpl; auto.
Qed.

(** [Construct] by the case of the [select] of the gate that runs: the
    cancellation case, and the call returns the cancellation error with
    the world untouched; none, and it waits with the world untouched; the
    send on the gate, and it takes a slot, works, and gives the slot back
    when it returns. *)
Lemma Construct_spec_gate (coin : bool) (sched : list Tick) (w : World) :
  let r := Construct env b coin sched w in
  let choice := select2 (isDone (builderContext b) w) (semHasRoom env w) coin in
  (choice = Some true /\ r = (Fail ErrCancelled, w)) \/
  (choice = None /\ r = (Blocked, w)) \/
  (choice = Some false /\
   semHasRoom env w = true /\
   (forall p, is_Some (fs w !! p) -> is_Some (fs (snd r) !! p)) /\
   exists work,
     Forall (bodyEvent (fst r)) work /\
     (forall p, In (EvCopy p) work -> is_Some (fs (snd r) !! p)) /\
     ((fst r <> Blocked /\
       trace (snd r) = trace w ++ EvAcquire :: work ++ [EvRelease] /\
       modelSem (snd r) = modelSem w) \/
      (fst r = Blocked /\
       trace (snd r) = trace w ++ EvAcquire :: work /\
       modelSem (snd r) = S (modelSem w)))).
Proof.
  cbv zeta. unfold Construct, bind.
  pose proof (setupDownloadEnvironment_spec coin w) as Hs.
  pose proof (setupDownloadEnvironment_choice coin w) as Hg. cbv zeta in Hg.
  destruct (setupDownloadEnvironment env b coin w) as [[ctx|e|] w0]; cbn [fst] in Hg.
  - (* the slot is taken *)
    destruct Hs as (-> & Hroom & Hsem & Hfs & Htr).
    right. right. split; [exact Hg|]. split; [exact Hroom|].
    unfold deferRelease.
    destruct (constructBody env b sched (builderContext b) w0) as [rb w1] eqn:Eb.
    apply constructBody_frame in Eb as (Hsem1 & Hf1 & evs & Htr1 & HP1 & Hc1).
    assert (Hf : forall p, is_Some (fs w !! p) -> is_Some (fs w1 !! p)).
    { intros p Hp. apply Hf1. now rewrite Hfs. }
    assert (Hmk : forall r, bodyEvent r (EvMkdirAll (dataPath b))).
    { intros r. split; [exact I|]. intros p [=]. }
    destruct rb as [[]|e|].
    + unfold release. rewrite Hsem1, Hsem. simpl.
      split; [exact Hf|].
      exists (EvMkdirAll (dataPath b) :: evs).
      split; [constructor; [apply Hmk|exact HP1]|].
      split; [intros p [H|H]; [discriminate|now apply Hc1]|].
      left. split; [discriminate|]. split; [|reflexivity].
      rewrite Htr1, Htr. now rewrite <- !app_assoc.
    + unfold release. rewrite Hsem1, Hsem. simpl.
      split; [exact Hf|].
      exists (EvMkdirAll (dataPath b) :: evs).
      split; [constructor; [apply Hmk|exact HP1]|].
      split; [intros p [H|H]; [discriminate|now apply Hc1]|].
      left. split; [discriminate|]. split; [|reflexivity].
      rewrite Htr1, Htr. now rewrite <- !app_assoc.
    + simpl. split; [exact Hf|].
      exists (EvMkdirAll (dataPath b) :: evs).
      split; [constructor; [apply Hmk|exact HP1]|].
      split; [intros p [H|H]; [discriminate|now apply Hc1]|].
      right. split; [reflexivity|]. split; [|congruence].
      rewrite Htr1, Htr. now rewrite <- !app_assoc.
  - destruct Hs as [(-> & -> & Hd)|(-> & Hroom & Hsem & Hfs & mid & Htr & Hq & Hnc)].
    + left. destruct Hg as [[_ Hg]|[[=] _]]. now split.
    + right. right. destruct Hg as [[[=] _]|[_ Hg]]. split; [exact Hg|].
      simpl. split; [exact Hroom|].
      split; [intros p; now rewrite Hfs|].
      exists mid. split.
      * eapply Forall_impl; [exact Hq|]. intros ev. apply quiet_bodyEvent.
      * split; [intros p Hp; now apply Hnc in Hp|].
        left. split; [discriminate|]. now split.
  - destruct Hs as (-> & Hroom & Hd). right. left. now split.
Qed.


End Gate.

Section GateInvariant.

Variable env : Env.

Lemma countHolders_insert (l : list (Live2dBuilder * BuildStatus)) :
  forall i b st b' st',
    l !! i = Some (b, st) ->
    countHolders (<[i := (b', st')]> l) + (if holdsGate st then 1 else 0)
    = countHolders l + (if holdsGate st' then 1 else 0).
Proof.
  induction l as [|x l IH]; intros i b0 st b' st' Hi; [discriminate|].
  destruct i as [|i]; simpl in *.
  - injection Hi as ->. simpl. lia.
  - specialize (IH i b0 st b' st' Hi). lia.
Qed.

Lemma countHolders_initial (bs : list Live2dBuilder) :
  countHolders (map (fun b => (b, NotStarted)) bs) = 0.
Proof. induction bs as [|b0 bs IH]; simpl; [reflexivity|exact IH]. Qed.

(** The rest of [Construct], run by a call that holds a slot. *)
Lemma deferRelease_body_sem (b : Live2dBuilder) (sched : list Tick) (ctx : Context)
    (w : World) :
  1 <= modelSem w ->
  let r := deferRelease (constructBody env b sched ctx) w in
  (fst r = Blocked /\ modelSem (snd r) = modelSem w) \/
  (fst r <> Blocked /\ S (modelSem (snd r)) = modelSem w).
Proof.
  intros Hsem. cbv zeta. unfold deferRelease.
  destruct (constructBody env b sched ctx w) as [rb w1] eqn:Eb.
  apply constructBody_frame in Eb as (Hsem1 & _).
  unfold release. destruct (modelSem w1) as [|n] eqn:En; [lia|].
  destruct rb as [[]|e|]; simpl.
  - right. split; [discriminate|lia].
  - right. split; [discriminate|lia].
  - left. split; [reflexivity|lia].
Qed.

Lemma sysStep_gateInv (t : SysTick) (s : System) :
  gateInv env s -> gateInv env (sysStep env t s).
Proof.
  unfold gateInv, holders. intros [Heq Hle]. destruct t as [|i coin|i sched]; simpl.
  - now split.
  - destruct (builds s !! i) as [[b st]|] eqn:Ei; [|now split].
    destruct st; try now split.
    pose proof (setupDownloadEnvironment_spec env b coin (world s)) as Hs.
    pose proof (countHolders_insert (builds s) i b NotStarted b) as Hc.
    destruct (setupDownloadEnvironment env b coin (world s)) as [[ctx|e|] w'];
      simpl.
    + destruct Hs as (_ & Hroom & Hsem & _).
      specialize (Hc (Holding ctx) Ei). simpl in Hc.
      unfold semHasRoom in Hroom. apply Nat.ltb_lt in Hroom. lia.
    + specialize (Hc (Finished (Some e)) Ei). simpl in Hc.
      destruct Hs as [(_ & -> & _)|(_ & _ & Hsem & _)]; lia.
    + destruct Hs as (-> & _). specialize (Hc NotStarted Ei). simpl in Hc. lia.
  - destruct (builds s !! i) as [[b st]|] eqn:Ei; [|now split].
    destruct st; try now split.
    pose proof (countHolders_insert (builds s) i b (Holding ctx) b) as Hc.
    assert (Hpos : 1 <= modelSem (world s)).
    { specialize (Hc NotStarted Ei). simpl in Hc. lia. }
    pose proof (deferRelease_body_sem b sched ctx (world s) Hpos) as Hd.
    cbv zeta in Hd.
    destruct (deferRelease (constructBody env b sched ctx) (world s))
      as [[[]|e|] w']; simpl in *.
    + specialize (Hc (Finished None) Ei). simpl in Hc.
      destruct Hd as [[? _]|[_ Hd]]; [discriminate|]. lia.
    + specialize (Hc (Finished (Some e)) Ei). simpl in Hc.
      destruct Hd as [[? _]|[_ Hd]]; [discriminate|]. lia.
    + specialize (Hc Stalled Ei). simpl in Hc.
      destruct Hd as [[_ Hd]|[Hd _]]; [|congruence]. lia.
Qed.

Lemma sysRun_gateInv (ts : list SysTick) :
  forall s, gateInv env s -> gateInv env (sysRun env ts s).
Proof.
  induction ts as [|t ts IH]; intros s Hs; simpl; [exact Hs|].
  apply IH. now apply sysStep_gateInv.
Qed.

End GateInvariant.

(** C4.  A [Construct] call that finds the gate full changes nothing: it
    returns the cancellation error if the signal has fired and goes on
    waiting if not.  A call that finds room and the signal fired may
    take either case of its [select]: when the runtime takes the
    cancellation case the call returns the cancellation error and
    changes nothing.  In every other case, room and no signal, or room
    and the send taken, the call does acquire: its events begin with
    the acquisition of a slot, before any other event, and, once the
    call has returned, end with the release of a slot, with no gate
    event in between and the gate as full as before the call; a call
    that has not returned has acquired and not released, and the gate
    holds one token more.  Hence, however the calls of several builders
    on one gate, empty at first, interleave, the calls holding a slot
    are as many as the tokens in the gate and never more than
    [MaxConcurrentModels]. *)
Theorem gate_discipline (env : Env) :
  (forall b coin sched w,
     let r := Construct env b coin sched w in
     let cancelled := isDone (builderContext b) w in
     (semHasRoom env w = false ->
      snd r = w /\
      (cancelled = true -> fst r = Fail ErrCancelled) /\
      (cancelled = false -> fst r = Blocked)) /\
     (semHasRoom env w = true -> cancelled = true -> coin = true ->
      snd r = w /\ fst r = Fail ErrCancelled) /\
     (semHasRoom env w = true -> cancelled = false \/ coin = false ->
      exists work, Forall notGate work /\
        ((fst r <> Blocked /\
          trace (snd r) = trace w ++ EvAcquire :: work ++ [EvRelease] /\
          modelSem (snd r) = modelSem w) \/
         (fst r = Blocked /\
          trace (snd r) = trace w ++ EvAcquire :: work /\
          modelSem (snd r) = S (modelSem w))))) /\
  (forall bs w0 ts,
     modelSem w0 = 0 ->
     let s := sysRun env ts (initialSystem w0 bs) in
     holders s = modelSem (world s) /\ holders s <= MaxConcurrentModels env).
Proof.
  split.
  - intros b coin sched w. cbv zeta.
    pose proof (Construct_spec_gate env b coin sched w) as H. cbv zeta in H.
    split; [|split].
    + intros Hfull. rewrite Hfull in H.
      destruct (isDone (builderContext b) w) eqn:Hd; simpl in H;
        destruct H as [(Hc & ->)|[(Hc & ->)|(Hc & _)]]; try discriminate;
        cbn [fst snd]; (split; [reflexivity|]); split; congruence.
    + intros Hroom Hd ->. rewrite Hroom, Hd in H. simpl in H.
      destruct H as [(_ & ->)|[(Hc & _)|(Hc & _)]]; try discriminate. now split.
    + intros Hroom Hsend. rewrite Hroom in H.
      assert (Hc : select2 (isDone (builderContext b) w) true coin = Some false).
      { destruct Hsend as [-> | ->]; [reflexivity|].
        now destruct (isDone (builderContext b) w). }
      rewrite Hc in H.
      destruct H as [([=] & _)|[([=] & _)|(_ & _ & _ & work & HP & _ & Hcases)]].
      exists work. split; [|exact Hcases].
      eapply Forall_impl; [exact HP|]. now intros e [He _].
  - intros bs w0 ts H0 s. apply sysRun_gateInv.
    unfold gateInv, holders, initialSystem. simpl.
    rewrite countHolders_initial. lia.
Qed.

Lemma gate_discipline_witness :
  let env := Demo.env [] 1 1 in
  let b := NewLive2dBuilder env "out/anon" Demo.buildData
                            (mkDownloader true true) "anon" in
  let full := setSem 1 (setDone Demo.world0) in
  let r := Construct env b false (roundRobin 3) Demo.world0 in
  snd (Construct env b false [] full) = full /\
  fst (Construct env b false [] full) = Fail ErrCancelled /\
  snd (Construct env b true [] (setDone Demo.world0)) = setDone Demo.world0 /\
  (exists work,
     Forall notGate work /\ fst r <> Blocked /\
     trace (snd r) = EvAcquire :: work ++ [EvRelease] /\ modelSem (snd r) = 0) /\
  holders (sysRun env [SysEnter 0 false; SysEnter 1 false;
                       SysRun 0 (roundRobin 3); SysEnter 1 false]
                  (initialSystem Demo.world0 [Demo.builder env; Demo.builder env]))
  <= 1.
Proof.
  destruct (gate_discipline (Demo.env [] 1 1)) as [H1 H2].
  pose (b := NewLive2dBuilder (Demo.env [] 1 1) "out/anon" Demo.buildData
                              (mkDownloader true true) "anon").
  destruct (H1 b false [] (setSem 1 (setDone Demo.world0))) as (Hfull & _ & _).
  destruct (Hfull eq_refl) as (Hw & Hc & _).
  destruct (H1 b true [] (setDone Demo.world0)) as (_ & Hcancel & _).
  destruct (Hcancel eq_refl eq_refl eq_refl) as (Hw' & _).
  destruct (H1 b false (roundRobin 3) Demo.world0) as (_ & _ & Hroom).
  destruct (Hroom eq_refl (or_introl eq_refl)) as (work & Hng & Hcases).
  split; [exact Hw|]. split; [exact (Hc eq_refl)|]. split; [exact Hw'|].
  split.
  - exists work. split; [exact Hng|].
    destruct Hcases as [(Hnb & Htr & Hsem)|(Hb & _)].
    + split; [exact Hnb|]. split; [exact Htr|exact Hsem].
    + vm_compute in Hb. discriminate.
  - exact (proj2 (H2 [Demo.builder (Demo.env [] 1 1); Demo.builder (Demo.env [] 1 1)]
                     Demo.world0
                     [SysEnter 0 false; SysEnter 1 false;
                      SysRun 0 (roundRobin 3); SysEnter 1 false]
                     eq_refl)).
Defined.

(* ===================================================================== *)
(** * What a build changes on disk, and the errors it returns             *)
(* ===================================================================== *)















Section UntouchedBuild.

Variables (env : Env) (b : Live2dBuilder).





Variables (ctx : Context) (tasks : list downloadTask).















End UntouchedBuild.











(* ===================================================================== *)
(** * A build without cancellation                                        *)
(* ===================================================================== *)

Section Calm.

Variables (env : Env) (b : Live2dBuilder) (ctx : Context).

(** Without cancellation a worker delivers [taskResult] and touches at
    most the file of its task. *)
Lemma workerResult_calm (t : downloadTask) (w : World) :
  isDone ctx w = false ->
  let r := workerResult env b ctx t w in
  fst r = taskResult env b t /\
  ctxDone (snd r) = ctxDone w /\
  forall file, file <> filePath t \/ fetchCreates env t = false ->
               fs (snd r) !! file = fs w !! file.
Proof.
  intros Hd. cbv zeta.
  unfold workerResult, taskResult, fetchError, fetchCreates,
    DownloadBundleFile, createDownloadRequest, createFileAndDirectory,
    writeFileContent, osMkdirAll, osCreate, ioCopy.
  monad_unfold. rewrite Hd.
  destruct (newRequestErr env (downloadURL env (bundleFile t))); simpl;
    [now repeat split|].
  destruct (httpDo env (downloadURL env (bundleFile t))) as [resp|]; simpl;
    [|now repeat split].
  destruct (validateResponse resp (allowNotFound t)); simpl; [now repeat split|].
  destruct (allowNotFound t && (StatusCode resp =? StatusNotFound)%Z); simpl.
  { destruct (Rel env (path b) (filePath t)); now repeat split. }
  destruct (mkdirErr env (Dir env (filePath t))); simpl; [now repeat split|].
  destruct (createErr env (filePath t)); simpl; [now repeat split|].
  assert (Hfs : forall (c1 c2 : string) file,
             file <> filePath t \/ true = false ->
             <[filePath t := c1]> (<[filePath t := c2]> (fs w)) !! file
             = fs w !! file).
  { intros c1 c2 file [Hne|[=]]. now rewrite !lookup_insert_ne by congruence. }
  destruct (BodyErr resp) as [[|]|]; simpl;
    try destruct (Rel env (path b) (filePath t)); simpl;
    (split; [reflexivity|split; [reflexivity|apply Hfs]]).
Qed.

Variable tasks : list downloadTask.
Variables (m0 : Live2dModel) (w0 : World).

Hypothesis distinctChannels : NoDup (map result tasks).

Lemma same_channel_same_task (t t' : downloadTask) :
  In t tasks -> In t' tasks -> result t = result t' -> t = t'.
Proof.
  clear -distinctChannels. induction tasks as [|x l IH]; intros Ht Ht' Heq; [destruct Ht|].
  simpl in distinctChannels. apply NoDup_cons in distinctChannels as [Hx Hl].
  destruct Ht as [->|Ht], Ht' as [->|Ht']; auto.
  - exfalso. apply Hx. rewrite Heq. apply list_elem_of_In, in_map, Ht'.
  - exfalso. apply Hx. rewrite <- Heq. apply list_elem_of_In, in_map, Ht.
Qed.

Lemma foldTasks_snoc (m : Live2dModel) (done : list downloadTask) (t : downloadTask) :
  foldTasks env b m (done ++ [t])
  = updateModelData (foldTasks env b m done) (filePath t)
                    (relPath (taskResult env b t)).
Proof. unfold foldTasks. now rewrite fold_left_app. Qed.

(** What is known of the results in the channels and in the hands of
    waiting workers is kept by an update with a result of which it is
    known, or with none. *)
Lemma known_results_insert_chan (chans : list (option downloadResult)) (ch : nat)
    (v : option downloadResult) (Q : nat -> downloadResult -> Prop) :
  (forall ch' r, chans !! ch' = Some (Some r) -> Q ch' r) ->
  (forall r, v = Some r -> Q ch r) ->
  forall ch' r, <[ch := v]> chans !! ch' = Some (Some r) -> Q ch' r.
Proof.
  intros Hold Hnew ch' r Hr.
  apply list_lookup_insert_Some in Hr as [(<- & Hv & _)|(_ & Hr)]; eauto.
Qed.

Lemma known_results_insert_worker (l : list WorkerState) (k : nat)
    (ws : WorkerState) (Q : nat -> downloadResult -> Prop) :
  (forall k' ch r, l !! k' = Some (WSending ch r) -> Q ch r) ->
  (forall ch r, ws = WSending ch r -> Q ch r) ->
  forall k' ch r, <[k := ws]> l !! k' = Some (WSending ch r) -> Q ch r.
Proof.
  intros Hold Hnew k' ch r Hr.
  apply list_lookup_insert_Some in Hr as [(<- & Hv & _)|(_ & Hr)]; eauto.
Qed.

(** A worker that sends, or tries again to send, a result known to be the
    outcome of a task. *)
Lemma sendResult_known (k ch : nat) (r : downloadResult) (p : Pool)
    (Q : nat -> downloadResult -> Prop) :
  Q ch r ->
  (forall ch' r', resultChans p !! ch' = Some (Some r') -> Q ch' r') ->
  (forall k' ch' r', workers p !! k' = Some (WSending ch' r') -> Q ch' r') ->
  (forall ch' r', resultChans (sendResult k ch r p) !! ch' = Some (Some r') -> Q ch' r') /\
  (forall k' ch' r', workers (sendResult k ch r p) !! k' = Some (WSending ch' r') ->
                     Q ch' r') /\
  taskChan (sendResult k ch r p) = taskChan p.
Proof.
  intros HQ Hch Hws. unfold sendResult.
  destruct (resultChans p !! ch) as [[r0|]|]; cbn; (split; [|split; [|reflexivity]]).
  all: try exact Hch.
  all: try (apply known_results_insert_worker; [exact Hws|]; intros ? ? [=]; congruence).
  apply known_results_insert_chan; [exact Hch|]. intros ? [=]. congruence.
Qed.

Lemma workerStep_calmInv (k : nat) (s : BuilderState) (p : Pool) (w : World) :
  calmInv env b ctx tasks m0 w0 s p w ->
  let r := workerStep env b ctx k p w in
  calmInv env b ctx tasks m0 w0 s (fst r) (snd r).
Proof.
  intros (Hd & Hpend & Hch & Hws & Hfs & Hph). cbv zeta. unfold workerStep.
  destruct (workers p !! k) as [ws|] eqn:Ek; [|now repeat split].
  destruct ws as [|ch r| |]; try now repeat split.
  - (* the loop over the task channel *)
    destruct (taskChan p) as [|task q] eqn:Eq.
    { destruct (taskChanClosed p); [|now repeat split].
      split; [exact Hd|]. split; [exact Hpend|]. split; [exact Hch|].
      split; [|split; [exact Hfs|exact Hph]].
      apply known_results_insert_worker; [exact Hws|]. discriminate. }
    assert (Htask : In task tasks).
    { apply Hpend. unfold pending. rewrite Eq.
      destruct (phase s); try (now left). apply in_app_iff. right. now left. }
    assert (Hpend' : forall t, In t (pending s (setTaskChan q p)) -> In t tasks).
    { intros t Ht. apply Hpend. unfold pending in *. simpl in Ht. rewrite Eq.
      destruct (phase s); try (now right).
      apply in_app_iff in Ht as [Ht|Ht]; apply in_app_iff; [now left|].
      right. now right. }
    rewrite Hd.
    pose proof (workerResult_calm task w Hd) as Hr. cbv zeta in Hr.
    destruct (workerResult env b ctx task w) as [r w'].
    simpl in Hr. destruct Hr as (-> & Hctx & Hfile).
    assert (Hd' : isDone ctx w' = false).
    { destruct ctx; [reflexivity|]. simpl in *. congruence. }
    assert (Hfs' : forall file,
               (forall t, In t tasks -> filePath t = file -> fetchCreates env t = false) ->
               fs w' !! file = fs w0 !! file).
    { intros file Hfile'. rewrite <- (Hfs file Hfile'). apply Hfile.
      destruct (decide (file = filePath task)) as [->|Hne]; [|now left].
      right. now apply Hfile'. }
    cbn [fst snd].
    destruct (sendResult_known k (result task) (taskResult env b task)
                (setTaskChan q p)
                (fun ch r => exists t, In t tasks /\ result t = ch /\
                                       r = taskResult env b t))
      as (Hch' & Hws' & Hq'); [eauto|exact Hch|exact Hws|].
    split; [exact Hd'|]. split; [|split; [exact Hch'|split; [exact Hws'|]]].
    + unfold pending in *. rewrite Hq'. exact Hpend'.
    + split; [exact Hfs'|exact Hph].
  - (* a pending send *)
    cbn [fst snd].
    destruct (sendResult_known k ch r p
                (fun ch r => exists t, In t tasks /\ result t = ch /\
                                       r = taskResult env b t))
      as (Hch' & Hws' & Hq'); [eauto|exact Hch|exact Hws|].
    split; [exact Hd|]. split; [|split; [exact Hch'|split; [exact Hws'|]]].
    + unfold pending in *. now rewrite Hq'.
    + split; [exact Hfs|exact Hph].
Qed.


Lemma tuiEmit_fs (e : Event) (w : World) :
  fs (tuiEmit b e w) = fs w /\ ctxDone (tuiEmit b e w) = ctxDone w.
Proof. unfold tuiEmit. destruct (hasTui (downloader b)); now split. Qed.

Lemma tuiEmit_isDone (e : Event) (w : World) :
  isDone ctx (tuiEmit b e w) = isDone ctx w.
Proof. destruct ctx; [reflexivity|]. simpl. apply tuiEmit_fs. Qed.

Lemma builderStep_calmInv (coin : bool) (s : BuilderState) (p : Pool) (w : World) :
  calmInv env b ctx tasks m0 w0 s p w ->
  let r := builderStep b ctx tasks coin s p w in
  calmInv env b ctx tasks m0 w0 (fst (fst r)) (snd (fst r)) (snd r).
Proof.
  intros (Hd & Hpend & Hch & Hws & Hfs & Hph). cbv zeta.
  unfold builderStep, calmInv, pending in *. rewrite Hd.
  destruct (phase s) as [[|task rest]|[|task rest]|e] eqn:E; cbn [select2].
  - (* close(taskChan) *)
    destruct Hph as (Hacc & sent & Hsent). rewrite app_nil_r in Hsent.
    cbn. repeat split; try assumption.
    exists []. repeat split; [constructor|exact Hacc].
  - destruct Hph as (Hacc & sent & Hsent). cbn.
    repeat split; try assumption.
    + intros t Ht. apply Hpend. rewrite !in_app_iff in Ht. simpl in Ht.
      simpl. rewrite in_app_iff. tauto.
    + exists (sent ++ [task]). now rewrite <- app_assoc.
  - cbn. destruct Hph as (done & Hdone & Hok & Hacc). rewrite app_nil_r in Hdone.
    subst done. repeat split; assumption.
  - destruct Hph as (done & Hdone & Hok & Hacc).
    destruct (resultReady p (result task)) as [r|] eqn:Er.
    + apply resultReady_Some in Er.
      destruct (Hch _ _ Er) as (t' & Ht' & Hres & ->).
      assert (t' = task) as ->.
      { apply same_channel_same_task; [assumption| |assumption].
        rewrite Hdone. apply in_app_iff. right. now left. }
      replace (bool_decide (is_Some (Some (taskResult env b task)))) with true
        by (symmetry; apply bool_decide_eq_true; eauto).
      cbn [select2].
      assert (Hch' : forall ch r,
                 resultChans (setResultChan (result task) None p) !! ch
                 = Some (Some r) ->
                 exists t, In t tasks /\ result t = ch /\ r = taskResult env b t).
      { intros ch r Hr. simpl in Hr.
        destruct (decide (result task = ch)) as [<-|Hne].
        - rewrite list_lookup_insert_eq in Hr by (eapply lookup_lt_Some; eauto).
          discriminate.
        - rewrite list_lookup_insert_ne in Hr by assumption. eauto. }
      unfold returnError.
      destruct (err (taskResult env b task)) as [e|] eqn:Ee; cbn.
      * rewrite tuiEmit_isDone. destruct (tuiEmit_fs (EvSendError (ModelName b) e) w)
          as [-> _].
        repeat split; try assumption. now exists done, task, rest.
      * rewrite tuiEmit_isDone.
        destruct (tuiEmit_fs (EvUpdateProgress (ModelName b) (S (completedFiles s))) w)
          as [-> _].
        repeat split; try assumption.
        exists (done ++ [task]). rewrite <- app_assoc. split; [exact Hdone|].
        split; [apply Forall_app; split; [exact Hok|now repeat constructor]|].
        rewrite foldTasks_snoc. now rewrite Hacc.
    + replace (bool_decide (is_Some (@None downloadResult))) with false
        by (symmetry; apply bool_decide_eq_false; intros [? [=]]).
      cbn. rewrite E. repeat split; try assumption. now exists done.
  - cbn. rewrite E. repeat split; assumption.
Qed.

Lemma tick_calmInv (t : Tick) (s : BuilderState) (p : Pool) (w : World) :
  t <> TCancel ->
  calmInv env b ctx tasks m0 w0 s p w ->
  let r := tick env b ctx tasks t s p w in
  calmInv env b ctx tasks m0 w0 (fst (fst r)) (snd (fst r)) (snd r).
Proof.
  intros Ht H. destruct t as [|k|coin]; [congruence| |].
  - cbv zeta. simpl. pose proof (workerStep_calmInv k s p w H) as H'.
    cbv zeta in H'. now destruct (workerStep env b ctx k p w).
  - now apply builderStep_calmInv.
Qed.

(** ** The round-robin interleaving brings the builder back *)

Lemma runPool_cons (t : Tick) (sched : list Tick) (s : BuilderState) (p : Pool)
    (w : World) :
  (forall r, phase s <> Returned r) ->
  runPool env b ctx tasks (t :: sched) s p w
  = let '(s', p', w') := tick env b ctx tasks t s p w in
    runPool env b ctx tasks sched s' p' w'.
Proof. intros H. simpl. destruct (phase s); try reflexivity. now elim (H e). Qed.

Lemma runPool_returned (sched : list Tick) (s : BuilderState) (p : Pool) (w : World)
    (r : option error) :
  phase s = Returned r -> runPool env b ctx tasks sched s p w = (s, p, w).
Proof. intros H. destruct sched; simpl; now rewrite H. Qed.

Lemma runPool_sending (rest : list downloadTask) (sched : list Tick) :
  forall s p w,
    phase s = Sending rest -> isDone ctx w = false ->
    exists s' p',
      runPool env b ctx tasks (replicate (S (length rest)) (TBuilder false) ++ sched) s p w
      = runPool env b ctx tasks sched s' p' w /\
      phase s' = Receiving tasks /\
      taskChan p' = taskChan p ++ rest /\
      resultChans p' = resultChans p /\ workers p' = workers p.
Proof.
  induction rest as [|t rest IH]; intros s p w Hph Hd.
  - cbn [length replicate app]. rewrite runPool_cons by (rewrite Hph; discriminate).
    cbn [tick]. unfold builderStep. rewrite Hph.
    eexists _, _. split; [reflexivity|]. cbn. rewrite app_nil_r. now repeat split.
  - cbn [length replicate app]. rewrite runPool_cons by (rewrite Hph; discriminate).
    cbn [tick]. unfold builderStep. rewrite Hph, Hd. cbn [select2].
    destruct (IH (setPhase (Sending rest) s) (setTaskChan (taskChan p ++ [t]) p) w
                eq_refl Hd) as (s' & p' & Hrun & Hph' & Hq & Hc & Hw).
    exists s', p'. split; [exact Hrun|]. split; [exact Hph'|].
    split; [rewrite Hq; cbn; now rewrite <- app_assoc|]. now split.
Qed.

Lemma runPool_worker (q : list downloadTask) (sched : list Tick) (s : BuilderState) :
  (forall r, phase s <> Returned r) ->
  forall p w,
    taskChan p = q -> workers p !! 0 = Some WLoop -> isDone ctx w = false ->
    NoDup (map result q) ->
    (forall t, In t q -> resultChans p !! result t = Some None) ->
    exists p' w',
      runPool env b ctx tasks (replicate (length q) (TWorker 0) ++ sched) s p w
      = runPool env b ctx tasks sched s p' w' /\
      isDone ctx w' = false /\
      (forall t, In t q -> resultChans p' !! result t = Some (Some (taskResult env b t))) /\
      (forall ch, ~ In ch (map result q) -> resultChans p' !! ch = resultChans p !! ch).
Proof.
  intros Hph. induction q as [|t q IH]; intros p w Hq Hw Hd Hnd Hch.
  - exists p, w. cbn. repeat split; try assumption. intros t [].
  - cbn [length replicate app]. rewrite runPool_cons by assumption.
    cbn [tick]. unfold workerStep. rewrite Hw, Hq, Hd.
    pose proof (workerResult_calm t w Hd) as Hr. cbv zeta in Hr.
    destruct (workerResult env b ctx t w) as [r w1]. cbn [fst snd] in Hr.
    destruct Hr as (-> & Hctx & _).
    unfold sendResult. cbn [resultChans setTaskChan].
    rewrite (Hch t) by now left.
    simpl in Hnd. apply NoDup_cons in Hnd as [Hnt Hnd].
    assert (Hd1 : isDone ctx w1 = false).
    { destruct ctx; [reflexivity|]. simpl in *. congruence. }
    edestruct (IH (setWorker 0 WLoop
                     (setResultChan (result t) (Some (taskResult env b t))
                        (setTaskChan q p))) w1)
      as (p' & w' & Hrun & Hd' & Hfull & Hother).
    + reflexivity.
    + cbn. apply list_lookup_insert_eq. eapply lookup_lt_Some; eauto.
    + exact Hd1.
    + exact Hnd.
    + intros t' Ht'. cbn. rewrite list_lookup_insert_ne.
      * apply Hch. now right.
      * intros Heq. apply Hnt. rewrite Heq. apply list_elem_of_In, in_map, Ht'.
    + exists p', w'. split; [exact Hrun|]. split; [exact Hd'|]. split.
      * intros t' [<-|Ht']; [|now apply Hfull].
        rewrite Hother by (intros Hin; apply Hnt, list_elem_of_In, Hin).
        cbn. apply list_lookup_insert_eq. eapply lookup_lt_Some. apply Hch. now left.
      * intros ch Hn. rewrite Hother by (intros Hin; apply Hn; now right).
        cbn. apply list_lookup_insert_ne. intros Heq. apply Hn. now left.
Qed.

Lemma runPool_receiving (rest : list downloadTask) :
  forall s p w,
    phase s = Receiving rest -> isDone ctx w = false ->
    NoDup (map result rest) ->
    (forall t, In t rest -> resultChans p !! result t = Some (Some (taskResult env b t))) ->
    exists r,
      phase (fst (fst (runPool env b ctx tasks
                         (replicate (S (length rest)) (TBuilder false)) s p w)))
      = Returned r.
Proof.
  induction rest as [|t rest IH]; intros s p w Hph Hd Hnd Hch.
  - cbn [length replicate]. rewrite runPool_cons by (rewrite Hph; discriminate).
    cbn [tick]. unfold builderStep. rewrite Hph. cbn. now exists None.
  - cbn [length replicate]. rewrite runPool_cons by (rewrite Hph; discriminate).
    cbn [tick]. unfold builderStep. rewrite Hph, Hd.
    unfold resultReady. rewrite (Hch t) by now left.
    replace (bool_decide (is_Some (Some (taskResult env b t)))) with true
      by (symmetry; apply bool_decide_eq_true; eauto).
    cbn [select2]. unfold returnError.
    destruct (err (taskResult env b t)) as [e|].
    + cbn [setPhase]. erewrite runPool_returned by reflexivity. now exists (Some e).
    + simpl in Hnd. apply NoDup_cons in Hnd as [Hnt Hnd].
      apply IH; [reflexivity| |exact Hnd|].
      * now rewrite tuiEmit_isDone.
      * intros t' Ht'. cbn. rewrite list_lookup_insert_ne; [apply Hch; now right|].
        intros Heq. apply Hnt. rewrite Heq. apply list_elem_of_In, in_map, Ht'.
Qed.

End Calm.

Section CalmBuild.

Variables (env : Env) (b : Live2dBuilder) (ctx : Context).

(** [handleDownloadTasks] without cancellation: it touches no file but
    those its tasks create, and when it returns, it returns the
    accumulator after all the outcomes, none with an error, or the error
    of the first task, in task order, whose outcome has one. *)
Lemma handleDownloadTasks_calm (tasks : list downloadTask) (sched : list Tick)
    (m : Live2dModel) (completed : nat) (w : World) :
  isDone ctx w = false -> ~ In TCancel sched -> NoDup (map result tasks) ->
  let r := handleDownloadTasks env b ctx sched tasks m completed w in
  isDone ctx (snd r) = false /\
  modelSem (snd r) = modelSem w /\
  (forall file,
     (forall t, In t tasks -> filePath t = file -> fetchCreates env t = false) ->
     fs (snd r) !! file = fs w !! file) /\
  match fst r with
  | Ok m' => Forall (taskOk env b) tasks /\ m' = foldTasks env b m tasks
  | Fail e =>
      exists done t rest,
        tasks = done ++ t :: rest /\ Forall (taskOk env b) done /\
        err (taskResult env b t) = Some e
  | Blocked => True
  end.
Proof.
  intros Hd Hnc Hnd. cbv zeta.
  pose proof (handleDownloadTasks_quiet env b ctx tasks sched m completed w)
    as (Hsem & _).
  split; [|split; [exact Hsem|]]; clear Hsem;
    unfold handleDownloadTasks; destruct tasks as [|t0 l] eqn:Et;
    try (cbn; now repeat split); rewrite <- Et in *.
  all: pose proof (runPool_invariant env b ctx tasks (fun t => t <> TCancel)
                (calmInv env b ctx tasks m w)
                (fun t s p w' Ht H => tick_calmInv env b ctx tasks m w Hnd t s p w' Ht H)
                sched (startBuilder tasks m completed) (startWorkerPool env tasks) w)
    as Hinv.
  all: cbv zeta in Hinv.
  all: assert (Hall : Forall (fun t => t <> TCancel) sched)
    by (apply Forall_forall; intros t Ht ->; apply Hnc; now apply list_elem_of_In).
  all: assert (Hstart : calmInv env b ctx tasks m w (startBuilder tasks m completed)
                                (startWorkerPool env tasks) w).
  1,3: split; [exact Hd|]; split;
    [unfold pending; cbn; intros t; now rewrite app_nil_r|];
    split; [cbn; intros ch r Hr; apply lookup_replicate in Hr as [[=] _]|];
    split; [cbn; intros k ch r Hr; apply lookup_replicate in Hr as [[=] _]|];
    split; [reflexivity|]; cbn; split; [reflexivity|now exists []].
  all: specialize (Hinv Hall Hstart).
  all: destruct (runPool env b ctx tasks sched _ _ w) as [[s p] w'].
  all: cbn [fst snd] in Hinv; destruct Hinv as (Hd' & _ & _ & _ & Hfs & Hph).
  - destruct (phase s) as [| |[e|]]; exact Hd'.
  - split; [destruct (phase s) as [| |[e|]]; exact Hfs|].
    destruct (phase s) as [| |[e|]]; cbn; try exact I; exact Hph.
Qed.

(** Under the round-robin interleaving, with a worker, it returns. *)
Lemma handleDownloadTasks_roundRobin (tasks : list downloadTask) (m : Live2dModel)
    (completed : nat) (w : World) :
  isDone ctx w = false -> map result tasks = seq 0 (length tasks) ->
  1 <= MaxConcurrentDownloads env ->
  fst (handleDownloadTasks env b ctx (roundRobin (length tasks)) tasks m completed w)
  <> Blocked.
Proof.
  intros Hd Hids Hworkers. unfold handleDownloadTasks.
  destruct tasks as [|t0 l] eqn:Et; [discriminate|]. rewrite <- Et in *.
  assert (Hnd : NoDup (map result tasks)) by (rewrite Hids; apply NoDup_seq).
  unfold roundRobin.
  destruct (runPool_sending env b ctx tasks tasks
              (replicate (length tasks) (TWorker 0)
               ++ replicate (S (length tasks)) (TBuilder false))
              (startBuilder tasks m completed) (startWorkerPool env tasks) w
              eq_refl Hd) as (s1 & p1 & Hrun1 & Hph1 & Hq1 & Hc1 & Hw1).
  rewrite Hrun1. cbn in Hq1.
  destruct (runPool_worker env b ctx tasks tasks
              (replicate (S (length tasks)) (TBuilder false)) s1
              ltac:(rewrite Hph1; discriminate) p1 w Hq1)
    as (p2 & w2 & Hrun2 & Hd2 & Hfull & _).
  - rewrite Hw1. cbn. apply lookup_replicate_2. lia.
  - exact Hd.
  - exact Hnd.
  - intros t Ht. rewrite Hc1. cbn. apply lookup_replicate_2.
    apply in_map with (f := result) in Ht. rewrite Hids in Ht.
    apply in_seq in Ht. lia.
  - rewrite Hrun2.
    destruct (runPool_receiving env b ctx tasks tasks s1 p2 w2 Hph1 Hd2 Hnd Hfull)
      as [r Hr].
    destruct (runPool env b ctx tasks _ s1 p2 w2) as [[s3 p3] w3].
    cbn in Hr. rewrite Hr. destruct r; discriminate.
Qed.

End CalmBuild.

Section Undisturbed.

Variables (env : Env) (b : Live2dBuilder).

Lemma processExistingFiles_ok (existing : list string) :
  forall m completed w,
    Forall (fun p => is_Some (Rel env (path b) p)) existing ->
    exists w',
      processExistingFiles env b existing m completed w
      = (Ok (foldExisting env b m existing, completed + length existing), w') /\
      fs w' = fs w /\ ctxDone w' = ctxDone w.
Proof.
  induction existing as [|file rest IH]; intros m completed w Hrel.
  - exists w. cbn. rewrite Nat.add_0_r. now repeat split.
  - apply Forall_cons in Hrel as [[rel Hfile] Hrel].
    cbn [processExistingFiles foldExisting fold_left]. rewrite Hfile.
    unfold bind, tui.
    destruct (hasTui (downloader b)).
    + destruct (IH (updateModelData m file (ToSlash env rel)) (S completed)
                  (emit (EvUpdateProgress (ModelName b) (S completed)) w) Hrel)
        as (w' & Heq & Hfs & Hctx).
      exists w'. unfold tell. rewrite Heq. cbn [length].
      replace (completed + S (length rest)) with (S completed + length rest) by lia.
      now repeat split.
    + destruct (IH (updateModelData m file (ToSlash env rel)) (S completed) w Hrel)
        as (w' & Heq & Hfs & Hctx).
      exists w'. unfold ret. rewrite Heq. cbn [length].
      replace (completed + S (length rest)) with (S completed + length rest) by lia.
      now repeat split.
Qed.

Lemma existing_have_rel (files : gmap string string) :
  Forall (fun p => is_Some (Rel env (path b) p)) (requiredPaths env b) ->
  Forall (fun p => is_Some (Rel env (path b) p))
         (snd (prepared env files (requiredFiles env b))).
Proof.
  unfold requiredPaths, prepared. cbn [snd]. rewrite !Forall_forall.
  intros H p Hp. apply H.
  apply list_elem_of_In, in_map_iff in Hp as (x & <- & Hx).
  apply List.filter_In in Hx as [Hx _].
  apply list_elem_of_In. apply (in_map (fun x => snd (fst x))). exact Hx.
Qed.

Lemma prepared_channels (files : gmap string string) :
  let tasks := fst (prepared env files (requiredFiles env b)) in
  map result tasks = seq 0 (length tasks).
Proof.
  cbv zeta. unfold prepared. cbn [fst].
  now rewrite tasksFor_result, tasksFor_length.
Qed.

(** The body of [Construct] when nothing disturbs it. *)
Lemma constructBody_undisturbed (sched : list Tick) (w : World) :
  isDone (builderContext b) w = false -> ~ In TCancel sched ->
  Forall (fun p => is_Some (Rel env (path b) p)) (requiredPaths env b) ->
  let tasks := fst (prepared env (fs w) (requiredFiles env b)) in
  let existing := snd (prepared env (fs w) (requiredFiles env b)) in
  let m0 := foldExisting env b emptyModel existing in
  let r := constructBody env b sched (builderContext b) w in
  (forall file,
     file <> manifestPath env b ->
     (forall t, In t tasks -> filePath t = file -> fetchCreates env t = false) ->
     fs (snd r) !! file = fs w !! file) /\
  match fst r with
  | Ok _ =>
      Forall (taskOk env b) tasks /\
      fs (snd r) !! manifestPath env b
      = Some (GoJSON.MarshalIndent (modelDataOf (foldTasks env b m0 tasks)))
  | Fail e =>
      (exists done t rest,
         tasks = done ++ t :: rest /\ Forall (taskOk env b) done /\
         err (taskResult env b t) = Some e) \/
      (e = ErrWriteManifest /\ Forall (taskOk env b) tasks /\
       writeFileErr env (manifestPath env b) = true)
  | Blocked => True
  end /\
  (1 <= MaxConcurrentDownloads env -> sched = roundRobin (length tasks) ->
   fst r <> Blocked).
Proof.
  intros Hd Hnc Hrel tasks existing m0. cbv zeta.
  destruct (constructBody env b sched (builderContext b) w) as [r wf] eqn:E.
  cbn [fst snd].
  unfold constructBody, initializeDownloadProgress, tui in E.
  set (total := 1 + 1 + _ + _ + _) in E.
  set (w0 := if hasTui (downloader b)
             then emit (EvAddDownloadItem (ModelName b) total) w else w).
  assert (Hinit : (if hasTui (downloader b)
                   then tell (EvAddDownloadItem (ModelName b) total)
                   else ret tt) w = (Ok tt, w0)).
  { subst w0. now destruct (hasTui (downloader b)). }
  assert (Hw0 : fs w0 = fs w /\ ctxDone w0 = ctxDone w).
  { subst w0. now destruct (hasTui (downloader b)). }
  destruct Hw0 as [Hfs0 Hctx0].
  unfold bind in E at 1. rewrite Hinit in E.
  unfold bind in E at 1. rewrite prepareDownloadTasks_spec, Hfs0 in E.
  set (w1 := emitAll _ w0) in E.
  replace (prepared env (fs w) (requiredFiles env b)) with (tasks, existing) in E
    by (subst tasks existing; now destruct (prepared env (fs w) (requiredFiles env b))).
  destruct (processExistingFiles_ok existing emptyModel 0 w1
              (existing_have_rel (fs w) Hrel)) as (w2 & Heq2 & Hfs2 & Hctx2).
  rewrite Heq2 in E. fold m0 in E. cbn [Nat.add] in E.
  assert (Hd2 : isDone (builderContext b) w2 = false).
  { destruct (builderContext b); [reflexivity|]. simpl in *.
    rewrite Hctx2. subst w1. cbn. congruence. }
  assert (Hfs12 : fs w2 = fs w).
  { rewrite Hfs2. subst w1. cbn [fs emitAll]. exact Hfs0. }
  assert (Hids : map result tasks = seq 0 (length tasks))
    by apply prepared_channels.
  assert (Hnd : NoDup (map result tasks)) by (rewrite Hids; apply NoDup_seq).
  pose proof (handleDownloadTasks_calm env b (builderContext b) tasks sched m0
                (length existing) w2 Hd2 Hnc Hnd) as Hcalm.
  pose proof (handleDownloadTasks_roundRobin env b (builderContext b) tasks m0
                (length existing) w2 Hd2 Hids) as Hlive.
  cbv zeta in Hcalm. unfold bind in E.
  destruct (handleDownloadTasks env b (builderContext b) sched tasks m0
              (length existing) w2) as [[m'|e|] w3] eqn:Eh;
    cbn [fst snd] in Hcalm; destruct Hcalm as (_ & _ & Hfs3 & Hres).
  - (* every outcome received: the manifest is written *)
    destruct Hres as [Hok ->].
    unfold createModelData, osWriteFile in E. fold (manifestPath env b) in E.
    monad_unfold.
    destruct (writeFileErr env (manifestPath env b)) eqn:Ew; cbn [negb] in E;
      [destruct (writeFilePartial env (manifestPath env b)); cbn [negb] in E|];
      injection E as <- <-.
    + split; [|split].
      * intros file Hne Hfile. cbn [fs setFs emit].
        rewrite lookup_insert_ne by congruence. now rewrite (Hfs3 file Hfile), Hfs12.
      * right. now repeat split.
      * discriminate.
    + split; [|split].
      * intros file _ Hfile. cbn [fs emit]. now rewrite (Hfs3 file Hfile), Hfs12.
      * right. now repeat split.
      * discriminate.
    + split; [|split].
      * intros file Hne Hfile. cbn [fs setFs emit].
        rewrite lookup_insert_ne by congruence. now rewrite (Hfs3 file Hfile), Hfs12.
      * split; [exact Hok|]. cbn [fs setFs]. apply lookup_insert_eq.
      * discriminate.
  - injection E as <- <-. split; [|split].
    + intros file _ Hfile. now rewrite (Hfs3 file Hfile), Hfs12.
    + left. exact Hres.
    + discriminate.
  - injection E as <- <-. split; [|split; [exact I|]].
    + intros file _ Hfile. now rewrite (Hfs3 file Hfile), Hfs12.
    + intros Hworkers ->. specialize (Hlive Hworkers). rewrite Eh in Hlive.
      now elim Hlive.
Qed.

(** [Construct] when nothing disturbs it: it touches no file but the
    manifest and those its tasks create; when it returns no error every
    task had an outcome without error and the manifest holds the
    accumulator after the existing files and the outcomes; when it returns
    an error it is that of the first task, in task order, whose outcome
    has one, or that of the write of the manifest; and it returns under
    the round-robin interleaving if there is a worker. *)
Lemma Construct_undisturbed (coin : bool) (sched : list Tick) (w : World) :
  undisturbed env b sched w ->
  let tasks := fst (prepared env (fs w) (requiredFiles env b)) in
  let existing := snd (prepared env (fs w) (requiredFiles env b)) in
  let m0 := foldExisting env b emptyModel existing in
  let r := Construct env b coin sched w in
  (forall file,
     file <> manifestPath env b ->
     (forall t, In t tasks -> filePath t = file -> fetchCreates env t = false) ->
     fs (snd r) !! file = fs w !! file) /\
  match fst r with
  | Ok _ =>
      Forall (taskOk env b) tasks /\
      fs (snd r) !! manifestPath env b
      = Some (GoJSON.MarshalIndent (modelDataOf (foldTasks env b m0 tasks)))
  | Fail e =>
      (exists done t rest,
         tasks = done ++ t :: rest /\ Forall (taskOk env b) done /\
         err (taskResult env b t) = Some e) \/
      (e = ErrWriteManifest /\ Forall (taskOk env b) tasks /\
       writeFileErr env (manifestPath env b) = true)
  | Blocked => True
  end /\
  (1 <= MaxConcurrentDownloads env -> sched = roundRobin (length tasks) ->
   fst r <> Blocked).
Proof.
  intros (Hd & Hnc & Hroom & Hmk & Hrel) tasks existing m0. cbv zeta.
  destruct (Construct env b coin sched w) as [r wf] eqn:E. cbn [fst snd].
  unfold Construct, setupDownloadEnvironment, acquire, osMkdirAll in E.
  monad_unfold. rewrite Hd, Hroom in E. cbn [select2] in E.
  rewrite Hmk in E. cbn [negb] in E.
  unfold deferRelease in E. cbv beta in E.
  match type of E with
  | context [constructBody _ _ _ _ ?x] => set (w1 := x) in E
  end.
  assert (Hd1 : isDone (builderContext b) w1 = false).
  { destruct (builderContext b); [reflexivity|exact Hd]. }
  pose proof (constructBody_undisturbed sched w1 Hd1 Hnc Hrel) as Hbody.
  cbv zeta in Hbody. change (fs w1) with (fs w) in Hbody.
  fold tasks in Hbody. fold existing in Hbody. fold m0 in Hbody.
  destruct (constructBody env b sched (builderContext b) w1) as [rb w2] eqn:Eb.
  apply constructBody_frame in Eb as (Hsem & _).
  cbn [fst snd] in Hbody. destruct Hbody as (Hfs & Hres & Hlive).
  unfold release in E. rewrite Hsem in E. subst w1. cbn [modelSem emit setSem] in E.
  destruct rb as [[]|e|]; injection E as <- <-; cbn [fs setSem emit];
    now repeat split.
Qed.

End Undisturbed.

(* ===================================================================== *)
(** * A physics file that is not found                                    *)
(* ===================================================================== *)

Section NotFound.

Variables (env : Env) (b : Live2dBuilder).

Lemma tasksFor_In (l : list (BundleFile * string * bool)) :
  forall n t, In t (tasksFor n l) ->
              In (bundleFile t, filePath t, allowNotFound t) l.
Proof.
  induction l as [|[[bf f] a] l IH]; intros n t Ht; [destruct Ht|].
  destruct Ht as [<-|Ht]; [now left|]. right. now apply (IH (S n)).
Qed.

Lemma tasksFor_has (l : list (BundleFile * string * bool)) :
  forall n bf f a, In (bf, f, a) l ->
    exists t, In t (tasksFor n l) /\ bundleFile t = bf /\ filePath t = f /\
              allowNotFound t = a.
Proof.
  induction l as [|[[bf0 f0] a0] l IH]; intros n bf f a Hx; [destruct Hx|].
  destruct Hx as [[= -> -> ->]|Hx].
  - eexists. split; [now left|]. now repeat split.
  - destruct (IH (S n) bf f a Hx) as (t & Ht & H). exists t. split; [now right|exact H].
Qed.

Lemma requiredIn_mandatory (dir : string) (files : list BundleFile)
    (x : BundleFile * string * bool) :
  In x (requiredIn env dir files) -> snd x = false.
Proof.
  unfold requiredIn. intros Hx. apply in_map_iff in Hx as (bf & <- & _). reflexivity.
Qed.

(** The one task that may find nothing at the remote is that of the
    physics file. *)
Lemma optional_task_is_physics (files : gmap string string) (t : downloadTask) :
  In t (fst (prepared env files (requiredFiles env b))) ->
  allowNotFound t = true ->
  bundleFile t = bdPhysics (data b) /\ filePath t = physicsFile env b.
Proof.
  unfold prepared. cbn [fst]. intros Ht Ha.
  apply tasksFor_In, List.filter_In in Ht as [Ht _].
  unfold requiredFiles in Ht.
  destruct Ht as [Ht|[Ht|Ht]].
  - injection Ht as _ _ Hf. congruence.
  - injection Ht as <- <- _. now split.
  - rewrite !in_app_iff in Ht.
    destruct Ht as [[]|[Ht|[Ht|Ht]]]; apply requiredIn_mandatory in Ht;
      simpl in Ht; congruence.
Qed.

Lemma physics_task_exists (files : gmap string string) :
  reportsMissing env files (physicsFile env b) = true ->
  exists t, In t (fst (prepared env files (requiredFiles env b))) /\
            bundleFile t = bdPhysics (data b) /\
            filePath t = physicsFile env b /\ allowNotFound t = true.
Proof.
  intros Hmiss. unfold prepared. cbn [fst]. apply tasksFor_has.
  apply List.filter_In. split; [right; now left|exact Hmiss].
Qed.

Lemma updateModelData_Physics (m : Live2dModel) (file rel : string) :
  Physics (updateModelData m file rel)
  = match getFileType file with FtPhysics => rel | _ => Physics m end.
Proof. unfold updateModelData. now destruct (getFileType file). Qed.

(** The physics path of the accumulator is that of the last file taken
    for a physics file. *)
Lemma foldTasks_Physics (x : string) (tasks : list downloadTask) :
  forall m,
    (forall t, In t tasks -> getFileType (filePath t) = FtPhysics ->
               relPath (taskResult env b t) = x) ->
    Physics m = x \/ (exists t, In t tasks /\ getFileType (filePath t) = FtPhysics) ->
    Physics (foldTasks env b m tasks) = x.
Proof.
  induction tasks as [|t l IH]; intros m Hx Hm.
  - destruct Hm as [Hm|(t & [] & _)]. exact Hm.
  - cbn [foldTasks fold_left]. apply IH.
    + intros t' Ht'. apply Hx. now right.
    + rewrite updateModelData_Physics.
      destruct (getFileType (filePath t)) eqn:Et;
        try (destruct Hm as [Hm|(t' & [<-|Ht'] & Hp)];
             [now left | congruence | right; now exists t']).
      left. apply Hx; [now left|exact Et].
Qed.

(** The physics task, answered with Not Found: no error, no file, and
    the relative path of the physics file as its outcome. *)
Lemma physics_task_result (t : downloadTask) (resp : Response) :
  bundleFile t = bdPhysics (data b) -> allowNotFound t = true ->
  newRequestErr env (downloadURL env (bdPhysics (data b))) = false ->
  httpDo env (downloadURL env (bdPhysics (data b))) = Some resp ->
  StatusCode resp = StatusNotFound ->
  fetchError env t = None /\ fetchCreates env t = false.
Proof.
  intros Hbf Ha Hreq Hdo Hst. unfold fetchError, fetchCreates.
  rewrite Hbf, Ha, Hreq, Hdo. unfold validateResponse. rewrite Hst. now split.
Qed.

Lemma mandatory_task_not_found (t : downloadTask) (resp : Response) :
  allowNotFound t = false ->
  newRequestErr env (downloadURL env (bundleFile t)) = false ->
  httpDo env (downloadURL env (bundleFile t)) = Some resp ->
  StatusCode resp = StatusNotFound ->
  err (taskResult env b t) = Some (ErrDownloadFailed (ErrHTTPStatus StatusNotFound)).
Proof.
  intros Ha Hreq Hdo Hst. unfold taskResult, fetchError.
  rewrite Ha, Hreq, Hdo. unfold validateResponse. rewrite Hst. reflexivity.
Qed.

End NotFound.

Lemma first_failure_unique {A} (ok : A -> Prop) (d1 : list A) :
  forall d2 t1 t2 r1 r2,
    d1 ++ t1 :: r1 = d2 ++ t2 :: r2 ->
    Forall ok d1 -> Forall ok d2 -> ~ ok t1 -> ~ ok t2 ->
    t1 = t2.
Proof.
  induction d1 as [|x d1 IH]; intros [|y d2] t1 t2 r1 r2 Heq H1 H2 Hn1 Hn2;
    simpl in Heq; injection Heq as Hhd Htl.
  - exact Hhd.
  - subst y. apply Forall_cons in H2 as [H2 _]. contradiction.
  - subst x. apply Forall_cons in H1 as [H1 _]. contradiction.
  - apply Forall_cons in H1 as [_ H1]. apply Forall_cons in H2 as [_ H2].
    eapply IH; eauto.
Qed.

(** C6, as the code has it.  Nothing disturbs the build, and the physics
    file, not on disk, is not found at the remote, while each other task
    succeeds, on another file, not taken for a physics file.  Then
    [Construct], when it returns, returns no error, and it does return
    under the round-robin interleaving if there is a worker; no physics
    file is on disk after it; and the physics path of the accumulator
    the manifest is written from is the relative path of the physics
    file: it is not left empty.  If instead the first task whose outcome
    has an error is that of a texture which is not found at the remote,
    [Construct] returns the HTTP status error for Not Found, wrapped as a
    failed download. *)
Theorem not_found_physics_and_texture
    (env : Env) (b : Live2dBuilder) (coin : bool) (sched : list Tick) (w : World) :
  undisturbed env b sched w ->
  let physics := physicsFile env b in
  let tasks := fst (prepared env (fs w) (requiredFiles env b)) in
  let r := Construct env b coin sched w in
  (forall resp,
     writeFileErr env (manifestPath env b) = false ->
     reportsMissing env (fs w) physics = true ->
     newRequestErr env (downloadURL env (bdPhysics (data b))) = false ->
     httpDo env (downloadURL env (bdPhysics (data b))) = Some resp ->
     StatusCode resp = StatusNotFound ->
     getFileType physics = FtPhysics -> manifestPath env b <> physics ->
     (forall t, In t tasks -> allowNotFound t = false ->
        taskOk env b t /\ filePath t <> physics /\
        getFileType (filePath t) <> FtPhysics) ->
     (fst r = Ok tt \/ fst r = Blocked) /\
     (1 <= MaxConcurrentDownloads env -> sched = roundRobin (length tasks) ->
      fst r = Ok tt) /\
     (fst r = Ok tt ->
        fs (snd r) !! physics = None /\
        exists m rel,
          Rel env (path b) physics = Some rel /\
          Physics m = ToSlash env rel /\
          fs (snd r) !! manifestPath env b
          = Some (GoJSON.MarshalIndent (modelDataOf m)))) /\
  (forall done t rest resp,
     tasks = done ++ t :: rest -> Forall (taskOk env b) done ->
     isTextureTask env b t ->
     newRequestErr env (downloadURL env (bundleFile t)) = false ->
     httpDo env (downloadURL env (bundleFile t)) = Some resp ->
     StatusCode resp = StatusNotFound ->
     (fst r = Fail (ErrDownloadFailed (ErrHTTPStatus StatusNotFound)) \/
      fst r = Blocked) /\
     (1 <= MaxConcurrentDownloads env -> sched = roundRobin (length tasks) ->
      fst r = Fail (ErrDownloadFailed (ErrHTTPStatus StatusNotFound)))).
Proof.
  intros Hund physics tasks. cbv zeta.
  pose proof (Construct_undisturbed env b coin sched w Hund) as H.
  cbv zeta in H. fold tasks in H. destruct H as (Hfs & Hres & Hlive).
  destruct Hund as (_ & _ & _ & _ & Hrel).
  split.
  - intros resp Hwrite Hmiss Hreq Hdo Hst Hft Hman Hothers.
    assert (Hrelp : exists rel, Rel env (path b) physics = Some rel).
    { rewrite Forall_forall in Hrel. apply (Hrel physics).
      apply list_elem_of_In. unfold requiredPaths, requiredFiles. right. now left. }
    destruct Hrelp as [rel Hrelp].
    assert (Hphys : forall t, In t tasks -> allowNotFound t = true ->
                      filePath t = physics /\ fetchCreates env t = false /\
                      taskResult env b t = mkResult (ToSlash env rel) None).
    { intros t Ht Ha.
      destruct (optional_task_is_physics env b (fs w) t Ht Ha) as [Hbf Hfp].
      destruct (physics_task_result env b t resp Hbf Ha Hreq Hdo Hst) as [He Hc].
      split; [exact Hfp|]. split; [exact Hc|].
      unfold taskResult. rewrite He, Hfp. fold physics. now rewrite Hrelp. }
    assert (Hok : Forall (taskOk env b) tasks).
    { apply Forall_forall. intros t Ht. apply list_elem_of_In in Ht.
      destruct (allowNotFound t) eqn:Ha.
      - destruct (Hphys t Ht Ha) as (_ & _ & Hr). unfold taskOk. now rewrite Hr.
      - now apply Hothers. }
    assert (Hcases : fst (Construct env b coin sched w) = Ok tt \/
                     fst (Construct env b coin sched w) = Blocked).
    { destruct (fst (Construct env b coin sched w)) as [[]|e|];
        [now left| |now right].
      exfalso. destruct Hres as [(done & t & rest & Ht & _ & He)|(_ & _ & Hw)];
        [|congruence].
      rewrite Forall_forall in Hok.
      assert (Hin : t ∈ tasks) by (rewrite Ht; apply list_elem_of_In, in_app_iff;
                                   right; now left).
      apply Hok in Hin. unfold taskOk in Hin. congruence. }
    split; [exact Hcases|]. split.
    + intros Hworkers Hsched. specialize (Hlive Hworkers Hsched).
      destruct Hcases as [Hc|Hc]; [exact Hc|contradiction].
    + intros Hr. rewrite Hr in Hres. destruct Hres as [_ Hmanifest]. split.
      * rewrite Hfs.
        -- unfold reportsMissing in Hmiss.
           destruct (fs w !! physics); [discriminate|reflexivity].
        -- congruence.
        -- intros t Ht Hfp. destruct (allowNotFound t) eqn:Ha.
           ++ now apply Hphys.
           ++ destruct (Hothers t Ht Ha) as (_ & Hne & _). contradiction.
      * eexists _, rel. split; [exact Hrelp|]. split; [|exact Hmanifest].
        apply foldTasks_Physics.
        -- intros t Ht Hpt. destruct (allowNotFound t) eqn:Ha.
           ++ destruct (Hphys t Ht Ha) as (_ & _ & ->). reflexivity.
           ++ destruct (Hothers t Ht Ha) as (_ & _ & Hnp). contradiction.
        -- right. destruct (physics_task_exists env b (fs w) Hmiss)
             as (t & Ht & _ & Hfp & _).
           exists t. split; [exact Ht|]. now rewrite Hfp.
  - intros done t rest resp Htasks Hdone Htex Hreq Hdo Hst.
    assert (Ha : allowNotFound t = false).
    { apply requiredIn_mandatory in Htex. exact Htex. }
    pose proof (mandatory_task_not_found env b t resp Ha Hreq Hdo Hst) as Herr.
    assert (Hnot : ~ taskOk env b t) by (unfold taskOk; congruence).
    assert (Hcases :
              fst (Construct env b coin sched w)
              = Fail (ErrDownloadFailed (ErrHTTPStatus StatusNotFound)) \/
              fst (Construct env b coin sched w) = Blocked).
    { destruct (fst (Construct env b coin sched w)) as [[]|e|]; [| |now right].
      - exfalso. destruct Hres as [Hok _]. rewrite Forall_forall in Hok.
        apply Hnot, Hok. rewrite Htasks. apply list_elem_of_In, in_app_iff.
        right. now left.
      - left. destruct Hres as [(done' & t' & rest' & Ht' & Hdone' & He)|(_ & Hok & _)].
        + assert (t = t') as <-.
          { eapply (first_failure_unique (taskOk env b) done done');
              [rewrite <- Htasks; exact Ht'|exact Hdone|exact Hdone'|exact Hnot|].
            unfold taskOk. congruence. }
          congruence.
        + exfalso. rewrite Forall_forall in Hok.
          apply Hnot, Hok. rewrite Htasks. apply list_elem_of_In, in_app_iff.
          right. now left. }
    split; [exact Hcases|].
    intros Hworkers Hsched. specialize (Hlive Hworkers Hsched).
    destruct Hcases as [Hc|Hc]; [exact Hc|contradiction].
Qed.

Lemma demo_undisturbed (e : Env) :
  Join e = Demo.join -> Rel e = Demo.rel -> mkdirErr e = (fun _ => false) ->
  MaxConcurrentModels e = 1 ->
  undisturbed e (Demo.builder e) (roundRobin 3) Demo.world0.
Proof.
  intros Hj Hr Hm Hg. unfold undisturbed, semHasRoom. rewrite Hm, Hg.
  split; [reflexivity|].
  split; [vm_compute; intuition discriminate|].
  split; [reflexivity|]. split; [reflexivity|].
  unfold requiredPaths, requiredFiles, requiredIn, Demo.builder, NewLive2dBuilder.
  cbn [data dataPath path bdModel bdPhysics bdTextures bdMotions bdExpressions
       Demo.buildData map app fst snd FileName].
  rewrite Hj, Hr.
  repeat constructor; eexists; vm_compute; reflexivity.
Qed.

Lemma not_found_physics_and_texture_witness :
  let r := Construct demoEnv (Demo.builder demoEnv) false (roundRobin 3) Demo.world0 in
  let r' := Construct demoEnvNoTexture (Demo.builder demoEnvNoTexture) false
                      (roundRobin 3) Demo.world0 in
  fst r = Ok tt /\
  fs (snd r) !! "out/anon/data/physics.json" = None /\
  fst r' = Fail (ErrDownloadFailed (ErrHTTPStatus 404)).
Proof.
  pose proof (not_found_physics_and_texture demoEnv (Demo.builder demoEnv) false
                (roundRobin 3) Demo.world0
                (demo_undisturbed demoEnv eq_refl eq_refl eq_refl eq_refl))
    as [Hphysics _].
  pose proof (not_found_physics_and_texture demoEnvNoTexture
                (Demo.builder demoEnvNoTexture) false (roundRobin 3) Demo.world0
                (demo_undisturbed demoEnvNoTexture eq_refl eq_refl eq_refl eq_refl))
    as [_ Htexture].
  cbv zeta in Hphysics, Htexture.
  destruct (Hphysics (mkResponse StatusNotFound "text/plain" "not found" None)
              eq_refl eq_refl eq_refl eq_refl eq_refl eq_refl)
    as (_ & Hlive & Hfiles).
  { vm_compute. discriminate. }
  { intros t [<-|[<-|[<-|[]]]] Ha; try discriminate Ha;
      (split; [reflexivity|split; vm_compute; discriminate]). }
  destruct (Htexture
              [ mkTask (mkBundleFile Demo.bundle "model.moc")
                       "out/anon/data/model.moc" false 0;
                mkTask (mkBundleFile Demo.bundle "physics.json")
                       "out/anon/data/physics.json" true 1 ]
              (mkTask (mkBundleFile Demo.bundle "texture_00.png")
                      "out/anon/data/textures/texture_00.png" false 2)
              []
              (mkResponse StatusNotFound "text/plain" "not found" None)
              eq_refl)
    as (_ & Hfail).
  { repeat constructor. }
  { left. reflexivity. }
  { reflexivity. }
  { reflexivity. }
  { reflexivity. }
  cbv zeta.
  assert (Hok : fst (Construct demoEnv (Demo.builder demoEnv) false (roundRobin 3)
                               Demo.world0) = Ok tt)
    by (apply Hlive; [vm_compute; lia|reflexivity]).
  split; [exact Hok|]. split; [exact (proj1 (Hfiles Hok))|].
  apply Hfail; [vm_compute; lia|reflexivity].
Defined.

(** C6 as stated fails on the physics path.  The server has the model
    file and the texture and answers Not Found for the physics file.  The
    build succeeds and leaves no physics file on disk, but the outcome of
    the physics task carries the relative path of the physics file, so the
    accumulator and the manifest name [data/physics.json]: the physics
    path does not remain empty. *)
Lemma physics_path_counterexample :
  let b := Demo.builder demoEnv in
  let tasks := fst (prepared demoEnv ∅ (requiredFiles demoEnv b)) in
  let r := Construct demoEnv b false (roundRobin 3) Demo.world0 in
  httpDo demoEnv (downloadURL demoEnv (bdPhysics (data b)))
    = Some (mkResponse StatusNotFound "text/plain" "not found" None) /\
  fst r = Ok tt /\
  fs (snd r) !! physicsFile demoEnv b = None /\
  fst (handleDownloadTasks demoEnv b Background (roundRobin 3) tasks emptyModel 0
                           Demo.world0) = Ok demoModel /\
  Physics demoModel = "data/physics.json" /\
  Physics demoModel <> "" /\
  fs (snd r) !! manifestPath demoEnv b
    = Some (GoJSON.MarshalIndent (modelDataOf demoModel)).
Proof. vm_compute. repeat split. discriminate. Qed.

(* ===================================================================== *)
(** * The asset fetcher: every way it ends                                *)
(* ===================================================================== *)

Section FetcherPaths.

Variables (env : Env) (ctx : Context) (bf : BundleFile) (filePath : string).

(** The call when the response has passed the validation and is not a
    tolerated Not Found: the directory, the file, the copy. *)
Lemma DownloadBundleFile_accepted (allow : bool) (w : World) (resp : Response) :
  isDone ctx w = false ->
  newRequestErr env (downloadURL env bf) = false ->
  httpDo env (downloadURL env bf) = Some resp ->
  StatusCode resp = StatusOK ->
  HasPrefix (ContentType resp) "text/html" = false ->
  DownloadBundleFile env ctx bf filePath allow w
  = (createFileAndDirectory env filePath ;; writeFileContent resp filePath)
      (emit (EvGet (downloadURL env bf)) w).
Proof.
  intros Hd Hreq Hdo Hst Hct.
  unfold DownloadBundleFile, createDownloadRequest.
  unfold bind at 1, get. rewrite Hd.
  unfold bind at 1. rewrite Hreq. unfold ret at 1.
  unfold bind at 1, tell. rewrite Hdo.
  unfold validateResponse. rewrite Hst, Hct. cbn [Z.eqb StatusOK negb].
  change (200 =? StatusNotFound)%Z with false. rewrite andb_false_r.
  reflexivity.
Qed.

End FetcherPaths.

(** A response with status OK that is not an HTML page, when the
    directory and the file can be made and the copy ends well: the call
    returns no error, the destination holds the body of the response,
    whatever it held before, no other file has changed, and the events
    are the request, the directory, the file and the copy, in this
    order. *)
Theorem DownloadBundleFile_stores_body
    (env : Env) (ctx : Context) (bf : BundleFile) (filePath : string)
    (allow : bool) (w : World) (resp : Response) :
  isDone ctx w = false ->
  newRequestErr env (downloadURL env bf) = false ->
  httpDo env (downloadURL env bf) = Some resp ->
  StatusCode resp = StatusOK ->
  HasPrefix (ContentType resp) "text/html" = false ->
  mkdirErr env (Dir env filePath) = false ->
  createErr env filePath = false ->
  BodyErr resp = None ->
  let r := DownloadBundleFile env ctx bf filePath allow w in
  fst r = Ok tt /\
  fs (snd r) = <[filePath := Body resp]> (fs w) /\
  trace (snd r)
  = trace w ++ [EvGet (downloadURL env bf); EvMkdirAll (Dir env filePath);
                EvCreate filePath; EvCopy filePath].
Proof.
  intros Hd Hreq Hdo Hst Hct Hmk Hcr Hbody. cbv zeta.
  rewrite (DownloadBundleFile_accepted env ctx bf filePath allow w resp)
    by assumption.
  unfold createFileAndDirectory, writeFileContent, osMkdirAll, osCreate, ioCopy.
  monad_unfold. rewrite Hmk, Hcr, Hbody. cbn.
  split; [reflexivity|]. split; [apply insert_insert_eq|].
  now rewrite <- !app_assoc.
Qed.

Lemma DownloadBundleFile_stores_body_witness :
  let env := Demo.env [(Demo.url "model.moc", ("application/octet-stream", "MOC"))]
                      1 1 in
  let w := setFs (<["out/anon/data/model.moc" := "stale"]> ∅) Demo.world0 in
  let r := DownloadBundleFile env Background (mkBundleFile Demo.bundle "model.moc")
                              "out/anon/data/model.moc" false w in
  fst r = Ok tt /\ fs (snd r) !! "out/anon/data/model.moc" = Some "MOC".
Proof.
  pose proof (DownloadBundleFile_stores_body
    (Demo.env [(Demo.url "model.moc", ("application/octet-stream", "MOC"))] 1 1)
    Background (mkBundleFile Demo.bundle "model.moc") "out/anon/data/model.moc"
    false (setFs (<["out/anon/data/model.moc" := "stale"]> ∅) Demo.world0)
    (mkResponse StatusOK "application/octet-stream" "MOC" None)
    eq_refl eq_refl eq_refl eq_refl eq_refl eq_refl eq_refl eq_refl)
    as (H1 & H2 & _).
  split; [exact H1|]. rewrite H2. apply lookup_insert_eq.
Defined.

(** Whatever the environment, [DownloadBundleFile] returns; it changes
    no file but its destination; when it returns an error that is not
    one of the copy, it has changed no file at all; and under a context
    already cancelled it returns the cancellation error and nothing has
    happened, not even the request. *)
Theorem DownloadBundleFile_touches_only_destination
    (env : Env) (ctx : Context) (bf : BundleFile) (filePath : string)
    (allow : bool) (w : World) :
  let r := DownloadBundleFile env ctx bf filePath allow w in
  fst r <> Blocked /\
  (forall p, p <> filePath -> fs (snd r) !! p = fs w !! p) /\
  (forall e, fst r = Fail e -> isCopyError e = false -> fs (snd r) = fs w) /\
  (isDone ctx w = true -> r = (Fail ErrCancelled, w)) /\
  modelSem (snd r) = modelSem w /\ ctxDone (snd r) = ctxDone w.
Proof.
  cbv zeta.
  unfold DownloadBundleFile, createDownloadRequest, createFileAndDirectory,
    writeFileContent, osMkdirAll, osCreate, ioCopy.
  monad_unfold.
  destruct (isDone ctx w) eqn:Hd; cbn [fst snd].
  { repeat split; try discriminate; reflexivity. }
  destruct (newRequestErr env (downloadURL env bf)); cbn [fst snd].
  { repeat split; try discriminate; reflexivity. }
  destruct (httpDo env (downloadURL env bf)) as [resp|]; cbn [fst snd].
  2:{ repeat split; try discriminate; reflexivity. }
  destruct (validateResponse resp allow); cbn [fst snd].
  { repeat split; try discriminate; reflexivity. }
  destruct (allow && (StatusCode resp =? StatusNotFound)%Z); cbn [fst snd].
  { repeat split; try discriminate; reflexivity. }
  destruct (mkdirErr env (Dir env filePath)); cbn [fst snd negb].
  { repeat split; try discriminate; reflexivity. }
  destruct (createErr env filePath); cbn [fst snd negb].
  { repeat split; try discriminate; reflexivity. }
  assert (Hother : forall p, p <> filePath ->
            <[filePath := Body resp]> (<[filePath := EmptyString]> (fs w)) !! p
            = fs w !! p).
  { intros p Hp. now rewrite !lookup_insert_ne by congruence. }
  destruct (BodyErr resp) as [[|]|]; cbn [fst snd fs setFs emit modelSem ctxDone];
    (split; [discriminate|]); (split; [exact Hother|]);
    repeat split; try discriminate; intros e [= <-]; discriminate.
Qed.

(** A copy of the body that fails, after the file has been created: the
    call returns the error of the copy, and the destination is left in
    place with what was transferred, instead of what it held before.
    The existence check of a later build finds it present. *)
Theorem DownloadBundleFile_failed_copy_leaves_file
    (env : Env) (ctx : Context) (bf : BundleFile) (filePath : string)
    (allow : bool) (w : World) (resp : Response) (ce : CopyErr) :
  isDone ctx w = false ->
  newRequestErr env (downloadURL env bf) = false ->
  httpDo env (downloadURL env bf) = Some resp ->
  StatusCode resp = StatusOK ->
  HasPrefix (ContentType resp) "text/html" = false ->
  mkdirErr env (Dir env filePath) = false ->
  createErr env filePath = false ->
  BodyErr resp = Some ce ->
  let r := DownloadBundleFile env ctx bf filePath allow w in
  fst r = Fail (copyError ce) /\
  fs (snd r) = <[filePath := Body resp]> (fs w) /\
  fst (statIsNotExist env filePath (snd r)) = Ok false.
Proof.
  intros Hd Hreq Hdo Hst Hct Hmk Hcr Hbody. cbv zeta.
  rewrite (DownloadBundleFile_accepted env ctx bf filePath allow w resp)
    by assumption.
  unfold createFileAndDirectory, writeFileContent, osMkdirAll, osCreate, ioCopy,
    statIsNotExist.
  monad_unfold. rewrite Hmk, Hcr, Hbody. cbn.
  destruct ce; cbn; rewrite lookup_insert_eq;
    (split; [reflexivity|]); (split; [apply insert_insert_eq|]); reflexivity.
Qed.

Lemma DownloadBundleFile_failed_copy_leaves_file_witness :
  let env := Demo.env [] 1 1 in
  let cut := {| Join := Join env; Dir := Dir env; Rel := Rel env;
                ToSlash := ToSlash env; BaseAssetsURL := BaseAssetsURL env;
                MaxConcurrentDownloads := 1; MaxConcurrentModels := 1;
                newRequestErr := newRequestErr env;
                httpDo := fun _ => Some (mkResponse StatusOK "image/png" "PN"
                                                    (Some CopyOtherErr));
                statErr := statErr env; mkdirErr := mkdirErr env;
                createErr := createErr env; writeFileErr := writeFileErr env;
                writeFilePartial := writeFilePartial env |} in
  let r := DownloadBundleFile cut Background
             (mkBundleFile Demo.bundle "texture_00.png")
             "out/anon/data/textures/texture_00.png" false Demo.world0 in
  fst r = Fail ErrCopy /\
  fs (snd r) !! "out/anon/data/textures/texture_00.png" = Some "PN".
Proof.
  cbv zeta.
  match goal with
  | |- fst (DownloadBundleFile ?e ?c ?f ?p ?a ?w) = _ /\ _ =>
      pose proof (DownloadBundleFile_failed_copy_leaves_file e c f p a w
                    (mkResponse StatusOK "image/png" "PN" (Some CopyOtherErr))
                    CopyOtherErr eq_refl eq_refl eq_refl eq_refl eq_refl eq_refl
                    eq_refl eq_refl) as (H1 & H2 & _)
  end.
  split; [exact H1|]. rewrite H2. apply lookup_insert_eq.
Defined.

(* ===================================================================== *)
(** * One file outside the pool                                           *)
(* ===================================================================== *)

(** A file that is on disk, or whose existence check fails with an error
    other than "does not exist", is not downloaded by [ProcessFile]: the
    check is the only event, no request is made, no file changes, and
    the result is the relative path, or the error of [filepath.Rel]. *)
Theorem ProcessFile_skips_present_file
    (env : Env) (b : Live2dBuilder) (ctx : Context) (bf : BundleFile)
    (filePath : string) (allow : bool) (w : World) :
  is_Some (fs w !! filePath) \/ statErr env filePath = true ->
  let r := ProcessFile env b ctx bf filePath allow w in
  snd r = emit (EvStat filePath) w /\
  fst r = match Rel env (path b) filePath with
          | Some rel => Ok (ToSlash env rel)
          | None => Fail ErrRel
          end.
Proof.
  intros Hpresent. cbv zeta. unfold ProcessFile, statIsNotExist. monad_unfold.
  cbn [fs emit].
  assert (Hcheck : match fs w !! filePath with
                   | Some _ => false
                   | None => negb (statErr env filePath)
                   end = false).
  { destruct Hpresent as [[c ->]| ->]; [reflexivity|].
    now destruct (fs w !! filePath). }
  destruct (fs w !! filePath) as [c|]; [|rewrite Hcheck];
    destruct (Rel env (path b) filePath); now split.
Qed.

Lemma ProcessFile_skips_present_file_witness :
  let env := Demo.env [] 1 1 in
  let w := setFs (<["out/anon/data/model.moc" := "MOC"]> ∅) Demo.world0 in
  let r := ProcessFile env (Demo.builder env) Background
             (mkBundleFile Demo.bundle "model.moc") "out/anon/data/model.moc"
             false w in
  fst r = Ok "data/model.moc" /\ trace (snd r) = [EvStat "out/anon/data/model.moc"].
Proof.
  destruct (ProcessFile_skips_present_file (Demo.env [] 1 1)
    (Demo.builder (Demo.env [] 1 1)) Background
    (mkBundleFile Demo.bundle "model.moc") "out/anon/data/model.moc" false
    (setFs (<["out/anon/data/model.moc" := "MOC"]> ∅) Demo.world0))
    as [H1 H2].
  - left. exists "MOC". reflexivity.
  - split; [exact H2|]. now rewrite H1.
Defined.

Lemma DownloadBundleFile_returns (env : Env) (ctx : Context) (bf : BundleFile)
    (filePath : string) (allow : bool) (w : World) :
  fst (DownloadBundleFile env ctx bf filePath allow w) <> Blocked.
Proof.
  unfold DownloadBundleFile, createDownloadRequest, createFileAndDirectory,
    writeFileContent, osMkdirAll, osCreate, ioCopy.
  monad_unfold.
  repeat match goal with
         | |- context [if ?c then _ else _] => destruct c; cbn
         | |- context [match ?c with _ => _ end] => destruct c; cbn
         end; discriminate.
Qed.

(** For a file the existence check reports missing, [ProcessFile] ends
    as a worker of the pool does with a task for the same file: the same
    files and events after the check, and the outcome the worker would
    send. *)
Theorem ProcessFile_agrees_with_worker
    (env : Env) (b : Live2dBuilder) (ctx : Context) (bf : BundleFile)
    (file : string) (allow : bool) (ch : nat) (w : World) :
  fs w !! file = None -> statErr env file = false ->
  let sent := workerResult env b ctx (mkTask bf file allow ch)
                           (emit (EvStat file) w) in
  ProcessFile env b ctx bf file allow w = (outcomeOf (fst sent), snd sent).
Proof.
  intros Hnone Hstat. cbv zeta.
  unfold ProcessFile, statIsNotExist, workerResult, outcomeOf. monad_unfold.
  cbn [fs emit bundleFile filePath allowNotFound]. rewrite Hnone, Hstat.
  cbn [negb].
  destruct (DownloadBundleFile env ctx bf file allow _) as [[[]|e|] w'] eqn:E;
    cbn [fst snd err relPath]; try reflexivity.
  - now destruct (Rel env (path b) file).
  - pose proof (DownloadBundleFile_returns env ctx bf file allow
                  (emit (EvStat file) w)) as Hnb.
    rewrite E in Hnb. now contradiction Hnb.
Qed.

Lemma ProcessFile_agrees_with_worker_witness :
  let env := Demo.env [(Demo.url "model.moc", ("application/octet-stream", "MOC"))]
                      1 1 in
  let r := ProcessFile env (Demo.builder env) Background
             (mkBundleFile Demo.bundle "model.moc") "out/anon/data/model.moc"
             false Demo.world0 in
  fst r = Ok "data/model.moc" /\
  fs (snd r) !! "out/anon/data/model.moc" = Some "MOC".
Proof.
  cbv zeta.
  rewrite (ProcessFile_agrees_with_worker
    (Demo.env [(Demo.url "model.moc", ("application/octet-stream", "MOC"))] 1 1)
    (Demo.builder
       (Demo.env [(Demo.url "model.moc", ("application/octet-stream", "MOC"))] 1 1))
    Background (mkBundleFile Demo.bundle "model.moc") "out/anon/data/model.moc"
    false 0 Demo.world0 eq_refl eq_refl).
  split; vm_compute; reflexivity.
Defined.

(* ===================================================================== *)
(** * Classification by substring, and the accumulator as a fold          *)
(* ===================================================================== *)

Section Classification.

Lemma prefix_app_l (sub a c : string) :
  String.prefix sub a = true -> String.prefix sub (a +:+ c) = true.
Proof.
  revert a. induction sub as [|x sub IH]; intros a.
  { intros _. now destruct (a +:+ c). }
  destruct a as [|y a]; [discriminate|].
  change (String y a +:+ c) with (String y (a +:+ c)). simpl.
  destruct (ascii_dec x y); [apply IH|discriminate].
Qed.

Lemma Contains_app_l (a c sub : string) :
  Contains a sub = true -> Contains (a +:+ c) sub = true.
Proof.
  induction a as [|y a IH]; intros H.
  - cbn [Contains] in H. rewrite orb_false_r in H.
    apply (prefix_app_l sub EmptyString c) in H.
    change (EmptyString +:+ c) with c in *.
    destruct c; cbn [Contains]; rewrite H; reflexivity.
  - change (String y a +:+ c) with (String y (a +:+ c)).
    cbn [Contains] in *. apply orb_true_iff in H as [H|H].
    + apply (prefix_app_l sub (String y a) c) in H.
      change (String y a +:+ c) with (String y (a +:+ c)) in H.
      now rewrite H.
    + rewrite (IH H). apply orb_true_r.
Qed.

Lemma last_cons_default {A} (x d : A) (l : list A) :
  List.last (x :: l) d = List.last l x.
Proof.
  revert x d. induction l as [|y l IH]; intros x d; [reflexivity|].
  change (List.last (x :: y :: l) d) with (List.last (y :: l) d).
  now rewrite !IH.
Qed.

End Classification.

(** [getFileType] looks for the directory names anywhere in the path, in
    the order textures, motions, expressions.  So below a directory
    whose path contains "textures", every file not named as a model or
    physics file is taken for a texture, a file of the motions directory
    too: its update appends to the textures and stores no motion. *)
Theorem getFileType_textures_anywhere (dir name : string) :
  Contains dir "textures" = true ->
  let file := dir +:+ "/" +:+ name in
  HasSuffix file "model.moc" = false ->
  HasSuffix file "physics.json" = false ->
  getFileType file = FtTexture /\
  forall m rel,
    Textures (updateModelData m file rel) = Textures m ++ [rel] /\
    Motions (updateModelData m file rel) = Motions m /\
    Expressions (updateModelData m file rel) = Expressions m.
Proof.
  intros Hdir file Hmoc Hphy.
  assert (Hft : getFileType file = FtTexture).
  { unfold getFileType. rewrite Hmoc, Hphy.
    unfold file. now rewrite (Contains_app_l dir _ "textures" Hdir). }
  split; [exact Hft|]. intros m rel. unfold updateModelData. rewrite Hft.
  now repeat split.
Qed.

Lemma getFileType_textures_anywhere_witness :
  getFileType "textures_backup/anon/data/motions/idle01.mtn" = FtTexture /\
  Motions (updateModelData emptyModel "textures_backup/anon/data/motions/idle01.mtn"
                           "data/motions/idle01.mtn") = ∅.
Proof.
  destruct (getFileType_textures_anywhere "textures_backup/anon/data/motions"
              "idle01.mtn" eq_refl eq_refl eq_refl) as [H1 H2].
  split; [exact H1|].
  exact (proj1 (proj2 (H2 emptyModel "data/motions/idle01.mtn"))).
Defined.

(** The fields of the accumulator after a sequence of updates. *)
Lemma updateAll_fields (ups : list (string * string)) (m : Live2dModel) :
  Textures (updateAll m ups)
  = Textures m ++ map snd (List.filter (updateOf FtTexture) ups) /\
  Expressions (updateAll m ups)
  = Expressions m ++
    map (fun u => mkExpressionFile (nameOf (fst u)) (snd u))
        (List.filter (updateOf FtExpression) ups) /\
  Model (updateAll m ups)
  = List.last (map snd (List.filter (updateOf FtModel) ups)) (Model m) /\
  Physics (updateAll m ups)
  = List.last (map snd (List.filter (updateOf FtPhysics) ups)) (Physics m) /\
  forall name,
    Motions (updateAll m ups) !! name
    = List.last (map (fun u => Some [mkMotionFile (snd u)])
                     (List.filter (motionNamed name) ups))
                (Motions m !! name).
Proof.
  revert m. induction ups as [|[file rel] ups IH]; intros m.
  - cbn. rewrite !app_nil_r. now repeat split.
  - change (updateAll m ((file, rel) :: ups))
      with (updateAll (updateModelData m file rel) ups).
    destruct (IH (updateModelData m file rel)) as (HT & HE & HM & HP & HMo).
    assert (Hu : forall ft, updateOf ft (file, rel)
                            = bool_decide (getFileType file = ft)) by reflexivity.
    assert (Hmn : forall name, motionNamed name (file, rel)
                  = bool_decide (getFileType file = FtMotion)
                    && String.eqb (nameOf file) name) by reflexivity.
    rewrite HT, HE, HM, HP. clear HT HE HM HP.
    cbn [List.filter]. rewrite !Hu.
    assert (Hmotions : forall name,
              Motions (updateAll (updateModelData m file rel) ups) !! name
              = List.last (map (fun u => Some [mkMotionFile (snd u)])
                               (List.filter (motionNamed name) ((file, rel) :: ups)))
                          (Motions m !! name)).
    { intros name. rewrite HMo. cbn [List.filter]. rewrite Hmn.
      unfold updateModelData.
      destruct (getFileType file) eqn:Hft;
        try (rewrite bool_decide_eq_false_2 by discriminate; reflexivity).
      rewrite bool_decide_eq_true_2 by reflexivity. cbn [andb Motions].
      destruct (String.eqb_spec (nameOf file) name) as [->|Hne].
      - cbn [map snd]. rewrite last_cons_default. now rewrite lookup_insert_eq.
      - now rewrite lookup_insert_ne. }
    refine (conj _ (conj _ (conj _ (conj _ Hmotions))));
      unfold updateModelData;
      destruct (getFileType file) eqn:Hft;
      repeat (rewrite bool_decide_eq_true_2 by reflexivity
              || rewrite bool_decide_eq_false_2 by discriminate);
      cbn [map snd fst Textures Expressions Model Physics];
      rewrite ?last_cons_default, <- ?app_assoc; reflexivity.
Qed.

(** The accumulator after a sequence of updates, field by field.  The
    textures and the expressions are those it had, followed by those of
    the updates classified so, in the order of the updates; the model
    and physics paths are those of the last update classified so, if
    there is one; and a motion name holds the file of the last motion
    update under that name, if there is one.  Nothing is ever removed. *)
Theorem updateAll_in_update_order (ups : list (string * string)) (m : Live2dModel) :
  Textures (updateAll m ups)
  = Textures m ++ map snd (List.filter (updateOf FtTexture) ups) /\
  Expressions (updateAll m ups)
  = Expressions m ++
    map (fun u => mkExpressionFile (nameOf (fst u)) (snd u))
        (List.filter (updateOf FtExpression) ups) /\
  Model (updateAll m ups)
  = List.last (map snd (List.filter (updateOf FtModel) ups)) (Model m) /\
  Physics (updateAll m ups)
  = List.last (map snd (List.filter (updateOf FtPhysics) ups)) (Physics m) /\
  forall name,
    Motions (updateAll m ups) !! name
    = List.last (map (fun u => Some [mkMotionFile (snd u)])
                     (List.filter (motionNamed name) ups))
                (Motions m !! name).
Proof. apply updateAll_fields. Qed.


(* ===================================================================== *)
(** * The files that are already there                                    *)
(* ===================================================================== *)

Section Existing.

Variables (env : Env) (b : Live2dBuilder).

Lemma progressEvents_S (from n : nat) :
  progressEvents b from (S n)
  = (if hasTui (downloader b)
     then [EvUpdateProgress (ModelName b) (S from)] else [])
    ++ progressEvents b (S from) n.
Proof. unfold progressEvents. now destruct (hasTui (downloader b)). Qed.

Lemma tui_run (e : Event) (w : World) :
  tui b e w = (Ok tt, if hasTui (downloader b) then emit e w else w).
Proof. unfold tui. now destruct (hasTui (downloader b)). Qed.

Lemma tui_trace (e : Event) (w : World) :
  trace (if hasTui (downloader b) then emit e w else w)
  = trace w ++ (if hasTui (downloader b) then [e] else []).
Proof. destruct (hasTui (downloader b)); [reflexivity|now rewrite app_nil_r]. Qed.

Lemma tui_fs (e : Event) (w : World) :
  fs (if hasTui (downloader b) then emit e w else w) = fs w.
Proof. now destruct (hasTui (downloader b)). Qed.

(** [processExistingFiles] up to the first file without a relative
    path. *)
Lemma processExistingFiles_prefix (ok : list string) :
  forall rest m completed w,
    Forall (fun p => is_Some (Rel env (path b) p)) ok ->
    exists w',
      processExistingFiles env b (ok ++ rest) m completed w
      = processExistingFiles env b rest (foldExisting env b m ok)
                             (completed + length ok) w' /\
      fs w' = fs w /\
      trace w' = trace w ++ progressEvents b completed (length ok).
Proof.
  induction ok as [|file ok IH]; intros rest m completed w Hrel.
  - exists w. cbn. rewrite Nat.add_0_r. split; [reflexivity|].
    split; [reflexivity|]. unfold progressEvents.
    destruct (hasTui (downloader b)); cbn; now rewrite app_nil_r.
  - apply Forall_cons in Hrel as [[rel Hfile] Hrel].
    cbn [app processExistingFiles foldExisting fold_left]. rewrite Hfile.
    unfold bind. rewrite tui_run.
    destruct (IH rest (updateModelData m file (ToSlash env rel)) (S completed)
                 (if hasTui (downloader b)
                  then emit (EvUpdateProgress (ModelName b) (S completed)) w
                  else w) Hrel) as (w' & Hrun & Hfs & Htr).
    exists w'. rewrite Hrun. unfold foldExisting.
    replace (completed + length (file :: ok)) with (S completed + length ok)
      by (cbn [length]; lia).
    split; [reflexivity|]. split; [now rewrite Hfs, tui_fs|].
    rewrite Htr, tui_trace, <- app_assoc. cbn [length].
    now rewrite progressEvents_S.
Qed.

End Existing.

(** [processExistingFiles] takes the files in order and stops at the
    first one without a relative path.  It changes no file.  When every
    file has a relative path it returns the accumulator after the update
    of each and the count raised by their number, having reported each
    count on the way; when one has none it returns the error of
    [filepath.Rel], having reported the counts of the files before that
    one only. *)
Theorem processExistingFiles_stops_at_first_failure
    (env : Env) (b : Live2dBuilder) (existing : list string) (m : Live2dModel)
    (completed : nat) (w : World) :
  let r := processExistingFiles env b existing m completed w in
  let hasRel := fun p => is_Some (Rel env (path b) p) in
  (Forall hasRel existing ->
     fst r = Ok (foldExisting env b m existing, completed + length existing) /\
     fs (snd r) = fs w /\
     trace (snd r) = trace w ++ progressEvents b completed (length existing)) /\
  (forall ok bad rest,
     existing = ok ++ bad :: rest -> Forall hasRel ok ->
     Rel env (path b) bad = None ->
     fst r = Fail ErrRel /\
     fs (snd r) = fs w /\
     trace (snd r) = trace w ++ progressEvents b completed (length ok)).
Proof.
  cbv zeta. split.
  - intros Hrel.
    destruct (processExistingFiles_prefix env b existing [] m completed w Hrel)
      as (w' & Hrun & Hfs & Htr).
    rewrite app_nil_r in Hrun. rewrite Hrun. cbn. now repeat split.
  - intros ok bad rest -> Hrel Hbad.
    destruct (processExistingFiles_prefix env b ok (bad :: rest) m completed w Hrel)
      as (w' & Hrun & Hfs & Htr).
    rewrite Hrun. cbn [processExistingFiles]. rewrite Hbad. cbn.
    now repeat split.
Qed.

(* ===================================================================== *)
(** * The events of a build, in order                                     *)
(* ===================================================================== *)

Section FileEvents.

Variable env : Env.

Lemma osMkdirAll_fileEvents (dir : string) : framed fileEvent (osMkdirAll env dir).
Proof. unfold osMkdirAll. repeat framed_step. Qed.

Lemma osCreate_fileEvents (path : string) : framed fileEvent (osCreate env path).
Proof.
  unfold osCreate. repeat framed_step.
  intros w. apply frame_insert.
Qed.

Lemma ioCopy_fileEvents (path : string) (resp : Response) :
  framed fileEvent (ioCopy path resp).
Proof. intros w. unfold ioCopy. monad_unfold. simpl. now apply frame_copy. Qed.

Lemma DownloadBundleFile_fileEvents (ctx : Context) (bf : BundleFile)
    (file : string) (allow : bool) :
  framed fileEvent (DownloadBundleFile env ctx bf file allow).
Proof.
  unfold DownloadBundleFile, createDownloadRequest, createFileAndDirectory,
    writeFileContent.
  repeat first [ apply osMkdirAll_fileEvents | apply osCreate_fileEvents
               | apply ioCopy_fileEvents | framed_step ].
Qed.

Variables (b : Live2dBuilder) (ctx : Context).

Lemma workerResult_fileEvents (task : downloadTask) (w : World) :
  frame fileEvent w (snd (workerResult env b ctx task w)).
Proof.
  unfold workerResult.
  pose proof (DownloadBundleFile_fileEvents ctx (bundleFile task) (filePath task)
                (allowNotFound task) w) as H.
  destruct (DownloadBundleFile env ctx (bundleFile task) (filePath task)
              (allowNotFound task) w) as [[[]|e|] w']; simpl in *;
    try destruct (Rel env (path b) (filePath task)); exact H.
Qed.

Lemma workerStep_fileEvents (k : nat) (p : Pool) (w : World) :
  frame fileEvent w (snd (workerStep env b ctx k p w)).
Proof.
  unfold workerStep.
  destruct (workers p !! k) as [[| | |]|]; try apply frame_refl.
  destruct (taskChan p) as [|task q].
  - destruct (taskChanClosed p); apply frame_refl.
  - destruct (isDone ctx w).
    + destruct (errorChan _); apply frame_refl.
    + pose proof (workerResult_fileEvents task w) as H.
      destruct (workerResult env b ctx task w) as [r w']. exact H.
Qed.

End FileEvents.

Section BuildEvents.

Variables (env : Env) (b : Live2dBuilder).

Lemma fileEvent_afterCheck (e : Event) : fileEvent e -> afterCheck e.
Proof. now destruct e. Qed.

Lemma fileEvent_silent (evs : list Event) :
  Forall fileEvent evs -> List.filter isProgressCall evs = [].
Proof.
  induction 1 as [|e evs He _ IH]; [reflexivity|].
  cbn [List.filter]. now destruct e.
Qed.

Lemma progressEvents_0 (from : nat) : progressEvents b from 0 = [].
Proof. unfold progressEvents. now destruct (hasTui (downloader b)). Qed.

Lemma progressEvents_snoc (from k : nat) :
  progressEvents b from (S k)
  = progressEvents b from k
    ++ (if hasTui (downloader b)
        then [EvUpdateProgress (ModelName b) (S (from + k))] else []).
Proof.
  unfold progressEvents. destruct (hasTui (downloader b)); [|reflexivity].
  now rewrite seq_S, map_app.
Qed.

Lemma progressEvents_app (from k1 k2 : nat) :
  progressEvents b from k1 ++ progressEvents b (from + k1) k2
  = progressEvents b from (k1 + k2).
Proof.
  unfold progressEvents. destruct (hasTui (downloader b)); [|reflexivity].
  rewrite <- map_app. f_equal.
  change (S (from + k1)) with (S from + k1). now rewrite <- seq_app.
Qed.

Lemma progressEvents_afterCheck (from k : nat) :
  Forall afterCheck (progressEvents b from k).
Proof.
  unfold progressEvents. destruct (hasTui (downloader b)); [|constructor].
  apply Forall_forall. intros e He.
  apply list_elem_of_In, in_map_iff in He as (c & <- & _). exact I.
Qed.

Lemma progressEvents_filter (from k : nat) :
  List.filter isProgressCall (progressEvents b from k) = progressEvents b from k.
Proof.
  unfold progressEvents. destruct (hasTui (downloader b)); [|reflexivity].
  induction (seq (S from) k) as [|c l IH]; [reflexivity|].
  cbn [map List.filter isProgressCall]. now rewrite IH.
Qed.

Lemma tuiEmit_trace (e : Event) (w : World) :
  trace (tuiEmit b e w) = trace w ++ (if hasTui (downloader b) then [e] else []).
Proof.
  unfold tuiEmit. destruct (hasTui (downloader b)); [reflexivity|].
  now rewrite app_nil_r.
Qed.

Variables (ctx : Context) (tasks : list downloadTask) (c0 : nat) (w0 : World).

(** An error reported to the TUI model at the return of the builder. *)
Lemma progressInv_returnError (e : error) (k : nat) (evs : list Event)
    (s : BuilderState) (w : World) :
  trace w = trace w0 ++ evs -> Forall afterCheck evs ->
  List.filter isProgressCall evs = progressEvents b c0 k ->
  completedFiles s = c0 + k -> k <= length tasks ->
  progressInv b tasks c0 w0 (fst (returnError b e s w)) (snd (returnError b e s w)).
Proof.
  intros Htr Haft Hfil Hc Hk. unfold returnError. cbn [fst snd].
  exists (evs ++ (if hasTui (downloader b)
                  then [EvSendError (ModelName b) e] else [])), k.
  rewrite tuiEmit_trace, Htr, <- app_assoc. split; [reflexivity|].
  split.
  { apply Forall_app. split; [exact Haft|].
    destruct (hasTui (downloader b)); now repeat constructor. }
  split.
  { rewrite List.filter_app, Hfil.
    destruct (hasTui (downloader b)); cbn; now rewrite app_nil_r. }
  split; [exact Hc|]. exact Hk.
Qed.

Lemma tick_progressInv (t : Tick) (s : BuilderState) (p : Pool) (w : World) :
  progressInv b tasks c0 w0 s w ->
  let r := tick env b ctx tasks t s p w in
  progressInv b tasks c0 w0 (fst (fst r)) (snd r).
Proof.
  intros (evs & k & Htr & Haft & Hfil & Hc & Hph). cbv zeta.
  destruct t as [|j|coin]; cbn [tick].
  - exists evs, k. now repeat split.
  - pose proof (workerStep_fileEvents env b ctx j p w) as (_ & _ & evs' & Htr' & HP & _).
    destruct (workerStep env b ctx j p w) as [p' w']. cbn [fst snd] in *.
    exists (evs ++ evs'), k. rewrite Htr', Htr, <- app_assoc.
    split; [reflexivity|]. split.
    { apply Forall_app. split; [exact Haft|].
      eapply Forall_impl; [exact HP|]. intros e. apply fileEvent_afterCheck. }
    split; [|now split].
    now rewrite List.filter_app, Hfil, (fileEvent_silent evs' HP), app_nil_r.
  - unfold builderStep.
    destruct (phase s) as [[|task rest]|[|task rest]|e] eqn:Eph.
    + exists evs, k. cbn [fst snd setPhase phase completedFiles].
      subst k. repeat split; try assumption; try lia.
    + destruct (select2 _ _ _) as [[|]|];
        exists evs, k; cbn [fst snd setPhase phase completedFiles];
        subst k; repeat split; try assumption; try lia.
    + exists evs, k. cbn [fst snd setPhase phase completedFiles].
      cbn [length] in Hph. repeat split; try assumption; try lia.
    + cbn [length] in Hph.
      destruct (select2 _ _ _) as [[|]|].
      * destruct (returnError b ErrCancelled s w) as [s' w'] eqn:Er.
        cbn [fst snd].
        pose proof (progressInv_returnError ErrCancelled k evs s w Htr Haft Hfil Hc
                      ltac:(lia)) as H.
        now rewrite Er in H.
      * destruct (resultReady p (result task)) as [r|].
        2:{ exists evs, k. cbn [fst snd]. rewrite Eph. now repeat split. }
        destruct (err r) as [e|].
        -- match goal with
           | |- context [returnError b e ?s1 w] =>
               pose proof (progressInv_returnError e k evs s1 w Htr Haft Hfil Hc
                             ltac:(lia)) as H;
               destruct (returnError b e s1 w) as [s' w'] eqn:Er
           end.
           exact H.
        -- cbn [fst snd phase completedFiles].
           exists (evs ++ (if hasTui (downloader b)
                           then [EvUpdateProgress (ModelName b)
                                                  (S (completedFiles s))] else [])),
                  (S k).
           rewrite tuiEmit_trace, Htr, <- app_assoc. split; [reflexivity|].
           split.
           { apply Forall_app. split; [exact Haft|].
             destruct (hasTui (downloader b)); now repeat constructor. }
           split.
           { rewrite List.filter_app, Hfil, progressEvents_snoc, Hc.
             destruct (hasTui (downloader b)); reflexivity. }
           cbn [phase completedFiles]. split; lia.
      * destruct (resultReady p (result task));
          exists evs, k; cbn [fst snd]; rewrite Eph; now repeat split.
    + exists evs, k. cbn [fst snd]. rewrite Eph. now repeat split.
Qed.

End BuildEvents.

Section BuildShape.

Variables (env : Env) (b : Live2dBuilder).

Lemma handleDownloadTasks_progress (ctx : Context) (sched : list Tick)
    (tasks : list downloadTask) (m : Live2dModel) (c0 : nat) (w : World) :
  let r := handleDownloadTasks env b ctx sched tasks m c0 w in
  exists evs k,
    trace (snd r) = trace w ++ evs /\ Forall afterCheck evs /\
    List.filter isProgressCall evs = progressEvents b c0 k /\
    k <= length tasks /\
    (forall m', fst r = Ok m' -> k = length tasks).
Proof.
  cbv zeta. unfold handleDownloadTasks. destruct tasks as [|t l] eqn:Et.
  - exists [], 0. cbn. rewrite app_nil_r, progressEvents_0. now repeat split.
  - rewrite <- Et.
    pose proof (runPool_invariant env b ctx tasks (fun _ => True)
                  (fun s _ w' => progressInv b tasks c0 w s w')) as Hinv.
    cbv zeta in Hinv.
    specialize (Hinv (fun t s p w' _ H => tick_progressInv env b ctx tasks c0 w t s p w' H)
                  sched (startBuilder tasks m c0) (startWorkerPool env tasks) w
                  (Forall_true _ _ (fun _ => I))).
    destruct (runPool env b ctx tasks sched (startBuilder tasks m c0)
                (startWorkerPool env tasks) w) as [[s p] w'].
    cbn [fst snd] in Hinv.
    destruct Hinv as (evs & k & Htr & Haft & Hfil & _ & Hph).
    { exists [], 0. cbn. rewrite app_nil_r, progressEvents_0. repeat split; try lia.
      constructor. }
    exists evs, k.
    destruct (phase s) as [rest|rest|[e|]]; cbn [fst snd];
      repeat split; try assumption; try lia; try discriminate.
Qed.

Lemma processExistingFiles_progress (existing : list string) :
  forall m c w,
    let r := processExistingFiles env b existing m c w in
    exists k,
      trace (snd r) = trace w ++ progressEvents b c k /\ k <= length existing /\
      fst r <> Blocked /\
      (forall m' c', fst r = Ok (m', c') ->
         c' = c + length existing /\ k = length existing).
Proof.
  induction existing as [|file rest IH]; intros m c w; cbv zeta.
  - exists 0. cbn. rewrite progressEvents_0, app_nil_r.
    repeat split; try lia; try discriminate; injection H as _ <-; lia.
  - cbn [processExistingFiles].
    destruct (Rel env (path b) file) as [rel|].
    2:{ exists 0. cbn. rewrite progressEvents_0, app_nil_r.
        repeat split; try lia; discriminate. }
    unfold bind. rewrite (tui_run b).
    destruct (IH (updateModelData m file (ToSlash env rel)) (S c)
                 (if hasTui (downloader b)
                  then emit (EvUpdateProgress (ModelName b) (S c)) w else w))
      as (k & Htr & Hk & Hnb & Hok).
    exists (S k). rewrite Htr, (tui_trace b), <- app_assoc, (progressEvents_S b).
    split; [reflexivity|]. split; [cbn [length]; lia|]. split; [exact Hnb|].
    intros m' c' H. apply Hok in H. cbn [length]. lia.
Qed.

Lemma filter_partition_length {A} (f : A -> bool) (l : list A) :
  length (List.filter f l) + length (List.filter (fun x => negb (f x)) l)
  = length l.
Proof.
  induction l as [|x l IH]; [reflexivity|].
  cbn [List.filter]. destruct (f x); cbn [negb length]; lia.
Qed.

Lemma requiredFiles_length : length (requiredFiles env b) = totalFiles b.
Proof.
  unfold requiredFiles, requiredIn, totalFiles.
  rewrite !length_app, !length_map. cbn [length]. lia.
Qed.

Lemma prepared_length (files : gmap string string) :
  length (fst (prepared env files (requiredFiles env b)))
  + length (snd (prepared env files (requiredFiles env b)))
  = totalFiles b.
Proof.
  unfold prepared. cbn [fst snd].
  rewrite tasksFor_length, length_map, <- requiredFiles_length.
  apply filter_partition_length.
Qed.

Lemma statEvents_afterwards (l : list (BundleFile * string * bool)) :
  List.filter isProgressCall (statEvents l) = [] /\
  List.filter isGet (statEvents l) = [] /\
  List.filter isStat (statEvents l) = statEvents l.
Proof.
  unfold statEvents. induction l as [|x l (H1 & H2 & H3)]; [now repeat split|].
  cbn [map List.filter isProgressCall isGet isStat]. now rewrite H1, H2, H3.
Qed.

(** The events of the body of [Construct]: the announcement, one
    existence check per required file, and then events of the download
    and of the manifest only, among them the counts from 1 on. *)
Lemma constructBody_events (ctx : Context) (sched : list Tick) (w w' : World)
    (r : outcome unit) :
  constructBody env b sched ctx w = (r, w') ->
  exists rest k,
    trace w' = trace w ++ announcement b ++ statEvents (requiredFiles env b) ++ rest /\
    Forall afterCheck rest /\
    List.filter isProgressCall rest = progressEvents b 0 k /\
    k <= totalFiles b /\ (r = Ok tt -> k = totalFiles b).
Proof.
  unfold constructBody, initializeDownloadProgress. intros E.
  unfold bind at 1 in E. rewrite (tui_run b) in E.
  fold (totalFiles b) in E.
  set (w1 := if hasTui (downloader b)
             then emit (EvAddDownloadItem (ModelName b) (totalFiles b)) w else w) in E.
  assert (Htr1 : trace w1 = trace w ++ announcement b).
  { unfold w1, announcement. apply (tui_trace b). }
  unfold bind at 1 in E. rewrite prepareDownloadTasks_spec in E.
  pose proof (prepared_length (fs w1)) as Hlen.
  destruct (prepared env (fs w1) (requiredFiles env b)) as [tasks existing].
  cbn [fst snd] in Hlen.
  set (w2 := emitAll (statEvents (requiredFiles env b)) w1) in E.
  assert (Htr2 : trace w2
                 = trace w ++ announcement b ++ statEvents (requiredFiles env b)).
  { unfold w2, emitAll. cbn [trace]. now rewrite Htr1, <- app_assoc. }
  destruct (processExistingFiles_progress existing emptyModel 0 w2)
    as (k1 & Htr3 & Hk1 & Hnb & Hok).
  destruct (processExistingFiles env b existing emptyModel 0 w2)
    as [[[m completed]|e|] w3]; cbn [fst snd] in *.
  - destruct (Hok m completed eq_refl) as [-> ->]. cbn [Nat.add] in *.
    apply bind_inv in E as [(m' & w4 & E4 & E)|[(e & E4 & ->)|[E4 ->]]].
    + pose proof (handleDownloadTasks_progress ctx sched tasks m (length existing) w3)
        as (evs & k2 & Htr4 & Haft & Hfil & Hk2 & Hall).
      rewrite E4 in Htr4, Hall. cbn [fst snd] in Htr4, Hall.
      specialize (Hall m' eq_refl). subst k2.
      assert (Htr5 : exists e5, trace w' = trace w4 ++ [e5] /\ afterCheck e5 /\
                                isProgressCall e5 = false).
      { unfold createModelData, osWriteFile in E. monad_unfold.
        destruct (writeFileErr env (Join env (path b) "model.json"));
          [destruct (writeFilePartial env (Join env (path b) "model.json"))|];
          injection E as _ <-; eexists; (split; [reflexivity|]); now split. }
      destruct Htr5 as (e5 & Htr5 & Ha5 & Hp5).
      exists (progressEvents b 0 (length existing) ++ evs ++ [e5]),
             (length existing + length tasks).
      rewrite Htr5, Htr4, Htr3, Htr2, <- !app_assoc. split; [reflexivity|].
      split.
      { apply Forall_app. split; [apply progressEvents_afterCheck|].
        apply Forall_app. split; [exact Haft|]. now repeat constructor. }
      split.
      { rewrite !List.filter_app, progressEvents_filter, Hfil.
        cbn [List.filter]. rewrite Hp5, app_nil_r.
        apply (progressEvents_app b 0). }
      split; lia.
    + pose proof (handleDownloadTasks_progress ctx sched tasks m (length existing) w3)
        as (evs & k2 & Htr4 & Haft & Hfil & Hk2 & _).
      rewrite E4 in Htr4. cbn [fst snd] in Htr4.
      exists (progressEvents b 0 (length existing) ++ evs), (length existing + k2).
      rewrite Htr4, Htr3, Htr2, <- !app_assoc. split; [reflexivity|].
      split.
      { apply Forall_app. split; [apply progressEvents_afterCheck|exact Haft]. }
      split.
      { rewrite !List.filter_app, progressEvents_filter, Hfil.
        apply (progressEvents_app b 0). }
      split; [lia|discriminate].
    + pose proof (handleDownloadTasks_progress ctx sched tasks m (length existing) w3)
        as (evs & k2 & Htr4 & Haft & Hfil & Hk2 & _).
      rewrite E4 in Htr4. cbn [fst snd] in Htr4.
      exists (progressEvents b 0 (length existing) ++ evs), (length existing + k2).
      rewrite Htr4, Htr3, Htr2, <- !app_assoc. split; [reflexivity|].
      split.
      { apply Forall_app. split; [apply progressEvents_afterCheck|exact Haft]. }
      split.
      { rewrite !List.filter_app, progressEvents_filter, Hfil.
        apply (progressEvents_app b 0). }
      split; [lia|discriminate].
  - injection E as <- <-.
    exists (progressEvents b 0 k1
            ++ (if hasTui (downloader b) then [EvSendError (ModelName b) e] else [])),
           k1.
    rewrite (tuiEmit_trace b), Htr3, Htr2, <- !app_assoc. split; [reflexivity|].
    split.
    { apply Forall_app. split; [apply progressEvents_afterCheck|].
      destruct (hasTui (downloader b)); now repeat constructor. }
    split.
    { rewrite List.filter_app, progressEvents_filter.
      destruct (hasTui (downloader b)); cbn; now rewrite app_nil_r. }
    split; [lia|discriminate].
  - now contradiction Hnb.
Qed.

End BuildShape.

Section ConstructShape.

Variables (env : Env) (b : Live2dBuilder).

Lemma setupDownloadEnvironment_events (coin : bool) (w : World) :
  match setupDownloadEnvironment env b coin w with
  | (Ok ctx, w') =>
      ctx = builderContext b /\ modelSem w' = S (modelSem w) /\
      trace w' = trace w ++ [EvAcquire; EvMkdirAll (dataPath b)]
  | (Fail e, w') =>
      exists evs, trace w' = trace w ++ evs /\ Forall setupEvent evs
  | (Blocked, w') => w' = w
  end.
Proof.
  unfold setupDownloadEnvironment, acquire, release, osMkdirAll, tui.
  monad_unfold.
  destruct (isDone (builderContext b) w) eqn:Ed,
           (semHasRoom env w) eqn:Er; simpl; try destruct coin; simpl.
  all: try (exists []; rewrite app_nil_r; split; [reflexivity|constructor]).
  all: try reflexivity.
  all: destruct (mkdirErr env (dataPath b)); simpl;
    [|repeat split; now rewrite <- app_assoc].
  all: destruct (hasTui (downloader b)); simpl.
  all: eexists; rewrite <- !app_assoc; (split; [reflexivity|]);
    now repeat constructor.
Qed.

(** The events of a [Construct] call: those of a call that ends before
    its existence checks, or the slot, the data directory, the
    announcement, the checks, the rest of the body, and the release once
    the call has returned. *)
Lemma Construct_events (coin : bool) (sched : list Tick) (w : World) :
  let r := Construct env b coin sched w in
  (fst r <> Ok tt /\
   exists evs, trace (snd r) = trace w ++ evs /\ Forall setupEvent evs) \/
  (exists rest k tail,
     trace (snd r)
     = trace w ++ [EvAcquire; EvMkdirAll (dataPath b)] ++ announcement b
       ++ statEvents (requiredFiles env b) ++ rest ++ tail /\
     Forall afterCheck rest /\
     List.filter isProgressCall rest = progressEvents b 0 k /\
     k <= totalFiles b /\ (fst r = Ok tt -> k = totalFiles b) /\
     (tail = [] \/ tail = [EvRelease])).
Proof.
  cbv zeta. unfold Construct, bind.
  pose proof (setupDownloadEnvironment_events coin w) as Hs.
  destruct (setupDownloadEnvironment env b coin w) as [[ctx|e|] w0]; cbn [fst snd].
  - destruct Hs as (-> & Hsem & Htr0). right. unfold deferRelease.
    destruct (constructBody env b sched (builderContext b) w0) as [rb w1] eqn:Eb.
    pose proof (constructBody_frame _ _ _ _ _ _ _ Eb) as (Hsem1 & _).
    apply constructBody_events in Eb as (rest & k & Htr1 & Haft & Hfil & Hk & Hok).
    assert (Hrel : release w1 = (Ok tt, setSem (modelSem w) (emit EvRelease w1))).
    { unfold release. now rewrite Hsem1, Hsem. }
    destruct rb as [[]|e|]; rewrite ?Hrel; cbn [fst snd trace setSem emit].
    + exists rest, k, [EvRelease]. rewrite Htr1, Htr0, <- !app_assoc.
      repeat split; try assumption; auto.
    + exists rest, k, [EvRelease]. rewrite Htr1, Htr0, <- !app_assoc.
      repeat split; try assumption; auto; discriminate.
    + exists rest, k, []. rewrite Htr1, Htr0, <- !app_assoc, app_nil_r.
      repeat split; try assumption; auto; discriminate.
  - left. split; [discriminate|exact Hs].
  - left. split; [discriminate|]. subst w0. exists [].
    rewrite app_nil_r. split; [reflexivity|constructor].
Qed.

Lemma setupEvent_silent (evs : list Event) :
  Forall setupEvent evs ->
  List.filter isProgressCall evs = [] /\ List.filter isStat evs = [] /\
  List.filter isGet evs = [].
Proof.
  induction 1 as [|e evs He _ (H1 & H2 & H3)]; [now repeat split|].
  cbn [List.filter]. rewrite H1, H2, H3. now destruct e.
Qed.

Lemma afterCheck_no_stat (evs : list Event) :
  Forall afterCheck evs -> List.filter isStat evs = [].
Proof.
  induction 1 as [|e evs He _ IH]; [reflexivity|].
  cbn [List.filter]. rewrite IH. now destruct e.
Qed.

Lemma announcement_filter :
  List.filter isProgressCall (announcement b) = announcement b /\
  List.filter isStat (announcement b) = [] /\
  List.filter isGet (announcement b) = [].
Proof. unfold announcement. now destruct (hasTui (downloader b)). Qed.

End ConstructShape.

(** The progress a [Construct] call reports, under every interleaving.
    A call that ends before its existence checks reports none.  Any
    other call announces the total, two plus the numbers of textures,
    motions and expressions, and then reports the counts 1, 2, ... in
    order, one per file found on disk or received from a worker, up to
    some [k] that never exceeds the total and is the total when the call
    returns no error. *)
Theorem Construct_reports_progress
    (env : Env) (b : Live2dBuilder) (coin : bool) (sched : list Tick) (w : World) :
  let r := Construct env b coin sched w in
  exists evs k,
    trace (snd r) = trace w ++ evs /\
    k <= totalFiles b /\
    (fst r = Ok tt -> k = totalFiles b) /\
    ((fst r <> Ok tt /\ List.filter isProgressCall evs = []) \/
     List.filter isProgressCall evs = announcement b ++ progressEvents b 0 k).
Proof.
  cbv zeta.
  destruct (Construct_events env b coin sched w)
    as [(Hno & evs & Htr & Hset)|(rest & k & tail & Htr & Haft & Hfil & Hk & Hok & Htail)].
  - exists evs, 0. split; [exact Htr|]. split; [lia|].
    split; [intros H; now contradiction Hno|]. left.
    split; [exact Hno|]. apply (setupEvent_silent evs Hset).
  - eexists _, k. split; [exact Htr|]. split; [exact Hk|]. split; [exact Hok|].
    right. rewrite !List.filter_app, Hfil.
    destruct (announcement_filter b) as (-> & _ & _).
    destruct (statEvents_afterwards (requiredFiles env b)) as (-> & _ & _).
    destruct Htail as [-> | ->]; cbn; now rewrite app_nil_r.
Qed.

(** The existence checks of a [Construct] call, under every
    interleaving.  A call that ends before them makes no check and no
    request.  Any other call checks each required path once, in the
    order of [prepareDownloadTasks], one check after the other; no
    request is made before the checks, and no check after them: the
    workers never look at the disk. *)
Theorem Construct_checks_existence_once
    (env : Env) (b : Live2dBuilder) (coin : bool) (sched : list Tick) (w : World) :
  let r := Construct env b coin sched w in
  exists evs,
    trace (snd r) = trace w ++ evs /\
    ((fst r <> Ok tt /\ List.filter isStat evs = [] /\ List.filter isGet evs = []) \/
     exists pre post,
       evs = pre ++ map EvStat (requiredPaths env b) ++ post /\
       List.filter isStat pre = [] /\ List.filter isGet pre = [] /\
       List.filter isStat post = []).
Proof.
  cbv zeta.
  destruct (Construct_events env b coin sched w)
    as [(Hno & evs & Htr & Hset)|(rest & k & tail & Htr & Haft & _ & _ & _ & Htail)].
  - exists evs. split; [exact Htr|]. left. split; [exact Hno|].
    apply (setupEvent_silent evs Hset).
  - eexists. split; [exact Htr|]. right.
    exists ([EvAcquire; EvMkdirAll (dataPath b)] ++ announcement b), (rest ++ tail).
    split.
    { unfold requiredPaths, statEvents. rewrite map_map, <- !app_assoc.
      reflexivity. }
    rewrite !List.filter_app.
    destruct (announcement_filter b) as (_ & -> & ->).
    rewrite (afterCheck_no_stat rest Haft).
    destruct Htail as [-> | ->]; now repeat split.
Qed.

(* ===================================================================== *)
(** * The download phase as a whole                                       *)
(* ===================================================================== *)

Section Sequential.

Variables (env : Env) (b : Live2dBuilder).

Lemma firstError_none (tasks : list downloadTask) :
  Forall (taskOk env b) tasks -> firstError env b tasks = None.
Proof.
  induction 1 as [|t l Ht _ IH]; [reflexivity|].
  cbn [firstError]. unfold taskOk in Ht. now rewrite Ht.
Qed.

Lemma firstError_some (done : list downloadTask) (t : downloadTask)
    (rest : list downloadTask) (e : error) :
  Forall (taskOk env b) done -> err (taskResult env b t) = Some e ->
  firstError env b (done ++ t :: rest) = Some e.
Proof.
  intros Hdone He. induction Hdone as [|x l Hx _ IH]; cbn [app firstError].
  - now rewrite He.
  - unfold taskOk in Hx. now rewrite Hx.
Qed.

Lemma roundRobin_calm (n : nat) : ~ In TCancel (roundRobin n).
Proof.
  unfold roundRobin. rewrite !in_app_iff.
  intros [H|[H|H]]; apply list_elem_of_In, elem_of_replicate in H as [H _];
    discriminate.
Qed.

(** Without cancellation [handleDownloadTasks] waits for ever or returns
    what the tasks give one after the other. *)
Lemma handleDownloadTasks_sequential (ctx : Context) (tasks : list downloadTask)
    (sched : list Tick) (m : Live2dModel) (completed : nat) (w : World) :
  isDone ctx w = false -> ~ In TCancel sched -> NoDup (map result tasks) ->
  let r := fst (handleDownloadTasks env b ctx sched tasks m completed w) in
  r = Blocked \/ r = downloadOutcome env b m tasks.
Proof.
  intros Hd Hnc Hnd. cbv zeta.
  pose proof (handleDownloadTasks_calm env b ctx tasks sched m completed w Hd Hnc Hnd)
    as (_ & _ & _ & Hres).
  cbv zeta in Hres. unfold downloadOutcome.
  destruct (fst (handleDownloadTasks env b ctx sched tasks m completed w))
    as [m'|e|]; [| |now left]; right.
  - destruct Hres as [Hok ->]. now rewrite (firstError_none tasks Hok).
  - destruct Hres as (done & t & rest & -> & Hok & He).
    now rewrite (firstError_some done t rest e Hok He).
Qed.

End Sequential.

(* ===================================================================== *)
(** * The builder's return and the outcomes it leaves                     *)
(* ===================================================================== *)

Section AfterReturn.

Variables (env : Env) (b : Live2dBuilder) (ctx : Context) (tasks : list downloadTask).

Lemma sendResult_keeps (k ch : nat) (r : downloadResult) (p : Pool) (ch' : nat)
    (out : downloadResult) :
  resultReady p ch' = Some out -> resultReady (sendResult k ch r p) ch' = Some out.
Proof.
  unfold sendResult, resultReady. intros H.
  destruct (resultChans p !! ch) as [[x|]|] eqn:E;
    cbn [resultChans setWorker setResultChan]; try exact H.
  destruct (decide (ch = ch')) as [<-|Hne]; [now rewrite E in H|].
  now rewrite list_lookup_insert_ne.
Qed.

(** A worker never takes an outcome out of a result channel. *)
Lemma workerStep_keeps (k : nat) (p : Pool) (w : World) (ch : nat)
    (out : downloadResult) :
  resultReady p ch = Some out ->
  resultReady (fst (workerStep env b ctx k p w)) ch = Some out.
Proof.
  intros H. unfold workerStep.
  destruct (workers p !! k) as [[|ch0 r| |]|]; try exact H.
  - destruct (taskChan p) as [|task q].
    + destruct (taskChanClosed p); exact H.
    + destruct (isDone ctx w).
      * destruct (errorChan _); exact H.
      * destruct (workerResult env b ctx task w) as [r w']. cbn [fst].
        now apply sendResult_keeps.
  - cbn [fst]. now apply sendResult_keeps.
Qed.

(** After the return of the builder a step changes nothing of the
    builder and takes no outcome out of a result channel. *)
Lemma tick_returned (t : Tick) (s : BuilderState) (p : Pool) (w : World)
    (e : option error) :
  phase s = Returned e ->
  let r := tick env b ctx tasks t s p w in
  fst (fst r) = s /\
  forall ch out, resultReady p ch = Some out ->
                 resultReady (snd (fst r)) ch = Some out.
Proof.
  intros Hph. cbv zeta. destruct t as [|k|coin]; cbn [tick].
  - now split.
  - pose proof (workerStep_keeps k p w) as H.
    destruct (workerStep env b ctx k p w) as [p' w']. now split.
  - unfold builderStep. rewrite Hph. now split.
Qed.

Lemma runTicks_returned (more : list Tick) :
  forall s p w e,
    phase s = Returned e ->
    let r := runTicks env b ctx tasks more s p w in
    fst (fst r) = s /\
    forall ch out, resultReady p ch = Some out ->
                   resultReady (snd (fst r)) ch = Some out.
Proof.
  induction more as [|t more IH]; intros s p w e Hph; [now split|].
  cbv zeta. cbn [runTicks].
  destruct (tick_returned t s p w e Hph) as [Hs Hk].
  destruct (tick env b ctx tasks t s p w) as [[s' p'] w']. cbn [fst snd] in *.
  subst s'. destruct (IH s p' w' e Hph) as [Hs' Hk']. split; auto.
Qed.

Lemma runTicks_app (l1 l2 : list Tick) :
  forall s p w,
    runTicks env b ctx tasks (l1 ++ l2) s p w
    = let '(s1, p1, w1) := runTicks env b ctx tasks l1 s p w in
      runTicks env b ctx tasks l2 s1 p1 w1.
Proof.
  induction l1 as [|t l1 IH]; intros s p w; [reflexivity|].
  cbn [app runTicks]. destruct (tick env b ctx tasks t s p w) as [[s' p'] w'].
  apply IH.
Qed.

Lemma runTicks_invariants (more : list Tick) :
  forall s p w,
    poolInv s p /\ builderInv tasks s ->
    let r := runTicks env b ctx tasks more s p w in
    poolInv (fst (fst r)) (snd (fst r)) /\ builderInv tasks (fst (fst r)).
Proof.
  induction more as [|t more IH]; intros s p w H; [exact H|].
  cbv zeta. cbn [runTicks].
  pose proof (tick_invariants env b ctx tasks t s p w H) as H'. cbv zeta in H'.
  destruct (tick env b ctx tasks t s p w) as [[s' p'] w']. now apply IH.
Qed.

(** The state of a download phase without cancellation, when the
    interleaving ends or the builder returns. *)
Lemma runPool_calm (sched : list Tick) (m : Live2dModel) (completed : nat)
    (w : World) :
  isDone ctx w = false -> ~ In TCancel sched -> NoDup (map result tasks) ->
  let r := runPool env b ctx tasks sched (startBuilder tasks m completed)
                   (startWorkerPool env tasks) w in
  calmInv env b ctx tasks m w (fst (fst r)) (snd (fst r)) (snd r).
Proof.
  intros Hd Hnc Hnd.
  apply (runPool_invariant env b ctx tasks (fun t => t <> TCancel)
           (calmInv env b ctx tasks m w)
           (fun t s p w' Ht H => tick_calmInv env b ctx tasks m w Hnd t s p w' Ht H)).
  - apply Forall_forall. intros t Ht ->. apply Hnc. now apply list_elem_of_In.
  - split; [exact Hd|]. split;
      [unfold pending; cbn; intros t; now rewrite app_nil_r|].
    split; [cbn; intros ch r Hr; apply lookup_replicate in Hr as [[=] _]|].
    split; [cbn; intros k ch r Hr; apply lookup_replicate in Hr as [[=] _]|].
    split; [reflexivity|]. cbn. split; [reflexivity|now exists []].
Qed.

End AfterReturn.

(** C2, as the code has it.  Under every interleaving, when the builder
    returns an error from the wait for the outcomes it is either the
    cancellation error, after outcomes without error only, or the error
    of the last outcome it received, the only one with an error: the
    builder returns on the first error it receives.  When it returns no
    error it has received one outcome per task, none with an error.
    Without cancellation the error it returns is that of the first
    task, in task order, whose outcome has one, whatever the order in
    which the workers finish.  After its return, whatever the workers
    go on to do, the builder receives nothing more, and an outcome that
    is in its result channel, at the return or later, stays there for
    ever.  No worker ever waits to deliver an outcome, before the return
    or after it: the result channel of a task has room when its outcome
    is sent. *)
Theorem first_error_returned_at_once
    (env : Env) (b : Live2dBuilder) (ctx : Context) (tasks : list downloadTask)
    (sched more later : list Tick) (m : Live2dModel) (completed : nat) (w : World) :
  map result tasks = seq 0 (length tasks) ->
  let r := runPool env b ctx tasks sched (startBuilder tasks m completed)
                   (startWorkerPool env tasks) w in
  let s := fst (fst r) in
  let p := snd (fst r) in
  let r1 := runTicks env b ctx tasks more s p (snd r) in
  let r2 := runTicks env b ctx tasks (more ++ later) s p (snd r) in
  length (received s) <= length tasks /\
  (forall e, phase s = Returned (Some e) ->
     (e = ErrCancelled /\ Forall noError (received s)) \/
     (exists oks last, received s = oks ++ [last] /\ Forall noError oks /\
                       err last = Some e)) /\
  (phase s = Returned None ->
     Forall noError (received s) /\ length (received s) = length tasks) /\
  (isDone ctx w = false -> ~ In TCancel sched ->
   forall e, phase s = Returned (Some e) -> firstError env b tasks = Some e) /\
  (forall e, phase s = Returned e ->
     fst (fst r1) = s /\ fst (fst r2) = s /\
     (forall ch out, resultReady p ch = Some out ->
                     resultReady (snd (fst r1)) ch = Some out) /\
     (forall ch out, resultReady (snd (fst r1)) ch = Some out ->
                     resultReady (snd (fst r2)) ch = Some out)) /\
  Forall notSending (workers p) /\
  Forall notSending (workers (snd (fst r1))).
Proof.
  intros Hids r s p r1 r2.
  pose proof (runPool_invariant env b ctx tasks (fun _ => True)
                (fun s p _ => poolInv s p /\ builderInv tasks s)) as Hinv.
  cbv zeta in Hinv.
  specialize (Hinv (fun t s p w _ H => tick_invariants env b ctx tasks t s p w H)
                sched _ _ w (Forall_true _ _ (fun _ => I))
                (start_invariants env tasks m completed Hids)).
  fold r in Hinv. fold s in Hinv. fold p in Hinv.
  pose proof (runTicks_invariants env b ctx tasks more s p (snd r) Hinv) as Hinv1.
  cbv zeta in Hinv1. fold r1 in Hinv1.
  destruct Hinv as [(_ & _ & Hws) Hb]. destruct Hinv1 as [(_ & _ & Hws1) _].
  unfold builderInv in Hb.
  assert (Hlen : length (received s) <= length tasks).
  { destruct (phase s) as [rest|rest|[e|]].
    - rewrite Hb. simpl. lia.
    - destruct Hb as [_ Hb]. lia.
    - now destruct Hb.
    - destruct Hb as [_ Hb]. lia. }
  split; [exact Hlen|].
  split.
  { intros e He. rewrite He in Hb. now destruct Hb. }
  split.
  { intros He. rewrite He in Hb. exact Hb. }
  split.
  { intros Hd Hnc e He.
    assert (Hnd : NoDup (map result tasks)) by (rewrite Hids; apply NoDup_seq).
    pose proof (runPool_calm env b ctx tasks sched m completed w Hd Hnc Hnd) as Hcalm.
    cbv zeta in Hcalm. fold r in Hcalm. fold s in Hcalm.
    destruct Hcalm as (_ & _ & _ & _ & _ & Hph). rewrite He in Hph.
    destruct Hph as (done & t & rest & -> & Hok & Herr).
    now apply firstError_some. }
  split; [|now split].
  intros e He.
  destruct (runTicks_returned env b ctx tasks more s p (snd r) e He) as [Hs1 Hk1].
  fold r1 in Hs1, Hk1.
  split; [exact Hs1|].
  assert (E2 : r2 = runTicks env b ctx tasks later (fst (fst r1)) (snd (fst r1))
                             (snd r1)).
  { unfold r2. rewrite runTicks_app. fold r1. now destruct r1 as [[s1 p1] w1]. }
  rewrite Hs1 in E2.
  destruct (runTicks_returned env b ctx tasks later s (snd (fst r1)) (snd r1) e He)
    as [Hs2 Hk2].
  rewrite <- E2 in Hs2, Hk2.
  split; [exact Hs2|]. split; [exact Hk1|exact Hk2].
Qed.

Lemma first_error_returned_at_once_witness :
  let env := Demo.env [(Demo.url "texture_00.png", ("image/png", "PNG"))] 2 1 in
  let b := Demo.builder env in
  let tasks := fst (prepared env ∅ (requiredFiles env b)) in
  let sched := [TBuilder false; TBuilder false; TBuilder false; TBuilder false;
                TWorker 0; TBuilder false; TWorker 1] in
  let more := [TWorker 0; TBuilder false; TWorker 1] in
  let r := runPool env b Background tasks sched
                   (startBuilder tasks emptyModel 0) (startWorkerPool env tasks)
                   Demo.world0 in
  let r1 := runTicks env b Background tasks more (fst (fst r)) (snd (fst r)) (snd r) in
  map result tasks = [0; 1; 2] /\
  phase (fst (fst r)) = Returned (Some (ErrDownloadFailed (ErrHTTPStatus 404))) /\
  firstError env b tasks = Some (ErrDownloadFailed (ErrHTTPStatus 404)) /\
  resultReady (snd (fst r)) 1 = None /\
  resultReady (snd (fst r1)) 1 = Some (mkResult "data/physics.json" None) /\
  resultReady (snd (fst r1)) 2
  = Some (mkResult "data/textures/texture_00.png" None) /\
  fst (fst r1) = fst (fst r) /\
  Forall notSending (workers (snd (fst r1))).
Proof.
  intros env b tasks sched more r r1.
  destruct (first_error_returned_at_once env b Background tasks sched more []
              emptyModel 0 Demo.world0 eq_refl)
    as (_ & _ & _ & Hfirst & Hafter & _ & Hws).
  fold r in Hfirst, Hafter, Hws. fold r1 in Hafter, Hws.
  assert (Hret : phase (fst (fst r))
                 = Returned (Some (ErrDownloadFailed (ErrHTTPStatus 404))))
    by (vm_compute; reflexivity).
  assert (Hcalm : ~ In TCancel sched).
  { intros H. cbn in H. intuition discriminate. }
  split; [reflexivity|]. split; [exact Hret|].
  split; [exact (Hfirst eq_refl Hcalm _ Hret)|].
  split; [vm_compute; reflexivity|].
  split; [vm_compute; reflexivity|].
  split; [vm_compute; reflexivity|].
  split; [exact (proj1 (Hafter _ Hret))|exact Hws].
Defined.

(** The download phase without cancellation, for tasks numbered as
    [prepareDownloadTasks] numbers them.  Whatever the interleaving of
    the workers and the builder, [handleDownloadTasks], when it returns,
    returns what the tasks give when they are taken one after the other
    in task order: the accumulator after the outcome of every task, or
    the error of the first task that has one.  And it does return, with
    that, under the round-robin interleaving if there is a worker. *)
Theorem download_phase_is_sequential
    (env : Env) (b : Live2dBuilder) (ctx : Context) (tasks : list downloadTask)
    (m : Live2dModel) (completed : nat) (w : World) :
  isDone ctx w = false -> map result tasks = seq 0 (length tasks) ->
  (forall sched,
     ~ In TCancel sched ->
     let r := fst (handleDownloadTasks env b ctx sched tasks m completed w) in
     r = Blocked \/ r = downloadOutcome env b m tasks) /\
  (1 <= MaxConcurrentDownloads env ->
   fst (handleDownloadTasks env b ctx (roundRobin (length tasks)) tasks m completed w)
   = downloadOutcome env b m tasks).
Proof.
  intros Hd Hids.
  assert (Hnd : NoDup (map result tasks)) by (rewrite Hids; apply NoDup_seq).
  split.
  - intros sched Hnc. now apply handleDownloadTasks_sequential.
  - intros Hworkers.
    destruct (handleDownloadTasks_sequential env b ctx tasks
                (roundRobin (length tasks)) m completed w Hd
                (roundRobin_calm _) Hnd) as [Hb|Hr]; [|exact Hr].
    now apply handleDownloadTasks_roundRobin in Hb.
Qed.

Lemma download_phase_is_sequential_witness :
  let env := Demo.env [(Demo.url "texture_00.png", ("image/png", "PNG"))] 2 1 in
  let b := Demo.builder env in
  let tasks := fst (prepared env ∅ (requiredFiles env b)) in
  let sched := [TBuilder false; TBuilder false; TWorker 1; TBuilder false;
                TWorker 0; TBuilder true; TBuilder true; TWorker 1;
                TBuilder false] in
  fst (handleDownloadTasks env b Background sched tasks emptyModel 0 Demo.world0)
  = Fail (ErrDownloadFailed (ErrHTTPStatus 404)) /\
  fst (handleDownloadTasks env b Background (roundRobin 3) tasks emptyModel 0
                           Demo.world0)
  = Fail (ErrDownloadFailed (ErrHTTPStatus 404)).
Proof.
  cbv zeta.
  match goal with
  | |- fst (handleDownloadTasks ?e ?b ?c ?sched ?tasks ?m ?n ?w) = _ /\ _ =>
      destruct (download_phase_is_sequential e b c tasks m n w eq_refl eq_refl)
        as [Hall Hlive];
      specialize (Hall sched); specialize (Hlive ltac:(vm_compute; lia))
  end.
  split.
  - destruct Hall as [Hb|Hr].
    + intros [H|[H|[H|[H|[H|[H|[H|[H|[H|[]]]]]]]]]]; discriminate.
    + vm_compute in Hb. discriminate.
    + rewrite Hr. vm_compute. reflexivity.
  - etransitivity; [exact Hlive|vm_compute; reflexivity].
Defined.

Section Idle.

Variables (env : Env) (b : Live2dBuilder) (ctx : Context).
Variables (tasks : list downloadTask) (w0 : World).

Hypothesis someTask : tasks <> [].

Lemma isDone_setDone (w : World) :
  isDone ctx w = true -> isDone ctx (setDone w) = true.
Proof. now destruct ctx. Qed.

Lemma isDone_tuiEmit (e : Event) (w : World) :
  isDone ctx (tuiEmit b e w) = isDone ctx w.
Proof. unfold tuiEmit. destruct (hasTui (downloader b)), ctx; reflexivity. Qed.

Lemma fs_tuiEmit (e : Event) (w : World) : fs (tuiEmit b e w) = fs w.
Proof. unfold tuiEmit. now destruct (hasTui (downloader b)). Qed.

Lemma builderStep_isDone (coin : bool) (s : BuilderState) (p : Pool) (w : World) :
  isDone ctx (snd (builderStep b ctx tasks coin s p w)) = isDone ctx w.
Proof.
  unfold builderStep, returnError.
  destruct (phase s) as [[|task rest]|[|task rest]|e]; try reflexivity.
  - destruct (select2 _ _ _) as [[|]|]; reflexivity.
  - destruct (select2 _ _ _) as [[|]|]; cbn [snd].
    + apply isDone_tuiEmit.
    + destruct (resultReady p (result task)) as [r|]; [|reflexivity].
      destruct (err r); cbn [snd]; apply isDone_tuiEmit.
    + destruct (resultReady p (result task)); reflexivity.
Qed.

(** Without workers a turn leaves the builder waiting, or returns the
    cancellation error once the signal has fired; apart from the signal
    itself, a turn does not change whether it has. *)
Lemma tick_idleInv (t : Tick) (s : BuilderState) (p : Pool) (w : World) :
  idleInv ctx w0 s p w ->
  let r := tick env b ctx tasks t s p w in
  idleInv ctx w0 (fst (fst r)) (snd (fst r)) (snd r) /\
  (t <> TCancel -> isDone ctx (snd r) = isDone ctx w).
Proof.
  intros (Hws & Hch & Hfs & Hph). cbv zeta.
  destruct t as [|k|coin]; cbn [tick].
  - split; [|intros H; now contradiction H]. cbn [fst snd].
    split; [exact Hws|]. split; [exact Hch|]. split; [exact Hfs|].
    destruct (phase s) as [| |[e|]]; try exact Hph.
    destruct Hph as [-> Hd]. split; [reflexivity|now apply isDone_setDone].
  - unfold workerStep. rewrite Hws. cbn [fst snd].
    split; [|reflexivity]. now repeat split.
  - split; [|intros _; apply builderStep_isDone].
    unfold builderStep.
    destruct (phase s) as [[|task rest]|[|task rest]|e] eqn:Eph.
    + cbn [fst snd setPhase phase closeTaskChan workers]. now repeat split.
    + destruct (isDone ctx w) eqn:Hd, coin; cbn [select2 fst snd setPhase phase];
        repeat split; try assumption; reflexivity.
    + now contradiction Hph.
    + rewrite Hch.
      rewrite (bool_decide_eq_false_2 (is_Some None)) by (intros [x Hx]; discriminate).
      destruct (isDone ctx w) eqn:Hd; cbn [select2].
      * unfold returnError. cbn [fst snd setPhase phase].
        split; [exact Hws|]. split; [exact Hch|].
        split; [now rewrite fs_tuiEmit|].
        split; [reflexivity|]. now rewrite isDone_tuiEmit.
      * cbn [fst snd]. unfold idleInv. rewrite Eph. now repeat split.
    + cbn [fst snd]. unfold idleInv. rewrite Eph. now repeat split.
Qed.

Lemma start_idleInv (m : Live2dModel) (completed : nat) :
  MaxConcurrentDownloads env = 0 ->
  idleInv ctx w0 (startBuilder tasks m completed) (startWorkerPool env tasks) w0.
Proof.
  intros H0. unfold idleInv, startWorkerPool, startBuilder, resultReady.
  cbn [workers resultChans phase]. rewrite H0.
  split; [reflexivity|]. split; [|now split].
  intros ch. destruct (replicate (length tasks) None !! ch) as [x|] eqn:E;
    [|reflexivity].
  apply lookup_replicate in E as [-> _]. reflexivity.
Qed.

End Idle.

(** A download phase without a worker ([MaxConcurrentDownloads] is 0)
    that has a task: no outcome ever comes, so the builder waits for
    ever unless the cancellation signal fires, and then it returns the
    cancellation error.  No file changes. *)
Theorem download_phase_without_workers
    (env : Env) (b : Live2dBuilder) (ctx : Context) (tasks : list downloadTask)
    (sched : list Tick) (m : Live2dModel) (completed : nat) (w : World) :
  MaxConcurrentDownloads env = 0 -> tasks <> [] ->
  let r := handleDownloadTasks env b ctx sched tasks m completed w in
  (fst r = Blocked \/ (fst r = Fail ErrCancelled /\ isDone ctx (snd r) = true)) /\
  fs (snd r) = fs w /\
  (isDone ctx w = false -> ~ In TCancel sched -> fst r = Blocked).
Proof.
  intros H0 Hne. cbv zeta. unfold handleDownloadTasks.
  destruct tasks as [|t0 l] eqn:Et; [now contradiction Hne|]. rewrite <- Et in *.
  pose proof (runPool_invariant env b ctx tasks (fun _ => True)
                (fun s p w' => idleInv ctx w s p w')) as Hinv.
  pose proof (runPool_invariant env b ctx tasks (fun t => t <> TCancel)
                (fun s p w' => idleInv ctx w s p w' /\ isDone ctx w' = isDone ctx w))
    as Hcalm.
  cbv zeta in Hinv, Hcalm.
  specialize (Hinv (fun t s p w' _ H =>
                      proj1 (tick_idleInv env b ctx tasks w Hne t s p w' H))
                sched _ _ w (Forall_true _ _ (fun _ => I))
                (start_idleInv env ctx tasks w m completed H0)).
  assert (Hstep : forall t s p w', t <> TCancel ->
            idleInv ctx w s p w' /\ isDone ctx w' = isDone ctx w ->
            idleInv ctx w (fst (fst (tick env b ctx tasks t s p w')))
                    (snd (fst (tick env b ctx tasks t s p w')))
                    (snd (tick env b ctx tasks t s p w')) /\
            isDone ctx (snd (tick env b ctx tasks t s p w')) = isDone ctx w).
  { intros t s p w' Ht [Hi Hd].
    destruct (tick_idleInv env b ctx tasks w Hne t s p w' Hi) as [Hi' Hd'].
    split; [exact Hi'|]. now rewrite (Hd' Ht). }
  specialize (Hcalm Hstep sched (startBuilder tasks m completed)
                (startWorkerPool env tasks) w).
  destruct (runPool env b ctx tasks sched (startBuilder tasks m completed)
              (startWorkerPool env tasks) w) as [[s p] w'].
  cbn [fst snd] in *.
  destruct Hinv as (_ & _ & Hfs & Hph).
  destruct (phase s) as [rest|rest|[e|]] eqn:Eph; cbn [fst snd].
  - split; [now left|]. split; [exact Hfs|]. reflexivity.
  - split; [now left|]. split; [exact Hfs|]. reflexivity.
  - destruct Hph as [-> Hd]. split; [now right|]. split; [exact Hfs|].
    intros Hd0 Hnc. exfalso.
    destruct Hcalm as [_ Hd'].
    + apply Forall_forall. intros t Ht ->. apply Hnc. now apply list_elem_of_In.
    + split; [|reflexivity]. apply start_idleInv. exact H0.
    + congruence.
  - now contradiction Hph.
Qed.

Lemma download_phase_without_workers_witness :
  let env := Demo.env [] 0 1 in
  let b := Demo.builder env in
  let tasks := fst (prepared env ∅ (requiredFiles env b)) in
  fst (handleDownloadTasks env b Background
         (roundRobin 3 ++ [TWorker 0; TBuilder true; TWorker 1; TBuilder false])
         tasks emptyModel 0 Demo.world0)
  = Blocked.
Proof.
  cbv zeta.
  match goal with
  | |- fst (handleDownloadTasks ?e ?b ?c ?sched ?tasks ?m ?n ?w) = _ =>
      destruct (download_phase_without_workers e b c tasks sched m n w eq_refl)
        as (_ & _ & H)
  end.
  - discriminate.
  - apply H; [reflexivity|].
    intros Hin. apply in_app_iff in Hin as [Hin|Hin].
    + now apply roundRobin_calm in Hin.
    + destruct Hin as [Hin|[Hin|[Hin|[Hin|[]]]]]; discriminate.
Defined.

Section Cancelled.

Variables (env : Env) (b : Live2dBuilder) (ctx : Context).
Variables (tasks : list downloadTask) (w0 : World).

Lemma cancelledInv_tuiEmit (e : Event) (w : World) :
  tuiOnly e -> cancelledInv ctx w0 w -> cancelledInv ctx w0 (tuiEmit b e w).
Proof.
  intros He (Hd & Hfs & evs & Htr & Hevs).
  split; [now rewrite (isDone_tuiEmit b ctx)|].
  split; [now rewrite (fs_tuiEmit b)|].
  exists (evs ++ (if hasTui (downloader b) then [e] else [])).
  rewrite (tuiEmit_trace b), Htr, <- app_assoc. split; [reflexivity|].
  apply Forall_app. split; [exact Hevs|].
  destruct (hasTui (downloader b)); now repeat constructor.
Qed.

(** Under a cancelled context a turn makes no request and changes no
    file: a worker that takes a task drops it. *)
Lemma tick_cancelledInv (t : Tick) (s : BuilderState) (p : Pool) (w : World) :
  cancelledInv ctx w0 w -> cancelledInv ctx w0 (snd (tick env b ctx tasks t s p w)).
Proof.
  intros Hinv. pose proof Hinv as (Hd & Hfs & evs & Htr & Hevs).
  destruct t as [|k|coin]; cbn [tick].
  - cbn [snd]. split; [now apply isDone_setDone|]. split; [exact Hfs|].
    exists evs. now split.
  - unfold workerStep.
    destruct (workers p !! k) as [[| | |]|]; try exact Hinv.
    destruct (taskChan p) as [|task q].
    + destruct (taskChanClosed p); exact Hinv.
    + rewrite Hd. destruct (errorChan _); exact Hinv.
  - unfold builderStep, returnError.
    destruct (phase s) as [[|task rest]|[|task rest]|e]; try exact Hinv.
    + destruct (select2 _ _ _) as [[|]|]; exact Hinv.
    + destruct (select2 _ _ _) as [[|]|]; cbn [snd].
      * now apply cancelledInv_tuiEmit.
      * destruct (resultReady p (result task)) as [r|]; [|exact Hinv].
        destruct (err r); cbn [snd]; now apply cancelledInv_tuiEmit.
      * destruct (resultReady p (result task)); exact Hinv.
Qed.

(** Under a context cancelled from the start no worker sends an outcome,
    so the builder can only return the cancellation error. *)
Lemma tick_silentInv (t : Tick) (s : BuilderState) (p : Pool) (w : World) :
  tasks <> [] ->
  silentInv ctx tasks s p w ->
  let r := tick env b ctx tasks t s p w in
  silentInv ctx tasks (fst (fst r)) (snd (fst r)) (snd r).
Proof.
  intros Hne Hinv. pose proof Hinv as (Hd & Hres & Hws & Hph). cbv zeta.
  destruct t as [|k|coin]; cbn [tick].
  - cbn [fst snd]. split; [now apply isDone_setDone|]. now split.
  - unfold workerStep.
    destruct (workers p !! k) as [[|ch r| |]|] eqn:Ek; try exact Hinv.
    + destruct (taskChan p) as [|task q].
      * destruct (taskChanClosed p); [|exact Hinv]. cbn [fst snd].
        split; [exact Hd|]. split; [exact Hres|].
        split; [now apply notSending_insert|exact Hph].
      * rewrite Hd. destruct (errorChan _); cbn [fst snd];
          (split; [exact Hd|]); (split; [exact Hres|]);
          (split; [now apply notSending_insert|exact Hph]).
    + rewrite Forall_forall in Hws.
      now apply list_elem_of_lookup_2, Hws in Ek.
  - unfold builderStep, returnError.
    destruct (phase s) as [[|task rest]|[|task rest]|e] eqn:Eph; cbn [fst snd].
    + split; [exact Hd|]. split; [exact Hres|]. now split.
    + destruct (select2 _ _ _) as [[|]|]; cbn [fst snd];
        (split; [exact Hd|]); (split; [exact Hres|]); now split.
    + now subst tasks.
    + rewrite (Hres (result task)), Hd. cbn [select2].
      rewrite bool_decide_eq_false_2 by (intros [x [=]]). cbn [fst snd].
      split; [now rewrite (isDone_tuiEmit b ctx)|]. split; [exact Hres|].
      now split.
    + exact Hinv.
Qed.

End Cancelled.

(** [handleDownloadTasks] started under a context that is already
    cancelled downloads nothing, whatever the interleaving: it makes no
    request and changes no file, a worker that takes a task drops it,
    and the only events are calls on the TUI model.  When it has a task
    it never returns anything but the cancellation error. *)
Theorem cancelled_start_downloads_nothing
    (env : Env) (b : Live2dBuilder) (tasks : list downloadTask) (sched : list Tick)
    (m : Live2dModel) (completed : nat) (w : World) :
  ctxDone w = true ->
  let r := handleDownloadTasks env b TuiCtx sched tasks m completed w in
  fs (snd r) = fs w /\
  (exists evs, trace (snd r) = trace w ++ evs /\ Forall tuiOnly evs) /\
  (tasks <> [] -> fst r = Blocked \/ fst r = Fail ErrCancelled).
Proof.
  intros Hd. cbv zeta. unfold handleDownloadTasks.
  assert (Hstart : cancelledInv TuiCtx w w).
  { split; [exact Hd|]. split; [reflexivity|]. exists [].
    rewrite app_nil_r. split; [reflexivity|constructor]. }
  destruct tasks as [|t l] eqn:Et.
  { destruct Hstart as (_ & Hfs & Hevs). split; [exact Hfs|].
    split; [exact Hevs|]. now intros H. }
  rewrite <- Et.
  assert (Hne : tasks <> []) by (rewrite Et; discriminate).
  pose proof (runPool_invariant env b TuiCtx tasks (fun _ => True)
                (fun s p w' => cancelledInv TuiCtx w w' /\ silentInv TuiCtx tasks s p w'))
    as Hinv.
  cbv zeta in Hinv.
  specialize (Hinv (fun t s p w' _ H =>
                      conj (tick_cancelledInv env b TuiCtx tasks w t s p w' (proj1 H))
                           (tick_silentInv env b TuiCtx tasks t s p w' Hne (proj2 H)))
                sched (startBuilder tasks m completed) (startWorkerPool env tasks) w
                (Forall_true _ _ (fun _ => I))).
  destruct Hinv as [(_ & Hfs & Hevs) (_ & _ & _ & Hph)].
  { split; [exact Hstart|]. split; [exact Hd|]. split.
    - intros ch. unfold resultReady. cbn [resultChans startWorkerPool].
      destruct (replicate (length tasks) None !! ch) as [[r|]|] eqn:E;
        try reflexivity.
      apply lookup_replicate in E as [[=] _].
    - split; [now apply Forall_replicate|exact I]. }
  destruct (runPool env b TuiCtx tasks sched _ _ w) as [[s p] w'].
  cbn [fst snd] in *.
  destruct (phase s) as [| |[e|]]; cbn [fst snd];
    (split; [exact Hfs|]); (split; [exact Hevs|]); intros _; auto; try discriminate.
  injection Hph as ->. now right.
Qed.

Lemma cancelled_start_downloads_nothing_witness :
  let env := Demo.env [(Demo.url "model.moc", ("application/octet-stream", "MOC"))]
                      2 1 in
  let b := NewLive2dBuilder env "out/anon" Demo.buildData (mkDownloader true true)
                            "anon" in
  let tasks := fst (prepared env ∅ (requiredFiles env b)) in
  let r := handleDownloadTasks env b TuiCtx (roundRobin 3) tasks emptyModel 0
                               (setDone Demo.world0) in
  fs (snd r) = ∅ /\ fst r = Fail ErrCancelled.
Proof.
  cbv zeta.
  match goal with
  | |- fs (snd (handleDownloadTasks ?e ?b _ ?sched ?tasks ?m ?n ?w)) = _ /\ _ =>
      destruct (cancelled_start_downloads_nothing e b tasks sched m n w eq_refl)
        as (Hfs & _ & _)
  end.
  split; [exact Hfs|vm_compute; reflexivity].
Defined.

Section Stuck.

Variables (env : Env) (b : Live2dBuilder) (ctx : Context).
Variable tasks : list downloadTask.

(** A turn of worker [j] leaves every other worker as it is, and the
    error channel as it is once it holds an error. *)
Lemma workerStep_others (j k : nat) (p : Pool) (w : World) :
  j <> k ->
  workers (fst (workerStep env b ctx j p w)) !! k = workers p !! k.
Proof.
  intros Hjk. unfold workerStep, sendResult.
  destruct (workers p !! j) as [[|ch r| |]|]; try reflexivity.
  - destruct (taskChan p) as [|task q].
    + destruct (taskChanClosed p); cbn [fst setWorker workers];
        [now rewrite list_lookup_insert_ne|reflexivity].
    + destruct (isDone ctx w).
      * destruct (errorChan _); cbn [fst setWorker setErrorChan setTaskChan workers];
          now rewrite list_lookup_insert_ne.
      * destruct (workerResult env b ctx task w) as [r w']. cbn [fst].
        destruct (resultChans _ !! result task) as [[x|]|];
          cbn [setWorker setResultChan setTaskChan workers];
          now rewrite list_lookup_insert_ne.
  - cbn [fst].
    destruct (resultChans p !! ch) as [[x|]|];
      cbn [setWorker setResultChan workers]; now rewrite list_lookup_insert_ne.
Qed.

Lemma workerStep_errorChan (j : nat) (p : Pool) (w : World) (e : error) :
  errorChan p = Some e -> errorChan (fst (workerStep env b ctx j p w)) = Some e.
Proof.
  intros He. unfold workerStep, sendResult.
  destruct (workers p !! j) as [[|ch r| |]|]; try exact He.
  - destruct (taskChan p) as [|task q].
    + destruct (taskChanClosed p); exact He.
    + destruct (isDone ctx w).
      * cbn [setTaskChan errorChan]. rewrite He. exact He.
      * destruct (workerResult env b ctx task w) as [r w']. cbn [fst].
        destruct (resultChans _ !! result task) as [[x|]|]; exact He.
  - cbn [fst]. destruct (resultChans p !! ch) as [[x|]|]; exact He.
Qed.

Lemma builderStep_workers (coin : bool) (s : BuilderState) (p : Pool) (w : World) :
  workers (snd (fst (builderStep b ctx tasks coin s p w))) = workers p /\
  errorChan (snd (fst (builderStep b ctx tasks coin s p w))) = errorChan p.
Proof.
  unfold builderStep, returnError.
  destruct (phase s) as [[|task rest]|[|task rest]|e]; try now split.
  - destruct (select2 _ _ _) as [[|]|]; now split.
  - destruct (select2 _ _ _) as [[|]|]; try now split.
    destruct (resultReady p (result task)) as [r|]; [|now split].
    destruct (err r); now split.
Qed.

Lemma tick_stuck (t : Tick) (s : BuilderState) (p : Pool) (w : World) :
  let p' := snd (fst (tick env b ctx tasks t s p w)) in
  (forall k, workers p !! k = Some WStuck -> workers p' !! k = Some WStuck) /\
  (forall e, errorChan p = Some e -> errorChan p' = Some e).
Proof.
  cbv zeta. destruct t as [|j|coin]; cbn [tick].
  - now split.
  - pose proof (fun k => workerStep_others j k p w) as Hk.
    pose proof (workerStep_errorChan j p w) as He.
    destruct (workerStep env b ctx j p w) as [p' w'] eqn:E. cbn [fst snd] in *.
    split; [|exact He]. intros k Hs.
    destruct (decide (j = k)) as [->|Hjk]; [|now rewrite Hk].
    unfold workerStep in E. rewrite Hs in E. now injection E as <- _.
  - destruct (builderStep_workers coin s p w) as [Hws He].
    split; [intros k; now rewrite Hws|intros e; now rewrite He].
Qed.

Lemma runTicks_stuck (sched : list Tick) :
  forall s p w,
    let p' := snd (fst (runTicks env b ctx tasks sched s p w)) in
    (forall k, workers p !! k = Some WStuck -> workers p' !! k = Some WStuck) /\
    (forall e, errorChan p = Some e -> errorChan p' = Some e).
Proof.
  induction sched as [|t sched IH]; intros s p w; [now split|].
  cbv zeta. cbn [runTicks]. destruct (tick_stuck t s p w) as [H1 H2].
  destruct (tick env b ctx tasks t s p w) as [[s' p'] w']. cbn [fst snd] in *.
  destruct (IH s' p' w') as [H3 H4]. split; auto.
Qed.

End Stuck.

(** The error channel of a download phase is never received from.  So
    once it holds the cancellation error of one worker it holds it for
    ever, and any other worker that takes a task under the cancelled
    context waits on it for ever: it drops the task, whose result
    channel gets no outcome, and, whatever happens next, it never
    returns. *)
Theorem stuck_worker_never_returns
    (env : Env) (b : Live2dBuilder) (ctx : Context) (tasks : list downloadTask) :
  (forall s p w k task q e,
     isDone ctx w = true -> workers p !! k = Some WLoop ->
     taskChan p = task :: q -> errorChan p = Some e ->
     let r := tick env b ctx tasks (TWorker k) s p w in
     workers (snd (fst r)) !! k = Some WStuck /\
     taskChan (snd (fst r)) = q /\
     resultChans (snd (fst r)) = resultChans p /\ snd r = w) /\
  (forall sched s p w,
     let p' := snd (fst (runTicks env b ctx tasks sched s p w)) in
     (forall k, workers p !! k = Some WStuck -> workers p' !! k = Some WStuck) /\
     (forall e, errorChan p = Some e -> errorChan p' = Some e)).
Proof.
  split.
  - intros s p w k task q e Hd Hk Hq He. cbv zeta. cbn [tick].
    unfold workerStep. rewrite Hk, Hq, Hd. cbn [setTaskChan errorChan].
    rewrite He. cbn [fst snd setWorker workers taskChan resultChans].
    split; [|now repeat split].
    apply list_lookup_insert_eq. now apply lookup_lt_Some in Hk.
  - intros sched s p w. apply runTicks_stuck.
Qed.

Lemma stuck_worker_never_returns_witness :
  let env := Demo.env [] 2 1 in
  let b := NewLive2dBuilder env "out/anon" Demo.buildData (mkDownloader true true)
                            "anon" in
  let tasks := fst (prepared env ∅ (requiredFiles env b)) in
  let start := runTicks env b TuiCtx tasks
                 [TBuilder false; TBuilder false; TBuilder false; TCancel;
                  TWorker 0; TWorker 1]
                 (startBuilder tasks emptyModel 0) (startWorkerPool env tasks)
                 Demo.world0 in
  let later := runTicks env b TuiCtx tasks
                 [TWorker 1; TBuilder true; TWorker 0; TWorker 1; TBuilder false]
                 (fst (fst start)) (snd (fst start)) (snd start) in
  workers (snd (fst start)) = [WReturned; WStuck] /\
  errorChan (snd (fst start)) = Some ErrCancelled /\
  workers (snd (fst later)) !! 1 = Some WStuck.
Proof.
  cbv zeta. split; [vm_compute; reflexivity|]. split; [vm_compute; reflexivity|].
  match goal with
  | |- workers (snd (fst (runTicks ?e ?b ?c ?tasks ?sched ?s ?p ?w))) !! _ = _ =>
      destruct (stuck_worker_never_returns e b c tasks) as [_ H];
      destruct (H sched s p w) as [Hk _]
  end.
  apply Hk. vm_compute. reflexivity.
Defined.

(* ===================================================================== *)
(** * What a successful build leaves on disk                              *)
(* ===================================================================== *)

Section Made.

Variables (env : Env) (b : Live2dBuilder) (ctx : Context).
Variable tasks : list downloadTask.

Hypothesis distinctChannels : NoDup (map result tasks).

Lemma onDisk_kept (w w' : World) (t : downloadTask) :
  (forall p, is_Some (fs w !! p) -> is_Some (fs w' !! p)) ->
  onDisk w t -> onDisk w' t.
Proof. intros Hk Hm Hc. apply Hk, Hm, Hc. Qed.

Lemma honest_kept (w w' : World) (t : downloadTask) (r : downloadResult) :
  (forall p, is_Some (fs w !! p) -> is_Some (fs w' !! p)) ->
  honest w t r -> honest w' t r.
Proof. intros Hk Hm He. eapply onDisk_kept; [exact Hk|]. now apply Hm. Qed.

(** The outcome of a worker is honest: it has no error for a mandatory
    file only after the file has been created and copied to. *)
Lemma workerResult_honest (t : downloadTask) (w : World) :
  honest (snd (workerResult env b ctx t w)) t (fst (workerResult env b ctx t w)).
Proof.
  unfold honest, onDisk, workerResult,
    DownloadBundleFile, createDownloadRequest, createFileAndDirectory,
    writeFileContent, osMkdirAll, osCreate, ioCopy, validateResponse.
  monad_unfold.
  destruct (isDone ctx w); [discriminate|].
  destruct (newRequestErr env (downloadURL env (bundleFile t))); [discriminate|].
  destruct (httpDo env (downloadURL env (bundleFile t))) as [resp|]; [|discriminate].
  destruct (allowNotFound t) eqn:Ea.
  { repeat match goal with
           | |- context [if ?c then _ else _] => destruct c; cbn
           | |- context [match ?c with _ => _ end] => destruct c; cbn
           end; discriminate. }
  cbn [andb].
  destruct (negb (StatusCode resp =? StatusOK)%Z); [discriminate|].
  destruct (HasPrefix (ContentType resp) "text/html"); [discriminate|].
  destruct (mkdirErr env (Dir env (filePath t))); [discriminate|].
  destruct (createErr env (filePath t)); [discriminate|].
  destruct (BodyErr resp) as [[|]|]; cbn; try discriminate.
  destruct (Rel env (path b) (filePath t)); cbn; intros _ _;
    rewrite lookup_insert_eq; eauto.
Qed.

Lemma madeInv_sendResult (k : nat) (t : downloadTask) (r : downloadResult)
    (s : BuilderState) (p : Pool) (w : World) :
  In t tasks -> honest w t r ->
  (forall t', In t' (pending s p) -> In t' tasks) ->
  (forall t' r', In t' tasks -> resultChans p !! result t' = Some (Some r') ->
                 honest w t' r') ->
  (forall k' t' r', In t' tasks -> workers p !! k' = Some (WSending (result t') r') ->
                    honest w t' r') ->
  let p' := sendResult k (result t) r p in
  (forall t', In t' (pending s p') -> In t' tasks) /\
  (forall t' r', In t' tasks -> resultChans p' !! result t' = Some (Some r') ->
                 honest w t' r') /\
  (forall k' t' r', In t' tasks -> workers p' !! k' = Some (WSending (result t') r') ->
                    honest w t' r').
Proof.
  intros Ht Hm H1 H2 H3. cbv zeta. unfold sendResult.
  destruct (resultChans p !! result t) as [[x|]|] eqn:Ech.
  - split; [exact H1|]. split; [exact H2|].
    intros k' t' r' Ht' Hw. cbn [setWorker workers] in Hw.
    apply list_lookup_insert_Some in Hw as [(-> & [= Hres ->] & _)|(_ & Hw)].
    + rewrite (same_channel_same_task tasks distinctChannels t' t Ht' Ht); auto.
    + eapply H3; eauto.
  - split; [exact H1|]. split.
    + intros t' r' Ht' Hc. cbn [setWorker setResultChan resultChans] in Hc.
      apply list_lookup_insert_Some in Hc as [(Hres & [= ->] & _)|(_ & Hc)].
      * rewrite (same_channel_same_task tasks distinctChannels t' t Ht' Ht); auto.
      * eapply H2; eauto.
    + intros k' t' r' Ht' Hw. cbn [setWorker setResultChan workers] in Hw.
      apply list_lookup_insert_Some in Hw as [(_ & [=] & _)|(_ & Hw)].
      eapply H3; eauto.
  - split; [exact H1|]. split; [exact H2|].
    intros k' t' r' Ht' Hw. cbn [setWorker workers] in Hw.
    apply list_lookup_insert_Some in Hw as [(-> & [= Hres ->] & _)|(_ & Hw)].
    + rewrite (same_channel_same_task tasks distinctChannels t' t Ht' Ht); auto.
    + eapply H3; eauto.
Qed.

Lemma pending_setTaskChan (s : BuilderState) (p : Pool) (task : downloadTask)
    (q : list downloadTask) :
  taskChan p = task :: q ->
  In task (pending s p) /\
  forall t, In t (pending s (setTaskChan q p)) -> In t (pending s p).
Proof.
  intros Eq. unfold pending. cbn [setTaskChan taskChan]. rewrite Eq.
  destruct (phase s); split; try intros t; rewrite ?in_app_iff; cbn [In]; tauto.
Qed.

Lemma workerStep_madeInv (k : nat) (s : BuilderState) (p : Pool) (w : World) :
  madeInv tasks s p w ->
  let r := workerStep env b ctx k p w in
  madeInv tasks s (fst r) (snd r).
Proof.
  intros (H1 & H2 & H3 & Hph). cbv zeta. unfold workerStep.
  assert (Hidle : forall ws p',
            (forall ch r, ws <> WSending ch r) -> workers p' = workers p ->
            forall k' t' r', In t' tasks ->
              <[k := ws]> (workers p') !! k' = Some (WSending (result t') r') ->
              honest w t' r').
  { intros ws p' Hws Hp' k' t' r' Ht' Hw. rewrite Hp' in Hw.
    apply list_lookup_insert_Some in Hw as [(_ & Heq & _)|(_ & Hw)].
    - now apply Hws in Heq.
    - eapply H3; eauto. }
  destruct (workers p !! k) as [[|ch r| |]|] eqn:Ek; try (now repeat split).
  - destruct (taskChan p) as [|task q] eqn:Eq.
    + destruct (taskChanClosed p); [|now repeat split]. cbn [fst snd].
      split; [exact H1|]. split; [exact H2|]. split; [|exact Hph].
      apply Hidle; [discriminate|reflexivity].
    + destruct (pending_setTaskChan s p task q Eq) as [Hin Hpend].
      assert (Htask : In task tasks) by now apply H1.
      destruct (isDone ctx w) eqn:Hd.
      * destruct (errorChan (setTaskChan q p)); cbn [fst snd];
          (split; [intros t Ht; now apply H1, Hpend|]);
          (split; [exact H2|]); (split; [|exact Hph]);
          (apply Hidle; [discriminate|reflexivity]).
      * pose proof (workerResult_quiet env b ctx task w) as (_ & Hkeep & _).
        pose proof (workerResult_honest task w) as Hmade.
        destruct (workerResult env b ctx task w) as [r w']. cbn [fst snd] in *.
        destruct (madeInv_sendResult k task r s (setTaskChan q p) w' Htask Hmade)
          as (H1' & H2' & H3').
        -- intros t Ht. now apply H1, Hpend.
        -- intros t' r' Ht' Hc. eapply honest_kept; [exact Hkeep|]. eapply H2; eauto.
        -- intros k' t' r' Ht' Hw. eapply honest_kept; [exact Hkeep|]. eapply H3; eauto.
        -- split; [exact H1'|]. split; [exact H2'|]. split; [exact H3'|].
           destruct (phase s) as [rest|rest|[e|]]; try exact Hph.
           ++ destruct Hph as (done & Hd' & Hdone). exists done. split; [exact Hd'|].
              eapply Forall_impl; [exact Hdone|]. intros t. now apply onDisk_kept.
           ++ eapply Forall_impl; [exact Hph|]. intros t. now apply onDisk_kept.
  - cbn [fst snd]. unfold sendResult.
    destruct (resultChans p !! ch) as [[x|]|] eqn:Ech.
    + split; [exact H1|]. split; [exact H2|]. split; [|exact Hph].
      intros k' t' r' Ht' Hw. cbn [setWorker workers] in Hw.
      apply list_lookup_insert_Some in Hw as [(-> & [= -> ->] & _)|(_ & Hw)];
        eapply H3; eauto.
    + split; [exact H1|]. split; [|split; [|exact Hph]].
      * intros t' r' Ht' Hc. cbn [setWorker setResultChan resultChans] in Hc.
        apply list_lookup_insert_Some in Hc as [(-> & [= ->] & _)|(_ & Hc)].
        -- eapply H3; eauto.
        -- eapply H2; eauto.
      * apply Hidle; [discriminate|reflexivity].
    + split; [exact H1|]. split; [exact H2|]. split; [|exact Hph].
      intros k' t' r' Ht' Hw. cbn [setWorker workers] in Hw.
      apply list_lookup_insert_Some in Hw as [(-> & [= -> ->] & _)|(_ & Hw)];
        eapply H3; eauto.
Qed.

Lemma onDisk_tuiEmit (e : Event) (w : World) (t : downloadTask) :
  onDisk w t -> onDisk (tuiEmit b e w) t.
Proof. unfold onDisk. now rewrite (fs_tuiEmit b). Qed.

Lemma honest_tuiEmit (e : Event) (w : World) (t : downloadTask) (r : downloadResult) :
  honest w t r -> honest (tuiEmit b e w) t r.
Proof. intros H He. now apply onDisk_tuiEmit, H. Qed.

Lemma builderStep_madeInv (coin : bool) (s : BuilderState) (p : Pool) (w : World) :
  madeInv tasks s p w ->
  let r := builderStep b ctx tasks coin s p w in
  madeInv tasks (fst (fst r)) (snd (fst r)) (snd r).
Proof.
  intros (H1 & H2 & H3 & Hph). cbv zeta. unfold builderStep.
  destruct (phase s) as [[|task rest]|[|task rest]|e] eqn:Eph.
  - (* the task channel is closed *)
    cbn [fst snd]. unfold madeInv, pending in *.
    cbn [setPhase phase closeTaskChan taskChan resultChans workers].
    rewrite Eph in H1. destruct Hph as [sent Hsent]. rewrite app_nil_r in Hsent.
    split; [exact H1|]. split; [exact H2|]. split; [exact H3|].
    exists []. split; [reflexivity|constructor].
  - (* a task is sent, or the builder gives up *)
    destruct Hph as [sent Hsent]. unfold madeInv, pending in *. rewrite Eph in H1.
    destruct (select2 _ _ _) as [[|]|];
      cbn [fst snd setPhase phase setTaskChan taskChan resultChans workers].
    + split; [|now repeat split].
      intros t Ht. apply H1. rewrite in_app_iff. now right.
    + split; [|split; [exact H2|split; [exact H3|]]].
      * intros t Ht. apply H1. rewrite !in_app_iff in *. cbn [In] in *. tauto.
      * exists (sent ++ [task]). now rewrite <- app_assoc.
    + split; [|split; [exact H2|split; [exact H3|]]].
      * intros t Ht. apply H1. rewrite !in_app_iff in *. cbn [In] in *. tauto.
      * exists (sent ++ [task]). now rewrite <- app_assoc.
  - (* every outcome has been received *)
    destruct Hph as (done & Hdone & Hmade). rewrite app_nil_r in Hdone. subst done.
    cbn [fst snd]. unfold madeInv, pending in *. rewrite Eph in H1.
    cbn [setPhase phase]. now repeat split.
  - (* the wait for the outcome of [task] *)
    destruct Hph as (done & Hdone & Hmade).
    assert (Hsame : forall s', phase s' = phase s -> madeInv tasks s' p w).
    { intros s' Hs'. unfold madeInv, pending. rewrite Hs', Eph.
      unfold pending in H1. rewrite Eph in H1.
      split; [exact H1|]. split; [exact H2|]. split; [exact H3|]. now exists done. }
    assert (Hret : forall e s' p',
              taskChan p' = taskChan p ->
              (forall ch x, resultChans p' !! ch = Some (Some x) ->
                            resultChans p !! ch = Some (Some x)) ->
              workers p' = workers p ->
              madeInv tasks (fst (returnError b e s' w)) p'
                      (snd (returnError b e s' w))).
    { intros e s' p' Hq Hc Hw. unfold returnError, madeInv, pending.
      cbn [fst snd setPhase phase]. rewrite Hq, Hw.
      unfold pending in H1. rewrite Eph in H1.
      split; [exact H1|]. split; [|split; [|exact I]].
      - intros t r Ht Hr. apply honest_tuiEmit. eapply H2; eauto.
      - intros k t r Ht Hr. apply honest_tuiEmit. eapply H3; eauto. }
    destruct (select2 _ _ _) as [[|]|].
    + pose proof (Hret ErrCancelled s p eq_refl (fun _ _ H => H) eq_refl) as H.
      now destruct (returnError b ErrCancelled s w).
    + destruct (resultReady p (result task)) as [r|] eqn:Er; [|now apply Hsame].
      assert (Hchan : resultChans p !! result task = Some (Some r)).
      { unfold resultReady in Er.
        destruct (resultChans p !! result task) as [[x|]|]; congruence. }
      assert (Htask : In task tasks).
      { rewrite Hdone, in_app_iff. right. now left. }
      assert (Hless : forall ch x,
                resultChans (setResultChan (result task) None p) !! ch = Some (Some x) ->
                resultChans p !! ch = Some (Some x)).
      { intros ch x Hx. cbn [setResultChan resultChans] in Hx.
        now apply list_lookup_insert_Some in Hx as [(_ & [=] & _)|(_ & Hx)]. }
      destruct (err r) as [e|] eqn:Eerr.
      * match goal with
        | |- context [returnError b e ?s1 w] =>
            pose proof (Hret e s1 (setResultChan (result task) None p) eq_refl
                          Hless eq_refl) as H;
            destruct (returnError b e s1 w)
        end.
        exact H.
      * cbn [fst snd]. unfold madeInv, pending.
        cbn [phase setResultChan taskChan workers].
        unfold pending in H1. rewrite Eph in H1.
        split; [exact H1|]. split; [|split].
        -- intros t r' Ht Hr. apply honest_tuiEmit.
           eapply H2; [exact Ht|]. apply Hless. exact Hr.
        -- intros k t r' Ht Hr. apply honest_tuiEmit. eapply H3; eauto.
        -- exists (done ++ [task]). split; [now rewrite <- app_assoc|].
           apply Forall_app. split.
           ++ eapply Forall_impl; [exact Hmade|]. intros t. apply onDisk_tuiEmit.
           ++ constructor; [|constructor].
              apply onDisk_tuiEmit. exact (H2 task r Htask Hchan Eerr).
    + destruct (resultReady p (result task)); now apply Hsame.
  - cbn [fst snd]. unfold madeInv. rewrite Eph. unfold madeInv in *.
    now repeat split.
Qed.

Lemma tick_madeInv (t : Tick) (s : BuilderState) (p : Pool) (w : World) :
  madeInv tasks s p w ->
  let r := tick env b ctx tasks t s p w in
  madeInv tasks (fst (fst r)) (snd (fst r)) (snd r).
Proof.
  intros H. destruct t as [|k|coin]; cbn [tick].
  - exact H.
  - pose proof (workerStep_madeInv k s p w H) as H'. cbv zeta in H'.
    now destruct (workerStep env b ctx k p w).
  - now apply builderStep_madeInv.
Qed.

End Made.

(** When [handleDownloadTasks] returns no error, every task for a
    mandatory file has its file on disk, under every interleaving. *)
Lemma handleDownloadTasks_made (env : Env) (b : Live2dBuilder) (ctx : Context)
    (tasks : list downloadTask) (sched : list Tick) (m : Live2dModel)
    (completed : nat) (w : World) (m' : Live2dModel) :
  NoDup (map result tasks) ->
  fst (handleDownloadTasks env b ctx sched tasks m completed w) = Ok m' ->
  Forall (onDisk (snd (handleDownloadTasks env b ctx sched tasks m completed w)))
         tasks.
Proof.
  intros Hnd. unfold handleDownloadTasks.
  destruct tasks as [|t0 l] eqn:Et; [constructor|]. rewrite <- Et in *.
  pose proof (runPool_invariant env b ctx tasks (fun _ => True)
                (fun s p w' => madeInv tasks s p w')) as Hinv.
  cbv zeta in Hinv.
  specialize (Hinv (fun t s p w' _ H => tick_madeInv env b ctx tasks Hnd t s p w' H)
                sched (startBuilder tasks m completed) (startWorkerPool env tasks) w
                (Forall_true _ _ (fun _ => I))).
  destruct (runPool env b ctx tasks sched _ _ w) as [[s p] w'].
  cbn [fst snd] in *.
  destruct (phase s) as [rest|rest|[e|]] eqn:Eph; try discriminate. intros _.
  destruct Hinv as (_ & _ & _ & H).
  - unfold madeInv, pending, startBuilder, startWorkerPool.
    cbn [phase taskChan resultChans workers].
    split; [intros t; rewrite app_nil_r; auto|].
    split.
    { intros t r _ Hr. apply lookup_replicate in Hr as [[=] _]. }
    split.
    { intros k t r _ Hr. apply lookup_replicate in Hr as [[=] _]. }
    now exists [].
  - now rewrite Eph in H.
Qed.

Section SecondBuild.

Variables (env : Env) (b : Live2dBuilder).

(** After a body of [Construct] that returns no error, the file of every
    task for a mandatory file is on disk, and no file has gone. *)
Lemma constructBody_made (ctx : Context) (sched : list Tick) (w w' : World) :
  constructBody env b sched ctx w = (Ok tt, w') ->
  Forall (onDisk w') (fst (prepared env (fs w) (requiredFiles env b))) /\
  (forall p, is_Some (fs w !! p) -> is_Some (fs w' !! p)).
Proof.
  intros E. split; [|now apply constructBody_frame in E as (_ & H & _)].
  unfold constructBody, initializeDownloadProgress in E.
  unfold bind at 1 in E. rewrite (tui_run b) in E.
  unfold bind at 1 in E. rewrite prepareDownloadTasks_spec in E.
  rewrite (tui_fs b) in E.
  pose proof (prepared_channels env b (fs w)) as Hids. cbv zeta in Hids.
  destruct (prepared env (fs w) (requiredFiles env b)) as [tasks existing].
  cbn [fst snd] in *.
  destruct (processExistingFiles env b existing emptyModel 0 _)
    as [[[m completed]|e|] w3]; try discriminate.
  apply bind_inv in E as [(m' & w4 & E4 & E)|[(e & _ & [=])|[_ [=]]]].
  assert (Hnd : NoDup (map result tasks)) by (rewrite Hids; apply NoDup_seq).
  pose proof (handleDownloadTasks_made env b ctx tasks sched m completed w3 m' Hnd) as H.
  rewrite E4 in H. cbn [fst snd] in H. specialize (H eq_refl).
  pose proof (createModelData_frame env b m' w4) as [(_ & Hkeep & _) _].
  rewrite E in Hkeep. cbn [snd] in Hkeep.
  eapply Forall_impl; [exact H|]. intros t Ht Hmand. apply Hkeep. now apply Ht.
Qed.

Lemma Construct_made (coin : bool) (sched : list Tick) (w : World) :
  fst (Construct env b coin sched w) = Ok tt ->
  Forall (onDisk (snd (Construct env b coin sched w)))
         (fst (prepared env (fs w) (requiredFiles env b))) /\
  (forall p, is_Some (fs w !! p) -> is_Some (fs (snd (Construct env b coin sched w)) !! p)).
Proof.
  unfold Construct, bind.
  pose proof (setupDownloadEnvironment_spec env b coin w) as Hs.
  destruct (setupDownloadEnvironment env b coin w) as [[ctx|e|] w0];
    try discriminate.
  destruct Hs as (_ & _ & _ & Hfs & _). unfold deferRelease.
  destruct (constructBody env b sched ctx w0) as [rb w1] eqn:Eb.
  destruct rb as [[]|e|]; try discriminate.
  2:{ unfold release. destruct (modelSem w1); discriminate. }
  apply constructBody_made in Eb as [Hmade Hkeep]. rewrite Hfs in Hmade, Hkeep.
  unfold release. destruct (modelSem w1); [discriminate|]. cbn [fst snd].
  intros _. split; [exact Hmade|exact Hkeep].
Qed.

Lemma filter_nil {A} (f : A -> bool) (l : list A) :
  (forall x, In x l -> f x = false) -> List.filter f l = [].
Proof.
  induction l as [|x l IH]; intros H; [reflexivity|].
  cbn [List.filter]. rewrite (H x) by now left.
  apply IH. intros y Hy. apply H. now right.
Qed.

End SecondBuild.

(** After a [Construct] call that returned no error, whatever the
    interleaving, the existence check finds every mandatory file
    present: it was there before the call, or a worker created it and
    copied to it before its task was counted.  So a second
    [prepareDownloadTasks] creates no task, or the single task of the
    physics file, the one file that may be missing at the remote. *)
Theorem successful_build_needs_no_second_download
    (env : Env) (b : Live2dBuilder) (coin : bool) (sched : list Tick) (w : World) :
  let r := Construct env b coin sched w in
  fst r = Ok tt ->
  (forall bf file,
     In (bf, file, false) (requiredFiles env b) ->
     reportsMissing env (fs (snd r)) file = false) /\
  exists tasks existing w',
    prepareDownloadTasks env b (snd r) = (Ok (tasks, existing), w') /\
    (tasks = [] \/
     tasks = [mkTask (bdPhysics (data b)) (physicsFile env b) true 0]).
Proof.
  cbv zeta. intros Hok.
  destruct (Construct_made env b coin sched w Hok) as [Hmade Hkeep].
  set (w1 := snd (Construct env b coin sched w)) in *.
  assert (Hmand : forall bf file,
            In (bf, file, false) (requiredFiles env b) ->
            reportsMissing env (fs w1) file = false).
  { intros bf file Hx. unfold reportsMissing.
    destruct (fs w1 !! file) as [c|] eqn:E1; [reflexivity|].
    destruct (statErr env file) eqn:Est; [reflexivity|]. exfalso.
    destruct (fs w !! file) as [c|] eqn:E0.
    { destruct (Hkeep file (ex_intro _ c E0)) as [c' Hc']. congruence. }
    assert (Hmiss : missingReq env (fs w) (bf, file, false) = true).
    { unfold missingReq, reportsMissing. cbn [fst snd]. now rewrite E0, Est. }
    destruct (tasksFor_has (List.filter (missingReq env (fs w)) (requiredFiles env b))
                0 bf file false) as (t & Ht & _ & Hf & Ha).
    { apply List.filter_In. now split. }
    rewrite Forall_forall in Hmade.
    destruct (Hmade t (proj2 (list_elem_of_In _ _) Ht) Ha) as [c Hc].
    rewrite Hf in Hc. congruence. }
  split; [exact Hmand|].
  rewrite prepareDownloadTasks_spec. eexists _, _, _. split; [reflexivity|].
  assert (Hmodel : missingReq env (fs w1)
                     (bdModel (data b), Join env (dataPath b) "model.moc", false)
                   = false).
  { apply (Hmand (bdModel (data b))). unfold requiredFiles. now left. }
  unfold prepared, requiredFiles. cbn [fst].
  rewrite List.filter_app. cbn [List.filter]. rewrite Hmodel.
  rewrite (filter_nil (missingReq env (fs w1))
             (requiredIn env (Join env (dataPath b) "textures") (bdTextures (data b))
              ++ requiredIn env (Join env (dataPath b) "motions") (bdMotions (data b))
              ++ requiredIn env (Join env (dataPath b) "expressions")
                   (bdExpressions (data b)))).
  2:{ intros [[bf file] allow] Hx.
      assert (Ha : allow = false).
      { rewrite !in_app_iff in Hx.
        destruct Hx as [Hx|[Hx|Hx]]; apply requiredIn_mandatory in Hx; exact Hx. }
      subst allow. unfold missingReq. cbn [fst snd]. apply (Hmand bf).
      unfold requiredFiles. apply in_app_iff. right. exact Hx. }
  rewrite app_nil_r.
  destruct (missingReq env (fs w1)
              (bdPhysics (data b), Join env (dataPath b) "physics.json", true));
    [right|left]; reflexivity.
Qed.

Lemma successful_build_needs_no_second_download_witness :
  let r := Construct demoEnv (Demo.builder demoEnv) false (roundRobin 3)
                     Demo.world0 in
  reportsMissing demoEnv (fs (snd r)) "out/anon/data/textures/texture_00.png" = false /\
  fst (prepared demoEnv (fs (snd r)) (requiredFiles demoEnv (Demo.builder demoEnv)))
  = [mkTask (mkBundleFile Demo.bundle "physics.json") "out/anon/data/physics.json"
            true 0].
Proof.
  cbv zeta.
  destruct (successful_build_needs_no_second_download demoEnv (Demo.builder demoEnv)
              false (roundRobin 3) Demo.world0) as [Hmand _].
  - vm_compute. reflexivity.
  - split.
    + apply (Hmand (mkBundleFile Demo.bundle "texture_00.png")).
      vm_compute. tauto.
    + vm_compute. reflexivity.
Defined.

(* ===================================================================== *)
(** * The order of the files in the manifest                              *)
(* ===================================================================== *)

Section ManifestOrder.

Variables (env : Env) (b : Live2dBuilder).

Lemma updateAll_app (m : Live2dModel) (u1 u2 : list (string * string)) :
  updateAll m (u1 ++ u2) = updateAll (updateAll m u1) u2.
Proof. unfold updateAll. apply fold_left_app. Qed.

Lemma foldExisting_updateAll (files : list string) :
  forall m,
    Forall (fun p => is_Some (Rel env (path b) p)) files ->
    foldExisting env b m files = updateAll m (map (updateFor env b) files).
Proof.
  induction files as [|file files IH]; intros m Hrel; [reflexivity|].
  apply Forall_cons in Hrel as [[rel Hfile] Hrel].
  unfold foldExisting, updateAll in *. cbn [fold_left map updateFor fst snd].
  unfold relOf. rewrite Hfile. now apply IH.
Qed.

Lemma foldTasks_updateAll (tasks : list downloadTask) :
  forall m,
    Forall (taskOk env b) tasks ->
    foldTasks env b m tasks
    = updateAll m (map (updateFor env b) (map filePath tasks)).
Proof.
  induction tasks as [|t tasks IH]; intros m Hok; [reflexivity|].
  apply Forall_cons in Hok as [Ht Hok].
  unfold foldTasks, updateAll in *. cbn [fold_left map updateFor fst snd].
  assert (Hrel : relPath (taskResult env b t) = relOf env b (filePath t)).
  { unfold taskOk, taskResult in *. unfold relOf.
    destruct (fetchError env t); [discriminate|].
    now destruct (Rel env (path b) (filePath t)). }
  rewrite Hrel. now apply IH.
Qed.

Lemma filter_updateFor (ft : FileType) (files : list string) :
  List.filter (updateOf ft) (map (updateFor env b) files)
  = map (updateFor env b) (List.filter (classifiedAs ft) files).
Proof.
  induction files as [|file files IH]; [reflexivity|].
  cbn [map List.filter]. rewrite IH.
  change (updateOf ft (updateFor env b file)) with (classifiedAs ft file).
  now destruct (classifiedAs ft file).
Qed.

Lemma prepared_paths (files : gmap string string) :
  map filePath (fst (prepared env files (requiredFiles env b)))
  = List.filter (reportsMissing env files) (requiredPaths env b) /\
  snd (prepared env files (requiredFiles env b))
  = List.filter (fun p => negb (reportsMissing env files p)) (requiredPaths env b).
Proof.
  assert (Hmap : forall (f : string -> bool) (l : list (BundleFile * string * bool)),
             map (fun x => snd (fst x)) (List.filter (fun x => f (snd (fst x))) l)
             = List.filter f (map (fun x => snd (fst x)) l)).
  { intros f l. induction l as [|x l IH]; simpl; [reflexivity|].
    destruct (f (snd (fst x))); simpl; now rewrite IH. }
  unfold prepared, requiredPaths. cbn [fst snd]. rewrite tasksFor_filePath.
  split.
  - apply (Hmap (reportsMissing env files)).
  - apply (Hmap (fun p => negb (reportsMissing env files p))).
Qed.

End ManifestOrder.

(** The manifest of a build that nothing disturbs and that returns no
    error is that of the accumulator updated with the files found on
    disk first, in the order of [prepareDownloadTasks], and then with
    the files downloaded, in that order.  So its textures are those
    found on disk followed by those downloaded, and its expressions
    likewise: when a texture is missing and a later one is not, the
    manifest lists them in the other order than the build data. *)
Theorem manifest_lists_files_on_disk_first
    (env : Env) (b : Live2dBuilder) (coin : bool) (sched : list Tick) (w : World) :
  undisturbed env b sched w ->
  let r := Construct env b coin sched w in
  fst r = Ok tt ->
  let found := List.filter (fun p => negb (reportsMissing env (fs w) p))
                           (requiredPaths env b) in
  let fetched := List.filter (reportsMissing env (fs w)) (requiredPaths env b) in
  let m := updateAll emptyModel (map (updateFor env b) (found ++ fetched)) in
  fs (snd r) !! manifestPath env b = Some (GoJSON.MarshalIndent (modelDataOf m)) /\
  Textures m
  = map (relOf env b) (List.filter (classifiedAs FtTexture) found)
    ++ map (relOf env b) (List.filter (classifiedAs FtTexture) fetched) /\
  Expressions m
  = map (fun p => mkExpressionFile (nameOf p) (relOf env b p))
        (List.filter (classifiedAs FtExpression) found)
    ++ map (fun p => mkExpressionFile (nameOf p) (relOf env b p))
           (List.filter (classifiedAs FtExpression) fetched).
Proof.
  intros Hu r Hok found fetched m.
  pose proof (Construct_undisturbed env b coin sched w Hu) as (_ & Hres & _).
  cbv zeta in Hres. fold r in Hres. rewrite Hok in Hres.
  destruct Hres as [Htasks Hmanifest].
  destruct Hu as (_ & _ & _ & _ & Hrel).
  destruct (prepared_paths env b (fs w)) as [Hfetched Hfound].
  fold fetched in Hfetched. fold found in Hfound.
  split.
  - rewrite Hmanifest. do 3 f_equal.
    rewrite (foldTasks_updateAll env b _ _ Htasks), Hfetched.
    rewrite (foldExisting_updateAll env b) by now apply existing_have_rel.
    rewrite Hfound. unfold m. now rewrite map_app, updateAll_app.
  - destruct (updateAll_fields (map (updateFor env b) (found ++ fetched)) emptyModel)
      as (HT & HE & _).
    fold m in HT, HE. rewrite HT, HE. cbn [Textures Expressions emptyModel app].
    rewrite !filter_updateFor, !List.filter_app, !map_app, !map_map.
    split; reflexivity.
Qed.

Lemma manifest_lists_files_on_disk_first_witness :
  let r := Construct demoEnv twoTexturesBuilder false (roundRobin 3)
                     secondTextureOnDisk in
  map FileName (bdTextures twoTextures) = ["texture_00.png"; "texture_01.png"] /\
  exists m,
    fs (snd r) !! "out/anon/model.json" = Some (GoJSON.MarshalIndent (modelDataOf m)) /\
    Textures m = ["data/textures/texture_01.png"; "data/textures/texture_00.png"].
Proof.
  cbv zeta. split; [reflexivity|].
  destruct (manifest_lists_files_on_disk_first demoEnv twoTexturesBuilder false
              (roundRobin 3) secondTextureOnDisk) as (Hmanifest & Htextures & _).
  - unfold undisturbed, semHasRoom.
    split; [reflexivity|].
    split; [apply roundRobin_calm|].
    split; [reflexivity|]. split; [reflexivity|].
    repeat constructor; eexists; vm_compute; reflexivity.
  - vm_compute. reflexivity.
  - eexists. split; [exact Hmanifest|].
    rewrite Htextures. vm_compute. reflexivity.
Defined.

(* ===================================================================== *)
(** * The manifest of a build with nothing to list                        *)
(* ===================================================================== *)

Section EmptyLists.

Lemma fieldsText_app (depth : nat) (l1 l2 : list (string * GoJSON.JSON)) :
  fieldsText depth (l1 ++ l2) = fieldsText depth l1 +:+ fieldsText depth l2.
Proof.
  induction l1 as [|[k y] l1 IH]; [reflexivity|].
  cbn [app]. rewrite !fieldsText_cons, IH, !string_app_assoc. reflexivity.
Qed.

End EmptyLists.

(** The accumulator holds nil slices until a file is appended, and
    [model.Data] has no [omitempty]: a build without expressions writes
    [null], not an empty array, for the expressions, at the end of the
    manifest; and the manifest of a build that has only a model and a
    physics path is the fixed header, the two paths, [null] for the
    textures and the expressions and an empty object for the motions. *)
Theorem manifest_writes_null_for_no_files (m : Live2dModel) :
  (Expressions m = [] ->
   GoJSON.MarshalIndent (modelDataOf m)
   = fixedHeader +:+
     fieldsText 1
       [ ("model", GoJSON.JStr (Model m));
         ("physics", GoJSON.JStr (Physics m));
         ("textures", GoJSON.encSlice GoJSON.JStr (Textures m));
         ("motions", GoJSON.encMap (GoJSON.encSlice GoJSON.encMotionFile) (Motions m)) ]
     +:+ noExpressionsEnd) /\
  (Textures m = [] -> Motions m = ∅ -> Expressions m = [] ->
   GoJSON.MarshalIndent (modelDataOf m)
   = fixedHeader +:+ modelLabel +:+ GoJSON.quote (Model m) +:+
     physicsLabel +:+ GoJSON.quote (Physics m) +:+ nothingElseEnd).
Proof.
  split.
  - intros He. rewrite manifest_header, He.
    change [("model", GoJSON.JStr (Model m)); ("physics", GoJSON.JStr (Physics m));
            ("textures", GoJSON.encSlice GoJSON.JStr (Textures m));
            ("motions", GoJSON.encMap (GoJSON.encSlice GoJSON.encMotionFile)
                          (Motions m));
            ("expressions", GoJSON.encSlice GoJSON.encExpressionFile [])]
      with ([("model", GoJSON.JStr (Model m)); ("physics", GoJSON.JStr (Physics m));
             ("textures", GoJSON.encSlice GoJSON.JStr (Textures m));
             ("motions", GoJSON.encMap (GoJSON.encSlice GoJSON.encMotionFile)
                           (Motions m))]
            ++ [("expressions", GoJSON.encSlice GoJSON.encExpressionFile [])]).
    rewrite fieldsText_app, !string_app_assoc. reflexivity.
  - intros Ht Hm He. rewrite manifest_header, Ht, Hm, He.
    rewrite !fieldsText_cons.
    change (GoJSON.render 1 (GoJSON.JStr (Model m))) with (GoJSON.quote (Model m)).
    change (GoJSON.render 1 (GoJSON.JStr (Physics m))) with (GoJSON.quote (Physics m)).
    rewrite !string_app_assoc.
    apply (f_equal (String.append fixedHeader)).
    change (("," +:+ GoJSON.nl 1 +:+ GoJSON.quote "model" +:+ ": " +:+ GoJSON.quote (Model m)
             +:+ "," +:+ GoJSON.nl 1 +:+ GoJSON.quote "physics" +:+ ": "
             +:+ GoJSON.quote (Physics m) +:+ nothingElseEnd)
            = modelLabel +:+ GoJSON.quote (Model m) +:+ physicsLabel
              +:+ GoJSON.quote (Physics m) +:+ nothingElseEnd).
    reflexivity.
Qed.

Lemma manifest_writes_null_for_no_files_witness :
  let m := updateModelData emptyModel "out/anon/data/model.moc" "data/model.moc" in
  exists text,
    GoJSON.MarshalIndent (modelDataOf m) = fixedHeader +:+ text /\
    String.length text = 108.
Proof.
  cbv zeta.
  destruct (manifest_writes_null_for_no_files
              (updateModelData emptyModel "out/anon/data/model.moc" "data/model.moc"))
    as [_ H].
  eexists. split; [apply H; reflexivity|]. vm_compute. reflexivity.
Defined.

(* ===================================================================== *)
(** * The callers of [Construct] and the cancellation error               *)
(* ===================================================================== *)

Section Callers.

Variables (env : Env) (app : App).

(** No error of [downloadLive2d] has the text of the cancellation
    error: [Construct]'s errors are wrapped, the others have texts of
    their own. *)
Lemma appErrorText_not_cancelled (e : appError) :
  String.eqb (appErrorText app e) ErrDownloadCancelled = false.
Proof. destruct e as [d|[|d]|e]; reflexivity. Qed.

End Callers.

(** [handleDirectDownload] and [downloadModel] tell a cancelled
    download from a failed one by comparing the text of the error with
    the text of the cancellation error.  But [downloadLive2d] returns
    the error of [Construct] wrapped in a text of its own, so the
    comparison never holds: [handleDirectDownload] never returns false,
    [downloadModel] never sends on the error channel, and a [Construct]
    that returns the cancellation error is shown as a failed download,
    with the main loop told to go on. *)
Theorem cancelled_download_is_shown_as_failed
    (env : Env) (app : App) (name : string) (coin : bool) (sched : list Tick)
    (scr : Screen) (w : World) :
  fst (fst (handleDirectDownload env app name coin sched scr w)) <> Some false /\
  (forall sent completed,
     fst (downloadModel env app name coin sched w) = Some (sent, completed) ->
     sent = None) /\
  (forall data path,
     HasSuffix name "_rip" = false ->
     GetLive2dData app name = inr data -> getLive2dPath app name = inr path ->
     fst (Construct env (appBuilder env path data name) coin sched
                    (emit (EvAddDownloadItem name 1) w))
     = Fail ErrCancelled ->
     let r := handleDirectDownload env app name coin sched scr w in
     fst (fst r) = Some true /\
     State (snd (fst r)) = "input" /\
     ErrorMessage (snd (fst r)) = "下载失败: 构建Live2D模型失败: 下载已取消").
Proof.
  split; [|split].
  - unfold handleDirectDownload.
    destruct (downloadLive2d env app _ coin sched _) as [[[e|]|] w']; cbn [fst];
      try discriminate.
    rewrite appErrorText_not_cancelled. discriminate.
  - intros sent completed. unfold downloadModel.
    destruct (downloadLive2d env app name coin sched w) as [[[e|]|] w']; cbn [fst];
      try discriminate.
    + rewrite appErrorText_not_cancelled. now intros [= <- _].
    + now intros [= <- _].
  - intros data path Hrip Hdata Hpath Hc. cbv zeta.
    unfold handleDirectDownload, downloadLive2d. rewrite Hrip, Hdata, Hpath.
    destruct (Construct env (appBuilder env path data name) coin sched _)
      as [[[]|e|] w']; cbn [fst] in Hc; try discriminate.
    injection Hc as ->. rewrite appErrorText_not_cancelled.
    cbn [fst snd State ErrorMessage]. now repeat split.
Qed.

Lemma cancelled_download_is_shown_as_failed_witness :
  let env := Demo.env [] 1 1 in
  let app := {| GetLive2dData := fun _ => inr Demo.buildData;
                getLive2dPath := fun _ => inr "out/anon";
                errDetail := fun _ => "" |} in
  let r := handleDirectDownload env app "037_general" false []
             (mkScreen "input" "") (setSem 1 (setDone Demo.world0)) in
  fst (fst r) = Some true /\ State (snd (fst r)) = "input".
Proof.
  cbv zeta.
  match goal with
  | |- fst (fst (handleDirectDownload ?e ?a ?n ?c ?s ?scr ?w)) = _ /\ _ =>
      destruct (cancelled_download_is_shown_as_failed e a n c s scr w) as (_ & _ & H);
      destruct (H Demo.buildData "out/anon" eq_refl eq_refl eq_refl) as (H1 & H2 & _)
  end.
  - vm_compute. reflexivity.
  - split; [exact H1|exact H2].
Defined.

(* ===================================================================== *)
(** * A build that finds every file on disk                               *)
(* ===================================================================== *)

Section AllPresent.

Variables (env : Env) (b : Live2dBuilder).

Lemma filter_all {A} (f : A -> bool) (l : list A) :
  (forall x, In x l -> f x = true) -> List.filter f l = l.
Proof.
  induction l as [|x l IH]; intros H; [reflexivity|].
  cbn [List.filter]. rewrite (H x) by now left.
  f_equal. apply IH. intros y Hy. apply H. now right.
Qed.

Lemma prepared_all_present (files : gmap string string) :
  (forall p, In p (requiredPaths env b) -> reportsMissing env files p = false) ->
  prepared env files (requiredFiles env b) = ([], requiredPaths env b).
Proof.
  intros Hall. destruct (prepared_paths env b files) as [Ht He].
  rewrite filter_nil in Ht by exact Hall.
  rewrite filter_all in He by (intros p Hp; now rewrite (Hall p Hp)).
  apply map_eq_nil in Ht.
  destruct (prepared env files (requiredFiles env b)) as [tasks existing].
  cbn [fst snd] in *. now subst.
Qed.

(** The body of [Construct] when every required file is reported
    present: no task, and so no worker and no wait. *)
Lemma constructBody_all_present (ctx : Context) (sched : list Tick) (w : World) :
  Forall (fun p => reportsMissing env (fs w) p = false /\
                   is_Some (Rel env (path b) p)) (requiredPaths env b) ->
  writeFileErr env (manifestPath env b) = false ->
  let r := constructBody env b sched ctx w in
  let m := updateAll emptyModel (map (updateFor env b) (requiredPaths env b)) in
  fst r = Ok tt /\
  fs (snd r) = <[manifestPath env b := GoJSON.MarshalIndent (modelDataOf m)]> (fs w) /\
  modelSem (snd r) = modelSem w /\
  trace (snd r)
  = trace w ++ announcement b ++ map EvStat (requiredPaths env b)
    ++ progressEvents b 0 (totalFiles b) ++ [EvWriteFile (manifestPath env b) true].
Proof.
  intros Hall Hwrite. cbv zeta.
  assert (Hmiss : forall p, In p (requiredPaths env b) ->
                            reportsMissing env (fs w) p = false).
  { intros p Hp. rewrite Forall_forall in Hall.
    now apply (Hall p (proj2 (list_elem_of_In _ _) Hp)). }
  assert (Hrel : Forall (fun p => is_Some (Rel env (path b) p)) (requiredPaths env b)).
  { eapply Forall_impl; [exact Hall|]. now intros p [_ H]. }
  remember (constructBody env b sched ctx w) as r eqn:E.
  unfold constructBody, initializeDownloadProgress in E.
  unfold bind at 1 in E. rewrite (tui_run b) in E. fold (totalFiles b) in E.
  unfold bind at 1 in E. rewrite prepareDownloadTasks_spec, (tui_fs b) in E.
  rewrite (prepared_all_present (fs w) Hmiss) in E.
  set (w1 := emitAll _ _) in E.
  assert (H1 : fs w1 = fs w /\ modelSem w1 = modelSem w /\
               trace w1 = trace w ++ announcement b ++ map EvStat (requiredPaths env b)).
  { unfold w1, emitAll. cbn [fs modelSem trace]. rewrite (tui_fs b), (tui_trace b).
    unfold announcement, statEvents, requiredPaths.
    rewrite map_map, <- app_assoc.
    destruct (hasTui (downloader b)); now repeat split. }
  destruct H1 as (Hfs1 & Hsem1 & Htr1).
  destruct (processExistingFiles_prefix env b (requiredPaths env b) [] emptyModel 0 w1
              Hrel) as (w2 & Hrun & Hfs2 & Htr2).
  rewrite app_nil_r in Hrun.
  assert (Hsem2 : modelSem w2 = modelSem w1).
  { pose proof (processExistingFiles_quiet env b (requiredPaths env b) emptyModel 0 w1)
      as (H & _). now rewrite Hrun in H. }
  rewrite Hrun in E. cbn [processExistingFiles ret] in E.
  unfold bind in E. cbn [handleDownloadTasks ret] in E.
  rewrite createModelData_spec in E by exact Hwrite. subst r.
  cbn [fst snd fs setFs emit modelSem trace].
  rewrite (foldExisting_updateAll env b) by exact Hrel.
  rewrite Hfs2, Hfs1, Hsem2, Hsem1, Htr2, Htr1.
  assert (Hlen : length (requiredPaths env b) = totalFiles b).
  { unfold requiredPaths. now rewrite length_map, requiredFiles_length. }
  rewrite Hlen, <- !app_assoc. now repeat split.
Qed.

End AllPresent.

(** A [Construct] call that gets a slot and finds every required file
    reported present, with a relative path, creates no task: it starts
    no worker and makes no request, whatever the interleaving and
    whether or not the cancellation signal fires after the gate.  It
    reports every file, writes the manifest of the accumulator updated
    with the required files in the order of [prepareDownloadTasks],
    gives back its slot and returns no error. *)
Theorem Construct_with_all_files_present
    (env : Env) (b : Live2dBuilder) (coin : bool) (sched : list Tick) (w : World) :
  semHasRoom env w = true ->
  isDone (builderContext b) w = false \/ coin = false ->
  mkdirErr env (dataPath b) = false ->
  Forall (fun p => reportsMissing env (fs w) p = false /\
                   is_Some (Rel env (path b) p)) (requiredPaths env b) ->
  writeFileErr env (manifestPath env b) = false ->
  let r := Construct env b coin sched w in
  let m := updateAll emptyModel (map (updateFor env b) (requiredPaths env b)) in
  fst r = Ok tt /\
  fs (snd r) = <[manifestPath env b := GoJSON.MarshalIndent (modelDataOf m)]> (fs w) /\
  modelSem (snd r) = modelSem w /\
  trace (snd r)
  = trace w ++ [EvAcquire; EvMkdirAll (dataPath b)] ++ announcement b
    ++ map EvStat (requiredPaths env b) ++ progressEvents b 0 (totalFiles b)
    ++ [EvWriteFile (manifestPath env b) true; EvRelease].
Proof.
  intros Hroom Hgate Hmk Hall Hwrite. cbv zeta.
  unfold Construct, setupDownloadEnvironment, acquire, osMkdirAll.
  monad_unfold. rewrite Hroom.
  assert (Hsel : select2 (isDone (builderContext b) w) true coin = Some false).
  { destruct Hgate as [-> | ->]; [reflexivity|].
    now destruct (isDone (builderContext b) w). }
  rewrite Hsel, Hmk. cbn [negb]. unfold deferRelease.
  match goal with
  | |- context [constructBody env b sched (builderContext b) ?x] => set (w0 := x)
  end.
  pose proof (constructBody_all_present env b (builderContext b) sched w0) as Hbody.
  cbv zeta in Hbody.
  destruct (constructBody env b sched (builderContext b) w0) as [rb w1].
  cbn [fst snd] in Hbody.
  destruct Hbody as (-> & Hfs & Hsem & Htr); [exact Hall|exact Hwrite|].
  unfold release. rewrite Hsem.
  cbn [w0 modelSem setSem emit fst snd fs trace].
  rewrite Hfs, Htr. cbn [w0 fs trace setSem emit]. rewrite <- !app_assoc.
  now repeat split.
Qed.

Lemma Construct_with_all_files_present_witness :
  let env := Demo.env [] 0 1 in
  let b := NewLive2dBuilder env "out/anon" Demo.buildData (mkDownloader true true)
                            "anon" in
  let w := setFs (<["out/anon/data/model.moc" := "MOC"]>
                  (<["out/anon/data/physics.json" := "{}"]>
                   (<["out/anon/data/textures/texture_00.png" := "PNG"]> ∅)))
                 (setDone Demo.world0) in
  let r := Construct env b false [] w in
  fst r = Ok tt /\
  List.filter isGet (trace (snd r)) = [] /\
  List.filter isProgressCall (trace (snd r))
  = [EvAddDownloadItem "anon" 3; EvUpdateProgress "anon" 1;
     EvUpdateProgress "anon" 2; EvUpdateProgress "anon" 3].
Proof.
  cbv zeta.
  match goal with
  | |- fst (Construct ?e ?b ?c ?s ?w) = _ /\ _ =>
      destruct (Construct_with_all_files_present e b c s w) as (H1 & _ & _ & H4)
  end.
  - reflexivity.
  - now right.
  - reflexivity.
  - repeat constructor; try (eexists; vm_compute; reflexivity).
  - reflexivity.
  - split; [exact H1|]. rewrite H4. split; vm_compute; reflexivity.
Defined.

(* ===================================================================== *)
(** * The download list of the TUI model                                  *)
(* ===================================================================== *)

Section TuiList.

Import Tui.

Ltac tui_simpl :=
  cbn [Items ItemOrder DownloadList State cancelled panicked inbox
       updateDownloadList setItems setItemOrder setState setInbox send] in *.

Ltac tui_cases :=
  repeat match goal with
         | |- context [match ?x !! ?k with _ => _ end] =>
             let E := fresh "E" in destruct (x !! k) eqn:E
         | |- context [if cancelled ?m then _ else _] => destruct (cancelled m)
         | |- context [if panicked ?m then _ else _] => destruct (panicked m)
         | |- context [if String.eqb ?x ?y then _ else _] => destruct (String.eqb x y)
         | |- context [match ?msg with progressMsg _ _ _ => _ | _ => _ end] =>
             destruct msg
         end.

Ltac tui_unfold :=
  unfold step, AddDownloadItem, UpdateProgress, SendError, Update, handleProgressMsg,
         handleProgressErrMsg, handleKeyMsg, dropItems, quit.

Lemma in_updateDownloadList (m : Model) (it : DownloadItem) :
  In it (DownloadList (updateDownloadList m))
  <-> exists name, In name (ItemOrder m) /\ Items m !! name = Some it.
Proof.
  cbn [DownloadList updateDownloadList].
  rewrite <- list_elem_of_In, list_elem_of_omap.
  split; intros (name & H1 & H2); exists name; split; try exact H2;
    now apply list_elem_of_In.
Qed.

Lemma step_named (m : Model) (op : Op) : named m -> named (step m op).
Proof.
  intros Hn. destruct op; tui_unfold; tui_cases; tui_simpl; try exact Hn;
    intros k it; tui_simpl;
    try (rewrite lookup_insert_Some; intros [[<- <-]|[_ H]]; cbn [Name];
         eauto using eq_refl);
    try (intros H; now apply Hn);
    try now rewrite lookup_empty.
Qed.

Lemma run_named (ops : list Op) :
  forall m, named m -> named (run ops m).
Proof.
  induction ops as [|op ops IH]; intros m H; [exact H|].
  apply (IH (step m op)), step_named, H.
Qed.

Lemma NewModel_named : named NewModel.
Proof. intros k it. cbn. now rewrite lookup_empty. Qed.

Lemma updateDownloadList_listed (m : Model) :
  named m -> listed (updateDownloadList m).
Proof.
  intros Hn it Hit. apply in_updateDownloadList in Hit as (name & Hin & Hit).
  now rewrite (Hn name it Hit).
Qed.

Lemma step_listed (m : Model) (op : Op) :
  named m -> listed m -> listed (step m op).
Proof.
  intros Hn Hl. pose proof (step_named m op Hn) as Hn'. revert Hn'.
  destruct op; tui_unfold; tui_cases; intros Hn'; try exact Hl;
    apply updateDownloadList_listed; exact Hn'.
Qed.

Lemma run_listed (ops : list Op) :
  forall m, named m -> listed m -> listed (run ops m).
Proof.
  induction ops as [|op ops IH]; intros m Hn Hl; [exact Hl|].
  apply (IH (step m op)); [now apply step_named|now apply step_listed].
Qed.

Lemma in_without (A : Type) (i : nat) (l : list A) (x : A) :
  In x (take i l ++ drop (S i) l) -> In x l.
Proof.
  revert l. induction i as [|i IH]; intros [|y l]; cbn; auto.
  intros [->|H]; [now left|right; now apply IH].
Qed.

Lemma step_errorsWaiting (m : Model) (op : Op) :
  sendsError op = true -> errorsWaiting m -> errorsWaiting (step m op).
Proof.
  intros Hop Hw. destruct op; tui_unfold; tui_cases; try exact Hw;
    intros n Hin; tui_simpl;
    try (apply in_app_iff in Hin as [Hin|[Hin|[]]];
         [now apply (Hw n)|try discriminate]);
    try (apply in_without in Hin; now apply (Hw n)).
  injection Hin as -> ->. discriminate.
Qed.

Lemma run_errorsWaiting (ops : list Op) :
  forall m, forallb sendsError ops = true -> errorsWaiting m ->
            errorsWaiting (run ops m).
Proof.
  induction ops as [|op ops IH]; intros m Hops Hw; [exact Hw|].
  cbn [forallb] in Hops. apply andb_true_iff in Hops as [Hop Hops].
  apply (IH (step m op) Hops), step_errorsWaiting; assumption.
Qed.

Lemma step_hasError (name : string) (m : Model) (op : Op) :
  keepsItems op = true -> errorsWaiting m ->
  hasError name m -> hasError name (step m op).
Proof.
  intros Hop Hw (it & Hit & Herr).
  destruct op; try discriminate; tui_unfold; tui_cases; tui_simpl;
    try (now exists it);
    unfold hasError; tui_simpl.
  - destruct (decide (name0 = name)) as [->|Hne].
    + rewrite lookup_insert_eq. eexists. split; [reflexivity|].
      cbn [Err]. congruence.
    + rewrite lookup_insert_ne by exact Hne. now exists it.
  - rewrite lookup_insert_ne by congruence. now exists it.
  - destruct (decide (name0 = name)) as [->|Hne].
    + rewrite lookup_insert_eq. eexists. split; [reflexivity|].
      cbn [Err]. congruence.
    + rewrite lookup_insert_ne by exact Hne. now exists it.
  - rewrite lookup_insert_ne by congruence. now exists it.
  - destruct (decide (itemName = name)) as [->|Hne].
    + rewrite lookup_insert_eq. eexists. split; [reflexivity|].
      cbn [Err].
      match goal with
      | |- is_Some ?x => destruct x as [e|]; [now exists e|]
      end.
      exfalso. apply (Hw name). eapply list_elem_of_In, list_elem_of_lookup_2.
      eassumption.
    + rewrite lookup_insert_ne by exact Hne. now exists it.
Qed.

Lemma step_failed (name : string) (m : Model) (op : Op) :
  keepsItems op = true -> named m -> errorsWaiting m ->
  failed name m -> failed name (step m op).
Proof.
  intros Hop Hn Hw [Herr Hlist].
  pose proof (step_hasError name m op Hop Hw Herr) as Herr'.
  pose proof (step_named m op Hn) as Hn'.
  split; [exact Herr'|]. revert Herr' Hn'.
  destruct op; try discriminate; tui_unfold; tui_cases; intros Herr' Hn';
    try exact Hlist;
    intros it' Hin Hname;
    apply in_updateDownloadList in Hin as (k & _ & Hk);
    destruct Herr' as (it'' & Hit'' & [e He]); tui_simpl;
    rewrite <- Hname, (Hn' k it' Hk) in Hit'';
    unfold titleMark; replace it' with it'' by congruence; now rewrite He.
Qed.

Lemma run_failed (name : string) (ops : list Op) :
  forall m,
    forallb (fun op => sendsError op && keepsItems op) ops = true ->
    named m -> errorsWaiting m -> failed name m -> failed name (run ops m).
Proof.
  induction ops as [|op ops IH]; intros m Hops Hn Hw Hf; [exact Hf|].
  cbn [forallb] in Hops. apply andb_true_iff in Hops as [Hop Hops].
  apply andb_true_iff in Hop as [Hsend Hkeep].
  apply (IH (step m op) Hops);
    [now apply step_named|now apply step_errorsWaiting|now apply step_failed].
Qed.

Lemma step_unlisted (name : string) (m : Model) (op : Op) :
  keepsItems op = true -> named m ->
  unlisted name m -> unlisted name (step m op).
Proof.
  intros Hop Hn (Hsome & Hout & Hlist).
  pose proof (step_named m op Hn) as Hn'. revert Hn'.
  assert (Hupd : forall m', named m' -> ~ In name (ItemOrder m') ->
                            forall it, In it (DownloadList (updateDownloadList m')) ->
                                       Name it <> name).
  { intros m' Hn' Hout' it Hin Hname.
    apply in_updateDownloadList in Hin as (k & Hk & Hit).
    apply Hout'. now rewrite <- Hname, (Hn' k it Hit). }
  destruct op; try discriminate; tui_unfold; tui_cases; intros Hn';
    (split; [|split; [|first [exact Hlist|apply Hupd; [exact Hn'|]]]]);
    tui_simpl;
    try exact Hsome; try exact Hout;
    try (apply lookup_insert_is_Some'; now right);
    (intros Hin; apply in_app_iff in Hin as [Hin|[<-|[]]];
     [now apply Hout|rewrite E in Hsome; now destruct Hsome]).
Qed.

Lemma run_unlisted (name : string) (ops : list Op) :
  forall m,
    forallb keepsItems ops = true -> named m ->
    unlisted name m -> unlisted name (run ops m).
Proof.
  induction ops as [|op ops IH]; intros m Hops Hn Hu; [exact Hu|].
  cbn [forallb] in Hops. apply andb_true_iff in Hops as [Hop Hops].
  apply (IH (step m op) Hops); [now apply step_named|now apply step_unlisted].
Qed.

Lemma handleProgressErrMsg_failed (name : string) (e : error) (m : Model) :
  named m -> errorsWaiting m -> is_Some (Items m !! name) ->
  let m' := handleProgressErrMsg name (Some e) m in
  named m' /\ errorsWaiting m' /\ failed name m'.
Proof.
  intros Hn Hw [it Hit]. cbv zeta. unfold handleProgressErrMsg. rewrite Hit.
  assert (Hn' : named (setItems (<[name := mkItem (Name it) (Total it) (Current it)
                                                  (Some e)]> (Items m)) m)).
  { intros k it'. tui_simpl. rewrite lookup_insert_Some.
    intros [[<- <-]|[_ H]]; [exact (Hn name it Hit)|now apply Hn]. }
  split; [exact Hn'|]. split; [exact Hw|]. split.
  - eexists. tui_simpl. rewrite lookup_insert_eq. split; [reflexivity|].
    now exists e.
  - intros it' Hin Hname. apply in_updateDownloadList in Hin as (k & _ & Hk).
    pose proof (Hn' k it' Hk) as Hkn. rewrite Hname in Hkn. subst k. tui_simpl.
    rewrite lookup_insert_eq in Hk. now injection Hk as <-.
Qed.

Lemma NewModel_listed : listed NewModel.
Proof. intros it []. Qed.

Lemma NewModel_errorsWaiting : errorsWaiting NewModel.
Proof. intros name []. Qed.

End TuiList.

(** After the event loop has handled an error message for an item, the
    item keeps an error, and every list built later shows it with the
    cross, whatever is called or handled next short of the escape key:
    [AddDownloadItem] for a name that exists resets the counts and
    leaves [Err], so a second download of a model whose first download
    failed is shown as failed also when it delivers every file. *)
Theorem error_outlives_retry (ops0 ops : list Tui.Op) (name : string) (e : error) :
  forallb Tui.sendsError ops0 = true ->
  forallb (fun op => Tui.sendsError op && Tui.keepsItems op) ops = true ->
  is_Some (Tui.Items (Tui.run ops0 Tui.NewModel) !! name) ->
  Tui.failed name
    (Tui.run ops (Tui.handleProgressErrMsg name (Some e)
                    (Tui.run ops0 Tui.NewModel))).
Proof.
  intros Hops0 Hops Hsome.
  pose proof (run_named ops0 _ NewModel_named) as Hn.
  pose proof (run_errorsWaiting ops0 _ Hops0 NewModel_errorsWaiting) as Hw.
  destruct (handleProgressErrMsg_failed name e _ Hn Hw Hsome) as (Hn' & Hw' & Hf).
  now apply run_failed.
Qed.

Lemma error_outlives_retry_witness :
  let again := [Tui.OpAdd "anon" 3;
                Tui.OpUpdate "anon" 1; Tui.OpHandle 0;
                Tui.OpUpdate "anon" 2; Tui.OpHandle 0;
                Tui.OpUpdate "anon" 3; Tui.OpHandle 0] in
  let m := Tui.run again (Tui.handleProgressErrMsg "anon" (Some ErrTransport)
                            (Tui.run [Tui.OpAdd "anon" 3] Tui.NewModel)) in
  Tui.DownloadList m = [Tui.mkItem "anon" 3 3 (Some ErrTransport)] /\
  Tui.failed "anon" m.
Proof.
  cbv zeta. split; [vm_compute; reflexivity|].
  apply (error_outlives_retry [Tui.OpAdd "anon" 3]); [reflexivity|reflexivity|].
  eexists. vm_compute. reflexivity.
Defined.

(** An item that is in [Items] without being in [ItemOrder], as
    [handleProgressMsg] leaves one for a name it does not know, is in no
    list built later, whatever is called or handled next short of the
    escape key: [AddDownloadItem] finds the name and does not add it to
    [ItemOrder]. *)
Theorem unlisted_item_is_never_shown (ops0 ops : list Tui.Op) (name : string) :
  is_Some (Tui.Items (Tui.run ops0 Tui.NewModel) !! name) ->
  ~ In name (Tui.ItemOrder (Tui.run ops0 Tui.NewModel)) ->
  forallb Tui.keepsItems ops = true ->
  Tui.unlisted name (Tui.run ops (Tui.run ops0 Tui.NewModel)).
Proof.
  intros Hsome Hout Hops.
  pose proof (run_named ops0 _ NewModel_named) as Hn.
  pose proof (run_listed ops0 _ NewModel_named NewModel_listed) as Hl.
  apply run_unlisted; [exact Hops|exact Hn|].
  split; [exact Hsome|]. split; [exact Hout|].
  intros it Hin Hname. apply Hout. rewrite <- Hname. now apply Hl.
Qed.

Lemma unlisted_item_is_never_shown_witness :
  let before := [Tui.OpAdd "anon" 3; Tui.OpSetState "downloading";
                 Tui.OpUpdate "anon" 1; Tui.OpEsc; Tui.OpHandle 0] in
  let again := [Tui.OpAdd "anon" 3; Tui.OpUpdate "anon" 1; Tui.OpHandle 0] in
  let m := Tui.run again (Tui.run before Tui.NewModel) in
  Tui.DownloadList m = [] /\ Tui.unlisted "anon" m.
Proof.
  cbv zeta. split; [vm_compute; reflexivity|].
  apply unlisted_item_is_never_shown.
  - eexists. vm_compute. reflexivity.
  - vm_compute. intros [].
  - reflexivity.
Defined.
